(** * Two-way SMS demo: conversation orchestrator, categorizer, scheduling check

    Shallow embedding of the conversation engine of [vite-project/src/app.ts]:
    the module-level globals become one [Session] record threaded through the
    handlers, every [setTimeout] callback becomes an entry of the session's
    pending list, and the strings the handlers compare stay strings.

    Strings are modelled as sequences of 8-bit characters; case mapping and
    white space are the ASCII ones ([toLowerCase] maps A-Z, [trim] strips
    TAB, LF, VT, FF, CR and SPACE). The categorizer is given a second time
    on UTF-16 code units ([Utf16]), for the statements in which the
    characters outside ASCII matter. *)

From Stdlib Require Import String Ascii List Bool Arith ZArith Lia DecimalString.
Import ListNotations.
Open Scope string_scope.
Open Scope list_scope.

(* ================================================================== *)
(** ** String primitives of the host language *)

Definition isUpper (c : ascii) : bool :=
  let n := nat_of_ascii c in ((65 <=? n) && (n <=? 90))%nat.

Definition isLower (c : ascii) : bool :=
  let n := nat_of_ascii c in ((97 <=? n) && (n <=? 122))%nat.

Definition isDigit (c : ascii) : bool :=
  let n := nat_of_ascii c in ((48 <=? n) && (n <=? 57))%nat.

(** White space and line terminators stripped by [String.prototype.trim]
    and matched by the regular-expression class [\s]. *)
Definition isWhiteSpace (c : ascii) : bool :=
  let n := nat_of_ascii c in
  (((9 <=? n) && (n <=? 13)) || (n =? 32))%nat.

Definition lowerChar (c : ascii) : ascii :=
  if isUpper c then ascii_of_nat (nat_of_ascii c + 32) else c.

Definition upperChar (c : ascii) : ascii :=
  if isLower c then ascii_of_nat (nat_of_ascii c - 32) else c.

Fixpoint toLowerCase (s : string) : string :=
  match s with
  | EmptyString => EmptyString
  | String c r => String (lowerChar c) (toLowerCase r)
  end.

Fixpoint toUpperCase (s : string) : string :=
  match s with
  | EmptyString => EmptyString
  | String c r => String (upperChar c) (toUpperCase r)
  end.

Fixpoint trimStart (s : string) : string :=
  match s with
  | EmptyString => EmptyString
  | String c r => if isWhiteSpace c then trimStart r else s
  end.

Fixpoint trimEnd (s : string) : string :=
  match s with
  | EmptyString => EmptyString
  | String c r =>
      match trimEnd r with
      | EmptyString => if isWhiteSpace c then EmptyString else String c EmptyString
      | r' => String c r'
      end
  end.

Definition trim (s : string) : string := trimEnd (trimStart s).

(** [startsWith text p]: [p] is a prefix of [text]. *)
Fixpoint startsWith (text p : string) : bool :=
  match p, text with
  | EmptyString, _ => true
  | String _ _, EmptyString => false
  | String a p', String b t' => Ascii.eqb a b && startsWith t' p'
  end.

(** [text.includes(p)]: [p] occurs somewhere in [text]. *)
Fixpoint includes (text p : string) : bool :=
  startsWith text p ||
  match text with
  | EmptyString => false
  | String _ t' => includes t' p
  end.

(** [s.padStart(2, '0')] as used on the minute field. *)
Definition padStart2 (s : string) : string :=
  match String.length s with
  | 0 => "00"
  | 1 => ("0" ++ s)%string
  | _ => s
  end.

(* ------------------------------------------------------------------ *)
(** *** The two regular expressions of the time patterns

    A matcher maps a string to the remainders left after each way of
    matching at its start, in backtracking order. *)

Definition Matcher := string -> list string.

Definition mchar (p : ascii -> bool) : Matcher :=
  fun s => match s with
           | String c r => if p c then [r] else []
           | EmptyString => []
           end.

Definition mseq (a b : Matcher) : Matcher := fun s => flat_map b (a s).

Definition malt (a b : Matcher) : Matcher := fun s => a s ++ b s.

(** [\s*], greedy. *)
Fixpoint mspaces (s : string) : list string :=
  match s with
  | String c r => if isWhiteSpace c then mspaces r ++ [s] else [s]
  | EmptyString => [EmptyString]
  end.

(** A literal compared without regard to case (the [i] flag). *)
Definition mliteral_i (lit : string) : Matcher :=
  fun s => if startsWith (toLowerCase s) (toLowerCase lit)
           then [String.substring (String.length lit) (String.length s - String.length lit) s]
           else [].

(** [\d{1,2}], greedy. *)
Definition mdigits_1_2 : Matcher :=
  malt (mseq (mchar isDigit) (mchar isDigit)) (mchar isDigit).

(** [/\d{1,2}:\d{2}/] *)
Definition re_clock : Matcher :=
  mseq mdigits_1_2
    (mseq (mchar (Ascii.eqb ":"%char))
       (mseq (mchar isDigit) (mchar isDigit))).

(** [/\d{1,2}\s*(am|pm)/i] *)
Definition re_hour_ampm : Matcher :=
  mseq mdigits_1_2
    (mseq mspaces (malt (mliteral_i "am") (mliteral_i "pm"))).

(** [re.test(text)] for an unanchored expression: some start position matches. *)
Fixpoint test (re : Matcher) (text : string) : bool :=
  negb (match re text with [] => true | _ => false end) ||
  match text with
  | EmptyString => false
  | String _ t' => test re t'
  end.

(* ================================================================== *)
(** ** Response categories and the rule-based categorizer *)

Inductive ResponseCategory :=
| Yes | CallAtDifferentTime | No | NoResponse24h | DoNotContact | UnknownMessage.

(** The string each category is in the source's [ResponseCategory] union. *)
Definition label (c : ResponseCategory) : string :=
  match c with
  | Yes => "Yes"
  | CallAtDifferentTime => "Call at a different time"
  | No => "No"
  | NoResponse24h => "24 hours later (No response)"
  | DoNotContact => "Do not contact"
  | UnknownMessage => "Unknown message"
  end.

Inductive Pattern :=
| Sub (p : string)
| Re (re : Matcher).

Definition matchesPattern (text : string) (pat : Pattern) : bool :=
  match pat with
  | Sub p => includes text p
  | Re re => test re text
  end.

Definition dncPatterns : list string :=
  [ "do not contact"; "don't contact"; "stop calling"; "stop texting"; "remove me";
    "unsubscribe"; "opt out"; "do not call"; "don't call"; "never call"; "no more calls";
    "take me off"; "remove from list"; "dnc"; "do not call list" ].

Definition timePatterns : list Pattern :=
  [ Sub "call at"; Sub "call me at"; Sub "call back at"; Sub "different time"; Sub "another time";
    Sub "later"; Sub "tomorrow"; Sub "next week"; Sub "schedule"; Sub "appointment"; Sub "when can";
    Sub "what time"; Sub "what day"; Sub "monday"; Sub "tuesday"; Sub "wednesday"; Sub "thursday"; Sub "friday";
    Sub "saturday"; Sub "sunday"; Sub "morning"; Sub "afternoon"; Sub "evening"; Sub "am"; Sub "pm";
    Re re_clock;
    Re re_hour_ampm;
    Sub "between"; Sub "after"; Sub "before" ].

Definition yesPatterns : list string :=
  [ "yes"; "yeah"; "yep"; "sure"; "ok"; "okay"; "sounds good"; "that works";
    "go ahead"; "please do"; "call me"; "call back"; "reach out"; "contact me";
    "i'm interested"; "interested"; "definitely"; "absolutely"; "of course" ].

Definition noPatterns : list string :=
  [ "no"; "nope"; "not interested"; "not now"; "maybe later"; "not right now";
    "can't"; "cannot"; "busy"; "not available"; "not a good time"; "decline";
    "pass"; "not at this time" ].

Definition categorizeUserResponsePatternMatching (userText : string) : ResponseCategory :=
  let text := trim (toLowerCase userText) in
  if existsb (includes text) dncPatterns then DoNotContact
  else if existsb (matchesPattern text) timePatterns then CallAtDifferentTime
  else if existsb (includes text) yesPatterns then Yes
  else if existsb (includes text) noPatterns then No
  else UnknownMessage.

Definition confirmVisitPatterns : list string :=
  [ "confirm a visit"; "confirm the visit"; "confirm my visit"; "confirm visit";
    "confirm a appointment"; "confirm the appointment"; "confirm my appointment";
    "confirm appointment"; "confirm my consultation"; "confirm the consultation";
    "confirm consultation"; "want to confirm a visit"; "want to confirm visit";
    "actually want to confirm"; "actually want to confirm a visit";
    "actually want to confirm my visit"; "i want to confirm"; "id like to confirm";
    "i'd like to confirm"; "appointment confirmation"; "confirm my scheduled" ].

Definition isConfirmVisitIntent (userText : string) : bool :=
  let text := trim (toLowerCase userText) in
  existsb (includes text) confirmVisitPatterns.


(* ================================================================== *)
(** ** The host: what the browser supplies

    The build-time environment and the [Date]/[Intl] formatting the handlers
    call are taken as an interface. A [Date] object is represented by the
    string it was constructed from. *)

Class Host := {
  (** [import.meta.env.VITE_OPENAI_API_KEY] *)
  VITE_OPENAI_API_KEY : option string;
  (** [new Date()] moved one day ahead and rendered with
      [toLocaleString('en-US', {weekday, year, month, day, hour, minute, hour12})] *)
  appointmentDateTime : string;
  (** [date.toLocaleDateString('en-US', {weekday, year, month, day})] *)
  toLocaleDateString : string -> string;
  (** [date.toLocaleTimeString('en-US', {hour, minute, hour12})] *)
  toLocaleTimeString : string -> string
}.

(* ================================================================== *)
(** ** The categorizer adapter *)

(** How the single [fetch] of [categorizeUserResponse] can end. *)
Inductive FetchOutcome :=
| Threw                           (* rejected promise, malformed JSON, missing [choices] *)
| HttpError (status : nat)        (* [!response.ok] *)
| Content (content : option string). (* [data.choices[0]?.message?.content] *)

(** [categorizeUserResponse] either returns without awaiting anything, or
    issues the request and continues with its outcome. *)
Inductive Classification :=
| Done (c : ResponseCategory)
| AwaitFetch (k : FetchOutcome -> ResponseCategory).

Definition isQuote (c : ascii) : bool :=
  let n := nat_of_ascii c in ((n =? 34) || (n =? 39))%nat.

Fixpoint dropLastQuote (s : string) : string :=
  match s with
  | EmptyString => EmptyString
  | String c EmptyString => if isQuote c then EmptyString else s
  | String c r => String c (dropLastQuote r)
  end.

(** [s.replace(/^["']|["']$/g, '')] *)
Definition stripQuotes (s : string) : string :=
  match s with
  | String c r => if isQuote c then dropLastQuote r else dropLastQuote s
  | EmptyString => EmptyString
  end.

Definition validCategories : list ResponseCategory :=
  [Yes; CallAtDifferentTime; No; NoResponse24h; DoNotContact; UnknownMessage].

Definition categoryMap : list (string * ResponseCategory) :=
  [ ("yes", Yes);
    ("call at a different time", CallAtDifferentTime);
    ("no", No);
    ("24 hours later (no response)", NoResponse24h);
    ("24 hours later", NoResponse24h);
    ("no response", NoResponse24h);
    ("do not contact", DoNotContact);
    ("do not call", DoNotContact);
    ("dnc", DoNotContact);
    ("unknown message", UnknownMessage);
    ("unknown", UnknownMessage) ].

(** Lookup by own key. (The two inherited keys a lower-cased string can hit,
    [constructor] and [__proto__], give a value outside [validCategories] and
    contain no key of the table, so they end in the fallback as well.) *)
Definition lookupCategory (key : string) : option ResponseCategory :=
  option_map snd (find (fun kv => String.eqb (fst kv) key) categoryMap).

(** Normalisation of the classifier's answer: exact label, then the synonym
    table, then containment either way, in the table's order. *)
Definition parseCategory (content : option string) : option ResponseCategory :=
  let rawCategory := match content with Some c => trim c | None => "" end in
  let normalizedCategory := trim (stripQuotes rawCategory) in
  match find (fun c => String.eqb (label c) normalizedCategory) validCategories with
  | Some c => Some c
  | None =>
      let lowerCategory := toLowerCase normalizedCategory in
      match lookupCategory lowerCategory with
      | Some c => Some c
      | None =>
          option_map snd
            (find (fun kv => includes lowerCategory (fst kv) || includes (fst kv) lowerCategory)
                  categoryMap)
      end
  end.

Definition usableKey (k : option string) : bool :=
  match k with
  | Some key => negb (String.eqb key "") && negb (String.eqb key "YOUR_API_KEY")
  | None => false
  end.

Section Adapter.
Context {host : Host}.

Definition categorizeUserResponse (aiEnabled : bool) (userText : string) : Classification :=
  let text := trim (toLowerCase userText) in
  if (String.length text <? 2)%nat then Done NoResponse24h
  else if negb aiEnabled then Done (categorizeUserResponsePatternMatching userText)
  else if usableKey VITE_OPENAI_API_KEY then
    AwaitFetch (fun outcome =>
      match outcome with
      | Content content =>
          match parseCategory content with
          | Some c => c
          | None => categorizeUserResponsePatternMatching userText
          end
      | HttpError _ | Threw => categorizeUserResponsePatternMatching userText
      end)
  else Done (categorizeUserResponsePatternMatching userText).

End Adapter.

(* ================================================================== *)
(** ** The categorizer on UTF-16 code units

    The same functions with strings as the host language has them:
    sequences of 16-bit code units, white space as ECMAScript defines it,
    and lower-casing left to the host, which maps some characters to more
    than one code unit. *)

Module Utf16.

Definition str := list N.

(** A literal of the source; all of them are ASCII. *)
Definition lit (s : string) : str := map N_of_ascii (list_ascii_of_string s).

Fixpoint eqb (a b : str) : bool :=
  match a, b with
  | [], [] => true
  | x :: a', y :: b' => N.eqb x y && eqb a' b'
  | _, _ => false
  end.

(** WhiteSpace and LineTerminator of ECMAScript: what [trim] strips and
    the class [\s] matches. *)
Definition isWhiteSpace (c : N) : bool :=
  (((9 <=? c) && (c <=? 13)) || (c =? 32) || (c =? 0xA0) || (c =? 0x1680)
   || ((0x2000 <=? c) && (c <=? 0x200A)) || (c =? 0x2028) || (c =? 0x2029)
   || (c =? 0x202F) || (c =? 0x205F) || (c =? 0x3000) || (c =? 0xFEFF))%N.

Definition isDigit (c : N) : bool := ((48 <=? c) && (c <=? 57))%N.

Fixpoint trimStart (s : str) : str :=
  match s with
  | [] => []
  | c :: r => if isWhiteSpace c then trimStart r else s
  end.

Fixpoint trimEnd (s : str) : str :=
  match s with
  | [] => []
  | c :: r =>
      match trimEnd r with
      | [] => if isWhiteSpace c then [] else [c]
      | r' => c :: r'
      end
  end.

Definition trim (s : str) : str := trimEnd (trimStart s).

Fixpoint startsWith (text p : str) : bool :=
  match p, text with
  | [], _ => true
  | _ :: _, [] => false
  | a :: p', b :: t' => N.eqb a b && startsWith t' p'
  end.

Fixpoint includes (text p : str) : bool :=
  startsWith text p ||
  match text with
  | [] => false
  | _ :: t' => includes t' p
  end.

Definition Matcher := str -> list str.

Definition mchar (p : N -> bool) : Matcher :=
  fun s => match s with
           | c :: r => if p c then [r] else []
           | [] => []
           end.

Definition mseq (a b : Matcher) : Matcher := fun s => flat_map b (a s).

Definition malt (a b : Matcher) : Matcher := fun s => a s ++ b s.

(** [\s*], greedy. *)
Fixpoint mspaces (s : str) : list str :=
  match s with
  | c :: r => if isWhiteSpace c then mspaces r ++ [s] else [s]
  | [] => [[]]
  end.

(** A letter of a pattern under the [i] flag: of the code units, only the
    letter itself and its capital canonicalize to the capital. *)
Definition mletter_i (l : ascii) : Matcher :=
  mchar (fun c => N.eqb c (N_of_ascii (lowerChar l)) || N.eqb c (N_of_ascii (upperChar l))).

Definition mdigits_1_2 : Matcher :=
  malt (mseq (mchar isDigit) (mchar isDigit)) (mchar isDigit).

(** [/\d{1,2}:\d{2}/] *)
Definition re_clock : Matcher :=
  mseq mdigits_1_2
    (mseq (mchar (N.eqb 58))
       (mseq (mchar isDigit) (mchar isDigit))).

(** [/\d{1,2}\s*(am|pm)/i] *)
Definition re_hour_ampm : Matcher :=
  mseq mdigits_1_2
    (mseq mspaces
       (malt (mseq (mletter_i "a") (mletter_i "m"))
             (mseq (mletter_i "p") (mletter_i "m")))).

Fixpoint test (re : Matcher) (text : str) : bool :=
  negb (match re text with [] => true | _ => false end) ||
  match text with
  | [] => false
  | _ :: t' => test re t'
  end.

Inductive Pattern :=
| Sub (p : string)
| Re (re : Matcher).

Definition matchesPattern (text : str) (pat : Pattern) : bool :=
  match pat with
  | Sub p => includes text (lit p)
  | Re re => test re text
  end.

Definition timePatterns : list Pattern :=
  [ Sub "call at"; Sub "call me at"; Sub "call back at"; Sub "different time"; Sub "another time";
    Sub "later"; Sub "tomorrow"; Sub "next week"; Sub "schedule"; Sub "appointment"; Sub "when can";
    Sub "what time"; Sub "what day"; Sub "monday"; Sub "tuesday"; Sub "wednesday"; Sub "thursday"; Sub "friday";
    Sub "saturday"; Sub "sunday"; Sub "morning"; Sub "afternoon"; Sub "evening"; Sub "am"; Sub "pm";
    Re re_clock;
    Re re_hour_ampm;
    Sub "between"; Sub "after"; Sub "before" ].

(** How the single [fetch] can end; the content is a string of the host. *)
Inductive FetchOutcome :=
| Threw
| HttpError (status : nat)
| Content (content : option str).

Inductive Classification :=
| Done (c : ResponseCategory)
| AwaitFetch (k : FetchOutcome -> ResponseCategory).

Definition isQuote (c : N) : bool := ((c =? 34) || (c =? 39))%N.

Fixpoint dropLastQuote (s : str) : str :=
  match s with
  | [] => []
  | [c] => if isQuote c then [] else s
  | c :: r => c :: dropLastQuote r
  end.

(** [s.replace(/^["']|["']$/g, '')] *)
Definition stripQuotes (s : str) : str :=
  match s with
  | c :: r => if isQuote c then dropLastQuote r else dropLastQuote s
  | [] => []
  end.

(** The properties every object inherits; each is a function or an object,
    so a lookup that hits one is truthy without being a category. *)
Definition inheritedKeys : list string :=
  [ "constructor"; "hasOwnProperty"; "isPrototypeOf"; "propertyIsEnumerable";
    "toLocaleString"; "toString"; "valueOf"; "__proto__"; "__defineGetter__";
    "__defineSetter__"; "__lookupGetter__"; "__lookupSetter__" ].

Inductive Property :=
| Own (c : ResponseCategory)
| Inherited
| Absent.

(** [categoryMap[key]] *)
Definition getCategory (key : str) : Property :=
  match find (fun kv => eqb (lit (fst kv)) key) categoryMap with
  | Some kv => Own (snd kv)
  | None => if existsb (fun k => eqb (lit k) key) inheritedKeys then Inherited else Absent
  end.

Section Categorizer.
Context {host : Host}.

(** [String.prototype.toLowerCase], as the host implements it. *)
Variable toLowerCase : str -> str.

Definition categorizeUserResponsePatternMatching (userText : str) : ResponseCategory :=
  let text := trim (toLowerCase userText) in
  if existsb (fun p => includes text (lit p)) dncPatterns then DoNotContact
  else if existsb (matchesPattern text) timePatterns then CallAtDifferentTime
  else if existsb (fun p => includes text (lit p)) yesPatterns then Yes
  else if existsb (fun p => includes text (lit p)) noPatterns then No
  else UnknownMessage.

Definition parseCategory (content : option str) : option ResponseCategory :=
  let rawCategory := match content with Some c => trim c | None => [] end in
  let normalizedCategory := trim (stripQuotes rawCategory) in
  match find (fun c => eqb (lit (label c)) normalizedCategory) validCategories with
  | Some c => Some c
  | None =>
      let lowerCategory := toLowerCase normalizedCategory in
      match getCategory lowerCategory with
      | Own c => Some c
      | Inherited => None
      | Absent =>
          option_map snd
            (find (fun kv => includes lowerCategory (lit (fst kv))
                             || includes (lit (fst kv)) lowerCategory)
                  categoryMap)
      end
  end.

Definition categorizeUserResponse (aiEnabled : bool) (userText : str) : Classification :=
  let text := trim (toLowerCase userText) in
  if (length text <? 2)%nat then Done NoResponse24h
  else if negb aiEnabled then Done (categorizeUserResponsePatternMatching userText)
  else if usableKey VITE_OPENAI_API_KEY then
    AwaitFetch (fun outcome =>
      match outcome with
      | Content content =>
          match parseCategory content with
          | Some c => c
          | None => categorizeUserResponsePatternMatching userText
          end
      | HttpError _ | Threw => categorizeUserResponsePatternMatching userText
      end)
  else Done (categorizeUserResponsePatternMatching userText).

End Categorizer.

(** Lower-casing as the Unicode tables give it on the Basic Latin block and
    on U+0130, the capital I with a dot above, which becomes [i] followed
    by the combining dot U+0307; the other code units are left as they
    are. It is [String.prototype.toLowerCase] on the strings made of these
    characters. *)
Definition lowerBasicLatin (s : str) : str :=
  flat_map (fun c => if ((65 <=? c) && (c <=? 90))%N then [(c + 32)%N]
                     else if (c =? 0x130)%N then [0x69%N; 0x307%N]
                     else [c]) s.

End Utf16.

(* ================================================================== *)
(** ** Session state *)

Inductive ConversationState :=
| initial
| calling
| call_accepted
| call_declined
| asking_if_wants_call
| waiting_for_response
| scheduling_time
| time_scheduled
| asking_better_time
| asking_after_cancel
| followup_next_day
| unknown
| ended
| confirm_visit_initial
| confirm_visit_waiting
| confirm_visit_confirmed
| confirm_visit_reschedule_question
| confirm_visit_reschedule_waiting
| confirm_visit_reschedule_selecting_time
| confirm_visit_cancelled
| confirm_visit_dnc.

Inductive Sender := bot | user.

(** A log entry. The [id] and [timestamp] fields, both read from the clock,
    are left out. *)
Record Message := mkMessage {
  text : string;
  sender : Sender;
  options : option (list string)
}.

(** What [#inputArea] holds after the last render. *)
Inductive InputArea :=
| NoInput
| TextInput
| OptionButtons (opts : list string).

(** The closures handed to [setTimeout]/[setInterval], and the continuation
    of the [await] in [handleTextInput]. *)
Inductive Callback :=
| CbStartConversation                       (* initApp, 500 ms *)
| CbShowCallingNotification                 (* start, 1500 ms; Yes branch, 500 ms *)
| CbCallDeclined                            (* handleCallDecline, 500 ms *)
| CbShowDateTimePicker                      (* handleAfterCancelResponse, 500 ms *)
| CbBotMessage (t : string) (o : option (list string))  (* () => addMessage('bot', t, o), 500 ms *)
| CbConfirmVisitPrompt (initialMessage : string)        (* confirm-visit start/switch, 500 ms *)
| CbRescheduleQuestion                      (* confirm_visit_waiting No/Cancel, 500 ms *)
| CbRescheduleDateTimePicker                (* confirm_visit_reschedule_waiting Yes, 500 ms *)
| CbTimePassed                              (* the progress interval reaching 100% *)
| CbFollowupNextDay                         (* 500 ms after the bar is full *)
| CbDispatch (c : ResponseCategory)         (* await of an already settled classification *)
| CbClassifierReply (k : FetchOutcome -> ResponseCategory). (* await of the pending fetch *)

Record Session := mkSession {
  currentState : ConversationState;
  scheduledDateTime : option string;
  messages : list Message;
  isAfter24HourFollowup : bool;
  userHasStopped : bool;
  selectedWorkflow : string;
  selectedVersion : string;
  aiEnabled : bool;
  inputArea : InputArea;
  pending : list Callback
}.

Definition set_currentState (v : ConversationState) (s : Session) : Session :=
  mkSession v (scheduledDateTime s) (messages s) (isAfter24HourFollowup s) (userHasStopped s)
    (selectedWorkflow s) (selectedVersion s) (aiEnabled s) (inputArea s) (pending s).

Definition set_scheduledDateTime (v : option string) (s : Session) : Session :=
  mkSession (currentState s) v (messages s) (isAfter24HourFollowup s) (userHasStopped s)
    (selectedWorkflow s) (selectedVersion s) (aiEnabled s) (inputArea s) (pending s).

Definition set_messages (v : list Message) (s : Session) : Session :=
  mkSession (currentState s) (scheduledDateTime s) v (isAfter24HourFollowup s) (userHasStopped s)
    (selectedWorkflow s) (selectedVersion s) (aiEnabled s) (inputArea s) (pending s).

Definition set_isAfter24HourFollowup (v : bool) (s : Session) : Session :=
  mkSession (currentState s) (scheduledDateTime s) (messages s) v (userHasStopped s)
    (selectedWorkflow s) (selectedVersion s) (aiEnabled s) (inputArea s) (pending s).

Definition set_userHasStopped (v : bool) (s : Session) : Session :=
  mkSession (currentState s) (scheduledDateTime s) (messages s) (isAfter24HourFollowup s) v
    (selectedWorkflow s) (selectedVersion s) (aiEnabled s) (inputArea s) (pending s).

Definition set_selectedWorkflow (v : string) (s : Session) : Session :=
  mkSession (currentState s) (scheduledDateTime s) (messages s) (isAfter24HourFollowup s)
    (userHasStopped s) v (selectedVersion s) (aiEnabled s) (inputArea s) (pending s).

Definition set_selectedVersion (v : string) (s : Session) : Session :=
  mkSession (currentState s) (scheduledDateTime s) (messages s) (isAfter24HourFollowup s)
    (userHasStopped s) (selectedWorkflow s) v (aiEnabled s) (inputArea s) (pending s).

Definition set_aiEnabled (v : bool) (s : Session) : Session :=
  mkSession (currentState s) (scheduledDateTime s) (messages s) (isAfter24HourFollowup s)
    (userHasStopped s) (selectedWorkflow s) (selectedVersion s) v (inputArea s) (pending s).

Definition set_inputArea (v : InputArea) (s : Session) : Session :=
  mkSession (currentState s) (scheduledDateTime s) (messages s) (isAfter24HourFollowup s)
    (userHasStopped s) (selectedWorkflow s) (selectedVersion s) (aiEnabled s) v (pending s).

Definition set_pending (v : list Callback) (s : Session) : Session :=
  mkSession (currentState s) (scheduledDateTime s) (messages s) (isAfter24HourFollowup s)
    (userHasStopped s) (selectedWorkflow s) (selectedVersion s) (aiEnabled s) (inputArea s) v.

(** A handler is a state transformer; [a ;; b] runs [a] and then [b]. *)
Definition Action := Session -> Session.

Definition andThen (a b : Action) : Action := fun s => b (a s).

Notation "a ;; b" := (andThen a b) (at level 61, right associativity).

Definition skip : Action := fun s => s.

(** [setTimeout(cb, _)]: the callback joins the pending ones. *)
Definition setTimeout (cb : Callback) : Action :=
  fun s => set_pending (pending s ++ [cb]) s.

Definition ADT_INTRO_MESSAGE : string :=
  "Hi, I'm ADT's Digital Assistant powered by AI! This chat may be monitored or recorded. Msg&DataRatesApply. STOP2end".

Definition isBot (x : Sender) : bool :=
  match x with bot => true | user => false end.

Definition clearInputArea : Action := set_inputArea NoInput.

Definition renderOptions (opts : list string) : Action :=
  fun s => if aiEnabled s then set_inputArea TextInput s
           else set_inputArea (OptionButtons opts) s.

(** [renderMessages]: the transcript is redrawn (not modelled) and the input
    area follows the last message. *)
Definition renderMessages : Action :=
  fun s =>
    match last (map Some (messages s)) None with
    | Some (mkMessage _ bot (Some opts)) => renderOptions opts s
    | _ => clearInputArea s
    end.

Definition addMessage (who : Sender) (t : string) (o : option (list string)) : Action :=
  fun s =>
    if isBot who && userHasStopped s then s
    else
      let s1 :=
        if isBot who && (length (messages s) =? 0)%nat
        then set_messages (messages s ++ [mkMessage ADT_INTRO_MESSAGE bot None]) s
        else s in
      renderMessages (set_messages (messages s1 ++ [mkMessage t who o]) s1).

(* ================================================================== *)
(** ** The handlers

    Overlays, the call screen (with its ring/connect timer and duration
    counter), the date/time modal and the dataflow diagram are display only:
    showing, hiding or redrawing them leaves the session untouched and is
    omitted. The listeners on the nodes of the diagram, which jump the
    demonstration to a chosen state, and the dialogue editor act on the
    session from outside the engine; they follow the engine below, as
    events of the page ([PageEvent]). *)

Definition showCallingNotification : Action := set_currentState calling.

Definition handleCallAccept : Action := set_currentState call_accepted.

Definition sixOptions : list string :=
  ["Yes"; "Call at a different time"; "No"; "24 hours later (No response)";
   "Do not contact"; "Unknown message"].

Definition handleCallDecline : Action :=
  set_currentState call_declined ;; setTimeout CbCallDeclined.

Definition callDeclinedFollowup : Action :=
  fun s =>
    let message :=
      if String.eqb (selectedWorkflow s) "product question"
      then "Hello, we received your product question. Would you like us to call you back to help?"
      else "Hello, we just called to reach out about our product! Would you like us to call you back?" in
    (addMessage bot message (Some sixOptions) ;; set_currentState waiting_for_response) s.

Definition showDateTimePicker : Action := set_currentState scheduling_time.

Definition showConfirmVisitRescheduleDateTimePicker : Action := skip.

(** The progress bar is started; the session changes only when it is full. *)
Definition showTimePassingAnimation : Action := setTimeout CbTimePassed.

Definition timePassed : Action := setTimeout CbFollowupNextDay.

Definition followupNextDay : Action :=
  fun s =>
    let message :=
      if String.eqb (selectedWorkflow s) "product question"
      then "Hello, we called yesterday about your product question. Would you like to schedule a time for us to call you?"
      else "Hello, we called yesterday to reach out about our product! Would you like to schedule a time for us to call you?" in
    (addMessage bot ADT_INTRO_MESSAGE None ;;
     addMessage bot message None ;;
     set_currentState followup_next_day ;;
     set_isAfter24HourFollowup true ;;
     setTimeout (CbBotMessage "" (Some ["Yes"; "No"]))) s.

Definition handleAfterCancelResponse (opt : string) : Action :=
  if String.eqb opt "Yes" then setTimeout CbShowDateTimePicker
  else showTimePassingAnimation.

Definition handleResponseToCallQuestion (opt : string) : Action :=
  fun s =>
    if String.eqb opt "Yes" then
      if isAfter24HourFollowup s
      then (set_isAfter24HourFollowup false ;; showDateTimePicker) s
      else setTimeout CbShowCallingNotification s
    else if String.eqb opt "Call at a different time" then showDateTimePicker s
    else if String.eqb opt "No" then
      if isAfter24HourFollowup s
      then showTimePassingAnimation s
      else (set_currentState asking_better_time ;;
            setTimeout (CbBotMessage "Is there a better time that we can call you?"
                          (Some ["Yes"; "No"]))) s
    else if String.eqb opt "No/No response" then
      if isAfter24HourFollowup s then showTimePassingAnimation s else s
    else if String.eqb opt "No response"
         || String.eqb opt "24 hours later (No response)" then
      showTimePassingAnimation s
    else if String.eqb opt "Do not contact" then
      (addMessage bot "Have a nice day!" None ;; set_currentState ended) s
    else if String.eqb opt "Unknown message" then
      (addMessage bot "Unknown message received, transferring to messaging agent." None ;;
       set_currentState unknown) s
    else s.

Definition handleBetterTimeResponse (opt : string) : Action :=
  if String.eqb opt "Yes" then showDateTimePicker
  else showTimePassingAnimation.

Definition rescheduleQuestionText : string :=
  "Is there a better time we could reschedule the appointment for?".

Definition rescheduleQuestion : Action :=
  addMessage bot rescheduleQuestionText (Some ["Yes"; "No"]) ;;
  set_currentState confirm_visit_reschedule_waiting.

Definition handleConfirmVisitResponse (opt : string) : Action :=
  fun s =>
    match currentState s with
    | confirm_visit_waiting =>
        if String.eqb opt "Yes" then
          (set_currentState confirm_visit_confirmed ;;
           setTimeout (CbBotMessage "Great! We will see you then." None)) s
        else if String.eqb opt "No" then
          (set_currentState confirm_visit_reschedule_question ;;
           setTimeout CbRescheduleQuestion) s
        else if String.eqb opt "Cancel Appointment" then
          (set_currentState confirm_visit_reschedule_question ;;
           setTimeout CbRescheduleQuestion) s
        else if String.eqb opt "Do not contact" || String.eqb opt "DNC" then
          (set_currentState confirm_visit_dnc ;;
           setTimeout (CbBotMessage
             "Your appointment has been canceled and you will no longer receive notifications from this number."
             None)) s
        else if String.eqb opt "Unknown message" then
          (set_currentState unknown ;;
           setTimeout (CbBotMessage "Unknown message received, transferring to messaging agent." None)) s
        else s
    | confirm_visit_reschedule_waiting =>
        if String.eqb opt "Yes" then
          (set_currentState confirm_visit_reschedule_selecting_time ;;
           setTimeout CbRescheduleDateTimePicker) s
        else if String.eqb opt "No" then
          (set_currentState confirm_visit_cancelled ;;
           setTimeout (CbBotMessage
             "Your appointment has been canceled, please reach out if you would like to reschedule."
             None)) s
        else if String.eqb opt "Unknown message" then
          (set_currentState unknown ;;
           setTimeout (CbBotMessage "Unknown message received, transferring to messaging agent." None)) s
        else s
    | _ => s
    end.

Definition handleOptionSelect (opt : string) : Action :=
  addMessage user opt None ;;
  fun s =>
    if String.eqb (selectedWorkflow s) "confirm visit" then handleConfirmVisitResponse opt s
    else
      match currentState s with
      | waiting_for_response | followup_next_day => handleResponseToCallQuestion opt s
      | asking_better_time => handleBetterTimeResponse opt s
      | asking_after_cancel => handleAfterCancelResponse opt s
      | _ => s
      end.

Definition handleEndCall : Action :=
  addMessage bot "Thank you for calling us! We will keep in contact using this number." None.

Definition handleDateTimeCancel : Action :=
  fun s =>
    match currentState s with
    | confirm_visit_reschedule_selecting_time =>
        (set_currentState confirm_visit_reschedule_waiting ;;
         setTimeout (CbBotMessage rescheduleQuestionText (Some ["Yes"; "No"]))) s
    | _ =>
        (set_currentState asking_after_cancel ;;
         setTimeout (CbBotMessage
           "No date and time selected. Would you like to select a date and time for us to call you back?"
           (Some ["Yes"; "No"]))) s
    end.

(* ------------------------------------------------------------------ *)
(** *** The date/time check of [handleDateTimeConfirm] *)

Definition digitValue (c : ascii) : Z := Z.of_nat (nat_of_ascii c - 48).

Fixpoint parseDigits (acc : option Z) (s : string) : option Z :=
  match s with
  | String c r =>
      if isDigit c
      then parseDigits (Some (10 * match acc with Some a => a | None => 0 end + digitValue c)%Z) r
      else acc
  | EmptyString => acc
  end.

(** [parseInt] on the values a picker holds (unsigned decimal numerals);
    [None] stands for [NaN]. *)
Definition parseInt (s : string) : option Z := parseDigits None (trimStart s).

(** [String(n)] for an integer, or ["NaN"]. *)
Definition numberToString (n : option Z) : string :=
  match n with
  | Some z => NilZero.string_of_int (Z.to_int z)
  | None => "NaN"
  end.

(** The 12-hour to 24-hour conversion. *)
Definition to24 (hour : option Z) (ampm : string) : option Z :=
  match hour with
  | Some h =>
      if String.eqb ampm "PM" && negb (h =? 12)%Z then Some (h + 12)%Z
      else if String.eqb ampm "AM" && (h =? 12)%Z then Some 0%Z
      else Some h
  | None => None
  end.

(** Comparisons against [NaN] are all false. *)
Definition num_lt (a : option Z) (b : Z) : bool :=
  match a with Some x => (x <? b)%Z | None => false end.

Definition num_ge (a : option Z) (b : Z) : bool :=
  match a with Some x => (b <=? x)%Z | None => false end.

Definition num_eq (a : option Z) (b : Z) : bool :=
  match a with Some x => (x =? b)%Z | None => false end.

Inductive Validation :=
| Rejected (alert : string)
| Accepted (dateTime : string).

(** The checks of [handleDateTimeConfirm], in order, up to the construction
    of the [Date]. *)
Definition validateDateTime (datePicker hourPicker minutePicker ampmPicker : string) : Validation :=
  if String.eqb datePicker "" || String.eqb hourPicker ""
     || String.eqb minutePicker "" || String.eqb ampmPicker ""
  then Rejected "Please select both date and time"
  else
    let hours24 := to24 (parseInt hourPicker) ampmPicker in
    let minutes := padStart2 minutePicker in
    if num_lt hours24 9 || num_ge hours24 17
    then Rejected "Please select a time between 9:00 AM and 5:00 PM"
    else if num_eq hours24 17 && negb (String.eqb minutes "00")
    then Rejected "Please select a time between 9:00 AM and 5:00 PM"
    else
      let timeString := (padStart2 (numberToString hours24) ++ ":" ++ minutes)%string in
      Accepted (datePicker ++ "T" ++ timeString)%string.

(* ------------------------------------------------------------------ *)
(** *** The picker: its options and what it is opened with *)

(** The values of the [hourPicker] options, in document order. *)
Definition hourOptions : list string :=
  ["9"; "10"; "11"; "12"; "1"; "2"; "3"; "4"; "5"].

(** The values of the [minutePicker] options:
    [Array.from({ length: 12 }, (_, i) => String(i * 5).padStart(2, '0'))]. *)
Definition minuteOptions : list string :=
  map (fun i => padStart2 (numberToString (Some (Z.of_nat i * 5)%Z))) (seq 0 12).

Definition num_le (a : option Z) (b : Z) : bool :=
  match a with Some x => (x <=? b)%Z | None => false end.

(** [handleHourChange]: the value the (disabled) AM/PM select is given when
    the hour changes. *)
Definition handleHourChange (hourPicker : string) : string :=
  let selectedHour := parseInt hourPicker in
  if num_ge selectedHour 9 && num_le selectedHour 11 then "AM" else "PM".

(** The 24-hour to 12-hour conversion of [openDateTimeModalAndSetup]. *)
Definition displayHourAmPm (finalHours24 : Z) : Z * string :=
  if (finalHours24 =? 0)%Z then (12%Z, "AM")
  else if (finalHours24 =? 12)%Z then (12%Z, "PM")
  else if (finalHours24 <? 12)%Z then (finalHours24, "AM")
  else ((finalHours24 - 12)%Z, "PM").

(** [Math.ceil(minutes / 5)] *)
Definition ceilDiv5 (minutes : Z) : Z := (- ((- minutes) / 5))%Z.

(** [openDateTimeModalAndSetup]: the values given to the hour, minute and
    AM/PM selects from the clock's [getHours()] and [getMinutes()]. *)
Definition openDateTimeModalAndSetup (hours minutes : Z) : string * string * string :=
  let roundedMinutes := (ceilDiv5 minutes * 5)%Z in
  let finalMinutes := if (60 <=? roundedMinutes)%Z then 0%Z else roundedMinutes in
  let finalHours24 := if (60 <=? roundedMinutes)%Z then Z.rem (hours + 1) 24 else hours in
  let '(finalHours24, minuteValue) :=
    if (finalHours24 <? 9)%Z then (9%Z, "00")
    else if (17 <=? finalHours24)%Z then (17%Z, "00")
    else (finalHours24, padStart2 (numberToString (Some finalMinutes))) in
  let '(displayHour, ampm) := displayHourAmPm finalHours24 in
  (numberToString (Some displayHour), minuteValue, ampm).

Section Engine.
Context {host : Host}.

Definition handleDateTimeConfirm (datePicker hourPicker minutePicker ampmPicker : string) : Action :=
  fun s =>
    match validateDateTime datePicker hourPicker minutePicker ampmPicker with
    | Rejected _ => s
    | Accepted date =>
        let formattedDate := toLocaleDateString date in
        let formattedTime := toLocaleTimeString date in
        let s := set_scheduledDateTime (Some date) s in
        match currentState s with
        | confirm_visit_reschedule_selecting_time =>
            (addMessage bot
               ("Your appointment has been rescheduled for " ++ formattedDate ++ " at "
                ++ formattedTime ++ ". We'll see you then!")%string None ;;
             set_currentState confirm_visit_confirmed) s
        | _ =>
            (addMessage bot
               ("We will call you again on " ++ formattedDate ++ " at " ++ formattedTime ++ ".")%string
               None ;;
             set_currentState time_scheduled) s
        end
    end.

Definition confirmVisitInitialMessage : string :=
  ("Hey John, you have a consultation scheduled for " ++ appointmentDateTime
   ++ " at 123 Main Street, Anytown, ST 12345. A certified technician will be arriving. Will you be available for this appointment?")%string.

Definition confirmVisitOptions : list string :=
  ["Yes"; "No"; "Cancel Appointment"; "DNC"; "Unknown message"].

Definition confirmVisitPrompt (initialMessage : string) : Action :=
  addMessage bot initialMessage (Some confirmVisitOptions) ;;
  set_currentState confirm_visit_waiting.

Definition switchToConfirmVisitWorkflow : Action :=
  set_selectedWorkflow "confirm visit" ;;
  set_selectedVersion "A" ;;
  set_currentState confirm_visit_initial ;;
  setTimeout (CbConfirmVisitPrompt confirmVisitInitialMessage).

Definition startConfirmVisitConversation : Action :=
  set_currentState confirm_visit_initial ;;
  setTimeout (CbConfirmVisitPrompt confirmVisitInitialMessage).

Definition startProductQuestionConversation : Action :=
  addMessage bot "We received your product question! We are calling now to help." None ;;
  setTimeout CbShowCallingNotification.

Definition startConversation : Action :=
  set_messages [] ;;
  set_currentState initial ;;
  set_userHasStopped false ;;
  set_scheduledDateTime None ;;
  set_isAfter24HourFollowup false ;;
  fun s =>
    if String.eqb (selectedWorkflow s) "product question" then startProductQuestionConversation s
    else if String.eqb (selectedWorkflow s) "confirm visit" then startConfirmVisitConversation s
    else
      ((if String.eqb (selectedVersion s) "A"
        then addMessage bot "We received your interest form! We are calling now." None
        else skip) ;;
       setTimeout CbShowCallingNotification) s.

Definition resetConversation : Action :=
  set_messages [] ;;
  set_currentState initial ;;
  set_userHasStopped false ;;
  set_scheduledDateTime None ;;
  set_isAfter24HourFollowup false ;;
  clearInputArea ;;
  startConversation.

Definition handleWorkflowSelect (workflow : string) : Action :=
  set_selectedWorkflow workflow ;;
  set_selectedVersion "A" ;;
  resetConversation.

Definition handleVersionSelect (version : string) : Action :=
  fun s =>
    let versionChanged := negb (String.eqb (selectedVersion s) version) in
    let s := set_selectedVersion version s in
    if versionChanged then resetConversation s
    else
      match last (map Some (messages s)) None with
      | Some (mkMessage _ bot (Some opts)) => renderOptions opts s
      | _ => s
      end.

Definition handleAIToggle : Action :=
  (fun s => set_aiEnabled (negb (aiEnabled s)) s) ;;
  resetConversation.

(** [handleTextInput] up to its [await]; [value] is what the text box holds.
    Without the text box in the document the handler returns at once. *)
Definition handleTextInput (value : string) : Action :=
  fun s =>
    match inputArea s with
    | TextInput =>
        let userText := trim value in
        if String.eqb userText "" then s
        else if String.eqb (toUpperCase userText) "STOP" then
          (set_userHasStopped true ;; addMessage user userText None) s
        else if String.eqb (selectedWorkflow s) "webform" && isConfirmVisitIntent userText then
          (addMessage user userText None ;; switchToConfirmVisitWorkflow) s
        else
          let s := addMessage user userText None s in
          match categorizeUserResponse (aiEnabled s) userText with
          | Done c => setTimeout (CbDispatch c) s
          | AwaitFetch k => setTimeout (CbClassifierReply k) s
          end
    | _ => s
    end.

(** A click on the [i]-th option button. *)
Definition clickOption (i : nat) : Action :=
  fun s =>
    match inputArea s with
    | OptionButtons opts =>
        match nth_error opts i with
        | Some opt => handleOptionSelect opt s
        | None => s
        end
    | _ => s
    end.

(** What a callback does when it runs; a classifier continuation needs the
    outcome of its request. *)
Definition runCallback (cb : Callback) (reply : FetchOutcome) : Action :=
  match cb with
  | CbStartConversation => startConversation
  | CbShowCallingNotification => showCallingNotification
  | CbCallDeclined => callDeclinedFollowup
  | CbShowDateTimePicker => showDateTimePicker
  | CbBotMessage t o => addMessage bot t o
  | CbConfirmVisitPrompt m => confirmVisitPrompt m
  | CbRescheduleQuestion => rescheduleQuestion
  | CbRescheduleDateTimePicker => showConfirmVisitRescheduleDateTimePicker
  | CbTimePassed => timePassed
  | CbFollowupNextDay => followupNextDay
  | CbDispatch c => handleOptionSelect (label c)
  | CbClassifierReply k => handleOptionSelect (label (k reply))
  end.

Fixpoint removeNth {A} (i : nat) (l : list A) : list A :=
  match i, l with
  | _, [] => []
  | O, _ :: r => r
  | S j, x :: r => x :: removeNth j r
  end.

(** The [i]-th pending callback runs (and is no longer pending). *)
Definition fire (i : nat) (reply : FetchOutcome) : Action :=
  fun s =>
    match nth_error (pending s) i with
    | Some cb => runCallback cb reply (set_pending (removeNth i (pending s)) s)
    | None => s
    end.

(** The events of the engine: the session controls and the asynchronous
    completions. *)
Inductive Event :=
| SelectOption (i : nat)
| SubmitText (value : string)
| SelectWorkflow (workflow : string)
| SelectVersion (version : string)
| ToggleAI
| ResetConversation
| CallAccept
| CallDecline
| EndCall
| ConfirmDateTime (datePicker hourPicker minutePicker ampmPicker : string)
| CancelDateTime
| Fire (i : nat) (reply : FetchOutcome).

Definition step (e : Event) : Action :=
  match e with
  | SelectOption i => clickOption i
  | SubmitText value => handleTextInput value
  | SelectWorkflow w => handleWorkflowSelect w
  | SelectVersion v => handleVersionSelect v
  | ToggleAI => handleAIToggle
  | ResetConversation => resetConversation
  | CallAccept => handleCallAccept
  | CallDecline => handleCallDecline
  | EndCall => handleEndCall
  | ConfirmDateTime d h m a => handleDateTimeConfirm d h m a
  | CancelDateTime => handleDateTimeCancel
  | Fire i reply => fire i reply
  end.

Fixpoint run (events : list Event) (s : Session) : Session :=
  match events with
  | [] => s
  | e :: rest => run rest (step e s)
  end.

(** The globals as initialised, with [initApp]'s start-up timer pending. *)
Definition initApp : Session :=
  mkSession initial None [] false false "webform" "A" false NoInput [CbStartConversation].

Definition Reachable (s : Session) : Prop := exists events, s = run events initApp.

End Engine.

(* ================================================================== *)
(** ** The call screen

    The call controls are globals of their own; the handlers are modelled
    with the buttons and overlays present in the document. *)

Record CallControls := mkCallControls {
  isMuted : bool;
  isSpeakerOn : bool;
  isKeypadVisible : bool;
  keypadInput : string
}.

(** What [showCallScreen] resets. *)
Definition showCallScreen (c : CallControls) : CallControls :=
  mkCallControls false false false "".

Definition hideKeypad (c : CallControls) : CallControls :=
  mkCallControls (isMuted c) (isSpeakerOn c) false (keypadInput c).

Definition handleKeypadToggle (c : CallControls) : CallControls :=
  let c := mkCallControls (isMuted c) (isSpeakerOn c) (negb (isKeypadVisible c)) (keypadInput c) in
  if isKeypadVisible c then c else hideKeypad c.

Definition handleKeypadKeyPress (key : string) (c : CallControls) : CallControls :=
  mkCallControls (isMuted c) (isSpeakerOn c) (isKeypadVisible c) (keypadInput c ++ key).

(** [s.slice(0, -1)] *)
Definition dropLast (s : string) : string := String.substring 0 (String.length s - 1) s.

Definition handleKeypadDelete (c : CallControls) : CallControls :=
  if (0 <? String.length (keypadInput c))%nat
  then mkCallControls (isMuted c) (isSpeakerOn c) (isKeypadVisible c) (dropLast (keypadInput c))
  else c.


(* ================================================================== *)
(** ** The dataflow diagrams *)

(** [stateMapping] of [renderDataflow] (webform). *)
Definition webformStateMapping (c : ConversationState) : string :=
  match c with
  | initial => "webform_received"
  | calling => "outbound_call"
  | call_accepted => "does_answer"
  | call_declined => "lead_no_answer"
  | asking_if_wants_call => "sms_followup"
  | waiting_for_response => "sms_followup"
  | scheduling_time => "schedule_call"
  | time_scheduled => "schedule_call"
  | asking_better_time => "better_time"
  | asking_after_cancel => "better_time"
  | followup_next_day => "followup_next_day"
  | unknown => "unknown"
  | ended => "dnc"
  | confirm_visit_initial | confirm_visit_waiting | confirm_visit_confirmed
  | confirm_visit_reschedule_question | confirm_visit_reschedule_waiting
  | confirm_visit_reschedule_selecting_time | confirm_visit_cancelled
  | confirm_visit_dnc => "webform_received"
  end.

(** [stateMapping] of [renderConfirmVisitDataflow]. *)
Definition confirmVisitStateMapping (c : ConversationState) : string :=
  match c with
  | confirm_visit_initial => "cv_initial_sms"
  | confirm_visit_waiting => "cv_initial_sms"
  | confirm_visit_confirmed => "cv_confirm_appointment"
  | confirm_visit_reschedule_question => "cv_reschedule_question"
  | confirm_visit_reschedule_waiting => "cv_reschedule_question"
  | confirm_visit_reschedule_selecting_time => "cv_reschedule_question"
  | confirm_visit_cancelled => "cv_cancel_appointment"
  | confirm_visit_dnc => "cv_cancel_dnc"
  | unknown => "cv_unknown"
  | initial | calling | call_accepted | call_declined | asking_if_wants_call
  | waiting_for_response | scheduling_time | time_scheduled | asking_better_time
  | asking_after_cancel | followup_next_day => "cv_initial_sms"
  | ended => "cv_cancel_appointment"
  end.

(** [stateMapping] of [renderProductQuestionDataflow]. *)
Definition productQuestionStateMapping (c : ConversationState) : string :=
  match c with
  | initial => "product_question_received"
  | calling => "outbound_call_pq"
  | call_accepted => "does_answer_pq"
  | call_declined => "lead_no_answer_pq"
  | asking_if_wants_call => "sms_followup_pq"
  | waiting_for_response => "sms_followup_pq"
  | scheduling_time => "schedule_call_pq"
  | time_scheduled => "schedule_call_pq"
  | asking_better_time => "better_time_pq"
  | asking_after_cancel => "better_time_pq"
  | followup_next_day => "followup_next_day_pq"
  | unknown => "unknown_pq"
  | ended => "dnc_pq"
  | confirm_visit_initial | confirm_visit_waiting | confirm_visit_confirmed
  | confirm_visit_reschedule_question | confirm_visit_reschedule_waiting
  | confirm_visit_reschedule_selecting_time | confirm_visit_cancelled
  | confirm_visit_dnc => "product_question_received"
  end.

(** The node [renderDataflow] marks active; the four workflows without a
    diagram have none. *)
Definition activeStateId (workflow : string) (c : ConversationState) : string :=
  if String.eqb workflow "offer" || String.eqb workflow "schedule consultation"
     || String.eqb workflow "customer satisfaction check-in"
     || String.eqb workflow "legal requirements"
  then ""
  else if String.eqb workflow "confirm visit" then confirmVisitStateMapping c
  else if String.eqb workflow "product question" then productQuestionStateMapping c
  else webformStateMapping c.

(** [diagramToConversationState] of [setupStateClickHandlers],
    [setupConfirmVisitStateClickHandlers] and
    [setupProductQuestionStateClickHandlers]. *)
Definition webformDiagramToConversationState : list (string * ConversationState) :=
  [ ("webform_received", initial);
    ("sms_initial", calling);
    ("outbound_call", calling);
    ("does_answer", call_accepted);
    ("lead_no_answer", call_declined);
    ("sms_followup", waiting_for_response);
    ("redial_lead", calling);
    ("schedule_call", scheduling_time);
    ("better_time", asking_better_time);
    ("followup_next_day", followup_next_day);
    ("unknown", unknown);
    ("dnc", ended) ].

Definition confirmVisitDiagramToConversationState : list (string * ConversationState) :=
  [ ("cv_initial_sms", confirm_visit_initial);
    ("cv_confirm_appointment", confirm_visit_confirmed);
    ("cv_reschedule_appointment", confirm_visit_reschedule_question);
    ("cv_reschedule_question", confirm_visit_reschedule_waiting);
    ("cv_cancel_appointment", confirm_visit_cancelled);
    ("cv_cancel_dnc", confirm_visit_dnc);
    ("cv_unknown", unknown) ].

Definition productQuestionDiagramToConversationState : list (string * ConversationState) :=
  [ ("product_question_received", initial);
    ("sms_initial_pq", calling);
    ("outbound_call_pq", calling);
    ("does_answer_pq", call_accepted);
    ("lead_no_answer_pq", call_declined);
    ("sms_followup_pq", waiting_for_response);
    ("redial_lead_pq", calling);
    ("schedule_call_pq", scheduling_time);
    ("better_time_pq", asking_better_time);
    ("followup_next_day_pq", followup_next_day);
    ("unknown_pq", unknown);
    ("dnc_pq", ended) ].

(** The state a click on the node [stateId] assigns, if the node is in the
    table. *)
Definition clickedState (table : list (string * ConversationState)) (stateId : string)
  : option ConversationState :=
  option_map snd (find (fun kv => String.eqb (fst kv) stateId) table).


(* ------------------------------------------------------------------ *)
(** *** Vocabulary of the statements *)

(** [p] occurs in [t]. *)
Definition Contains (t p : string) : Prop :=
  exists pre post, t = (pre ++ p ++ post)%string.

(** [pat] matches somewhere in [t]: a substring occurs, or the regular
    expression matches at the start of some suffix. *)
Definition Matches (t : string) (pat : Pattern) : Prop :=
  match pat with
  | Sub p => Contains t p
  | Re re => exists pre rest, t = (pre ++ rest)%string /\ re rest <> []
  end.

Definition startsNonWhite (p : string) : bool :=
  match p with
  | String c _ => negb (isWhiteSpace c)
  | EmptyString => false
  end.

Fixpoint endsNonWhite (p : string) : bool :=
  match p with
  | EmptyString => false
  | String c EmptyString => negb (isWhiteSpace c)
  | String _ r => endsNonWhite r
  end.

(** Case-insensitive equality of two strings. *)
Definition equalsIgnoreCase (a b : string) : Prop := toLowerCase a = toLowerCase b.

Definition userOnly (l : list Message) : Prop := Forall (fun m => sender m = user) l.

(** The sender of the last entry of the log. *)
Definition lastSender (l : list Message) : option Sender :=
  option_map sender (last (map Some l) None).

(** The transition tables as the specification gives them (its section
    4.2): for a state, the option labels that have a row. The call-back
    table is the webform's, which the product-question workflow shares and
    through which every workflow other than confirm visit is dispatched.
    The rows are under the labels the program uses: [No response / 24h
    later] is the button [24 hours later (No response)], and [DNC],
    [Unknown] and [CancelAppointment] of the confirm-visit table are [DNC],
    [Unknown message] and [Cancel Appointment]. *)
Definition specTableLabels (workflow : string) (c : ConversationState) : list string :=
  if String.eqb workflow "confirm visit" then
    match c with
    | confirm_visit_waiting => ["Yes"; "No"; "Cancel Appointment"; "DNC"; "Unknown message"]
    | confirm_visit_reschedule_waiting => ["Yes"; "No"; "Unknown message"]
    | _ => []
    end
  else
    match c with
    | waiting_for_response | followup_next_day =>
        ["Yes"; "Call at a different time"; "No"; "24 hours later (No response)";
         "Do not contact"; "Unknown message"]
    | asking_better_time | asking_after_cancel => ["Yes"; "No"]
    | _ => []
    end.

Definition specTableHasRow (workflow : string) (c : ConversationState) (opt : string) : bool :=
  existsb (String.eqb opt) (specTableLabels workflow c).

(** The session with the chosen label logged as a user message, which
    leaves the input area empty, and nothing else changed. *)
Definition loggedChoice (opt : string) : Action :=
  fun s => set_inputArea NoInput (set_messages (messages s ++ [mkMessage opt user None]) s).

Section Traces.
Context {host : Host}.

(** The event starts the conversation over ([startConversation] runs). *)
Definition restarts (e : Event) (s : Session) : bool :=
  match e with
  | ResetConversation | SelectWorkflow _ | ToggleAI => true
  | SelectVersion v => negb (String.eqb (selectedVersion s) v)
  | Fire i _ =>
      match nth_error (pending s) i with
      | Some CbStartConversation => true
      | _ => false
      end
  | _ => false
  end.

Fixpoint noRestart (events : list Event) (s : Session) : bool :=
  match events with
  | [] => true
  | e :: rest => negb (restarts e s) && noRestart rest (step e s)
  end.

(** The option label the event hands to [handleOptionSelect], if any. *)
Definition dispatched (e : Event) (s : Session) : option string :=
  match e with
  | SelectOption i =>
      match inputArea s with
      | OptionButtons opts => nth_error opts i
      | _ => None
      end
  | Fire i reply =>
      match nth_error (pending s) i with
      | Some (CbDispatch c) => Some (label c)
      | Some (CbClassifierReply k) => Some (label (k reply))
      | _ => None
      end
  | _ => None
  end.

End Traces.

(* ================================================================== *)
(** ** The diagram's node clicks and the dialogue editor

    Two parts of the page act on the session beside the engine's handlers.
    A click on a node of the dataflow diagram jumps the demonstration to
    the node's state: the listener assigns [currentState], empties the log
    and the input area, and replays the conversation that leads to the
    state, one message per [setTimeout], each callback setting the timer
    of the next. The dialogue editor rewrites the text (and, on user
    messages, the options) of an entry of the log. *)

(** What one callback of a replay does. The call screen it may show has
    globals of its own ([CallControls]) and leaves the session alone. *)
Inductive ReplayStep :=
| ReplayMessage (who : Sender) (t : string) (o : option (list string)) (* addMessage(who, t, o) *)
| ReplayCallScreen                  (* showCallScreen() *)
| ReplayScheduledTime               (* the stored time if there is one, else the picker *)
| ReplayRescheduleDateTimePicker.   (* showConfirmVisitRescheduleDateTimePicker() *)

(** The session together with the replays whose next timer is running. *)
Record Page := mkPage {
  session : Session;
  replays : list (list ReplayStep)
}.

Definition PageAction := Page -> Page.

Definition onSession (a : Action) : PageAction :=
  fun p => mkPage (a (session p)) (replays p).

(** [setTimeout] of the first callback of a replay. *)
Definition replay (steps : list ReplayStep) : PageAction :=
  fun p => mkPage (session p) (replays p ++ [steps]).

(** A replaced entry of the log; out of range nothing is replaced. *)
Fixpoint replaceNth {A} (i : nat) (x : A) (l : list A) : list A :=
  match i, l with
  | _, [] => []
  | O, _ :: r => x :: r
  | S j, y :: r => y :: replaceNth j x r
  end.

(** [saveDialogueMessage] on the [i]-th entry (the source finds the entry
    by its id): [value] is what its text area holds and [optionInputs]
    what the option fields of a user message hold. *)
Definition saveDialogueMessage (i : nat) (value : string) (optionInputs : list string) : Action :=
  fun s =>
    match nth_error (messages s) i with
    | Some message =>
        let newOptions :=
          filter (fun opt => negb (String.eqb opt "")) (map trim optionInputs) in
        let o :=
          match sender message with
          | user => if (0 <? length newOptions)%nat then Some newOptions else None
          | bot => options message
          end in
        renderMessages
          (set_messages (replaceNth i (mkMessage (trim value) (sender message) o) (messages s)) s)
    | None => s
    end.

(** [removeDialogueOption] on the [i]-th entry. *)
Definition removeDialogueOption (i optionIndex : nat) : Action :=
  fun s =>
    match nth_error (messages s) i with
    | Some (mkMessage t user (Some opts)) =>
        let opts' := removeNth optionIndex opts in
        let o := if (length opts' =? 0)%nat then None else Some opts' in
        renderMessages (set_messages (replaceNth i (mkMessage t user o) (messages s)) s)
    | _ => s
    end.

Section Diagram.
Context {host : Host}.

Definition runReplayStep (r : ReplayStep) : Action :=
  match r with
  | ReplayMessage who t o => addMessage who t o
  | ReplayCallScreen => skip
  | ReplayScheduledTime =>
      fun s =>
        match scheduledDateTime s with
        | Some date =>
            addMessage bot
              ("We will call you again on " ++ toLocaleDateString date ++ " at "
               ++ toLocaleTimeString date ++ ".")%string None s
        | None => showDateTimePicker s
        end
  | ReplayRescheduleDateTimePicker => showConfirmVisitRescheduleDateTimePicker
  end.

(** The timer of the [i]-th replay runs out: its callback acts and sets
    the timer of what is left of the replay. *)
Definition fireReplay (i : nat) : PageAction :=
  fun p =>
    match nth_error (replays p) i with
    | Some (r :: rest) =>
        mkPage (runReplayStep r (session p))
               (removeNth i (replays p) ++ match rest with [] => [] | _ => [rest] end)
    | Some [] => mkPage (session p) (removeNth i (replays p))
    | None => p
    end.

Definition updatePhoneUIForConfirmVisit (state : ConversationState) : PageAction :=
  fun p =>
    let p := onSession (set_messages [] ;; clearInputArea) p in
    let prompt := confirmVisitInitialMessage in
    match state with
    | confirm_visit_initial | confirm_visit_waiting =>
        replay [ReplayMessage bot prompt (Some confirmVisitOptions)] p
    | confirm_visit_confirmed =>
        replay [ReplayMessage bot prompt None;
                ReplayMessage user "Yes" None;
                ReplayMessage bot "Great! We will see you then." None] p
    | confirm_visit_reschedule_question | confirm_visit_reschedule_waiting =>
        replay [ReplayMessage bot prompt None;
                ReplayMessage user "No" None;
                ReplayMessage bot rescheduleQuestionText (Some ["Yes"; "No"])] p
    | confirm_visit_reschedule_selecting_time =>
        replay [ReplayMessage bot prompt None;
                ReplayMessage user "No" None;
                ReplayMessage bot rescheduleQuestionText (Some ["Yes"; "No"]);
                ReplayMessage user "Yes" None;
                ReplayRescheduleDateTimePicker] p
    | confirm_visit_cancelled =>
        replay [ReplayMessage bot prompt None;
                ReplayMessage user "Cancel Appointment" None;
                ReplayMessage bot rescheduleQuestionText None;
                ReplayMessage user "No" None;
                ReplayMessage bot
                  "Your appointment has been canceled, please reach out if you would like to reschedule."
                  None] p
    | confirm_visit_dnc =>
        replay [ReplayMessage bot prompt None;
                ReplayMessage user "DNC" None;
                ReplayMessage bot
                  "Your appointment has been canceled and you will no longer receive notifications from this number."
                  None] p
    | unknown =>
        replay [ReplayMessage bot prompt None;
                ReplayMessage user "Unknown message" None;
                ReplayMessage bot "Unknown message received, transferring to messaging agent." None] p
    | _ => p
    end.

Definition updatePhoneUIForProductQuestion (state : ConversationState) : PageAction :=
  fun p =>
    let p := onSession (set_messages [] ;; clearInputArea) p in
    let received :=
      addMessage bot "We received your product question! We are calling now to help." None in
    let question :=
      "Hello, we received your product question. Would you like us to call you back to help?" in
    match state with
    | initial => onSession received p
    | calling => onSession (received ;; showCallingNotification) p
    | call_accepted => replay [ReplayCallScreen] (onSession received p)
    | call_declined | waiting_for_response =>
        replay [ReplayMessage bot question (Some sixOptions)] (onSession received p)
    | followup_next_day =>
        replay [ReplayMessage bot "" (Some ["Yes"; "No"])]
          (onSession
             (addMessage bot
                "Hello, we called yesterday about your product question. Would you like to schedule a time for us to call you?"
                None) p)
    | scheduling_time | time_scheduled =>
        replay [ReplayMessage bot question None;
                ReplayMessage user "Call at a different time" None;
                ReplayScheduledTime] (onSession received p)
    | asking_better_time | asking_after_cancel =>
        replay [ReplayMessage bot question None;
                ReplayMessage user "No" None;
                ReplayMessage bot "Is there a better time that we can call you?"
                  (Some ["Yes"; "No"])] (onSession received p)
    | unknown =>
        replay [ReplayMessage bot question None;
                ReplayMessage user "Unknown message" None;
                ReplayMessage bot "Unknown message received, transferring to messaging agent." None]
          (onSession received p)
    | ended => replay [ReplayMessage bot "Have a nice day!" None] (onSession received p)
    | _ => p
    end.

Definition updatePhoneUIForState (state : ConversationState) : PageAction :=
  fun p =>
    if String.eqb (selectedWorkflow (session p)) "confirm visit"
    then updatePhoneUIForConfirmVisit state p
    else if String.eqb (selectedWorkflow (session p)) "product question"
    then updatePhoneUIForProductQuestion state p
    else
      let p := onSession (set_messages [] ;; clearInputArea) p in
      let received : Action :=
        fun s => if String.eqb (selectedVersion s) "A"
                 then addMessage bot "We received your interest form! We are calling now." None s
                 else s in
      let question :=
        "Hello, we just called to reach out about our product! Would you like us to call you back?" in
      match state with
      | initial => onSession received p
      | calling => onSession (received ;; showCallingNotification) p
      | call_accepted => replay [ReplayCallScreen] (onSession received p)
      | call_declined | asking_if_wants_call | waiting_for_response =>
          replay [ReplayMessage bot question (Some sixOptions)] (onSession received p)
      | followup_next_day =>
          replay [ReplayMessage bot "" (Some ["Yes"; "No"])]
            (onSession
               (addMessage bot
                  "Hello, we called yesterday to reach out about our product! Would you like to schedule a time for us to call you?"
                  None) p)
      | scheduling_time | time_scheduled =>
          replay [ReplayMessage bot question None;
                  ReplayMessage user "Call at a different time" None;
                  ReplayScheduledTime] (onSession received p)
      | asking_better_time | asking_after_cancel =>
          replay [ReplayMessage bot question None;
                  ReplayMessage user "No" None;
                  ReplayMessage bot "Is there a better time that we can call you?"
                    (Some ["Yes"; "No"])] (onSession received p)
      | unknown =>
          replay [ReplayMessage bot question None;
                  ReplayMessage user "Unknown message" None;
                  ReplayMessage bot "Unknown message received, transferring to messaging agent." None]
            (onSession received p)
      | ended => replay [ReplayMessage bot "Have a nice day!" None] (onSession received p)
      | _ => p
      end.

(** The listener [setupStateClickHandlers] puts on the nodes of the
    webform diagram; [stateId] is the node's id. *)
Definition stateClick (stateId : string) : PageAction :=
  fun p =>
    match clickedState webformDiagramToConversationState stateId with
    | Some newState =>
        updatePhoneUIForState newState
          (onSession (set_currentState newState ;;
                      set_isAfter24HourFollowup (String.eqb stateId "followup_next_day")) p)
    | None => p
    end.

(** The listener of [setupConfirmVisitStateClickHandlers]. *)
Definition confirmVisitStateClick (stateId : string) : PageAction :=
  fun p =>
    match clickedState confirmVisitDiagramToConversationState stateId with
    | Some newState =>
        updatePhoneUIForConfirmVisit newState (onSession (set_currentState newState) p)
    | None => p
    end.

(** The listener of [setupProductQuestionStateClickHandlers]. *)
Definition productQuestionStateClick (stateId : string) : PageAction :=
  fun p =>
    match clickedState productQuestionDiagramToConversationState stateId with
    | Some newState =>
        updatePhoneUIForProductQuestion newState
          (onSession (set_currentState newState ;;
                      set_isAfter24HourFollowup (String.eqb stateId "followup_next_day_pq")) p)
    | None => p
    end.

(** A click on the node [stateId] of the diagram on the page.
    [renderDataflow] draws the diagram of the selected workflow, and with it
    puts that diagram's listeners on the nodes, each time the workflow or
    the state is assigned; four workflows have no diagram. *)
Definition clickNode (stateId : string) : PageAction :=
  fun p =>
    let workflow := selectedWorkflow (session p) in
    if String.eqb workflow "offer" || String.eqb workflow "schedule consultation"
       || String.eqb workflow "customer satisfaction check-in"
       || String.eqb workflow "legal requirements"
    then p
    else if String.eqb workflow "confirm visit" then confirmVisitStateClick stateId p
    else if String.eqb workflow "product question" then productQuestionStateClick stateId p
    else stateClick stateId p.

(** Everything that acts on the session: the events of the engine, the
    clicks on the diagram with the timers of their replays, and the two
    buttons of the dialogue editor. *)
Inductive PageEvent :=
| Engine (e : Event)
| ClickNode (stateId : string)
| FireReplay (i : nat)
| SaveDialogueMessage (i : nat) (value : string) (optionInputs : list string)
| RemoveDialogueOption (i : nat) (optionIndex : nat).

Definition pageStep (e : PageEvent) : PageAction :=
  match e with
  | Engine e => onSession (step e)
  | ClickNode stateId => clickNode stateId
  | FireReplay i => fireReplay i
  | SaveDialogueMessage i value optionInputs => onSession (saveDialogueMessage i value optionInputs)
  | RemoveDialogueOption i optionIndex => onSession (removeDialogueOption i optionIndex)
  end.

Fixpoint pageRun (events : list PageEvent) (p : Page) : Page :=
  match events with
  | [] => p
  | e :: rest => pageRun rest (pageStep e p)
  end.

(** The page as loaded. *)
Definition initPage : Page := mkPage initApp [].

Definition PageReachable (p : Page) : Prop := exists events, p = pageRun events initPage.

(** The event only adds to the log: an event of the engine that does not
    start the conversation over, or a timer of a replay. *)
Definition appends (e : PageEvent) (p : Page) : bool :=
  match e with
  | Engine e => negb (restarts e (session p))
  | FireReplay _ => true
  | ClickNode _ | SaveDialogueMessage _ _ _ | RemoveDialogueOption _ _ => false
  end.

Fixpoint allAppend (events : list PageEvent) (p : Page) : bool :=
  match events with
  | [] => true
  | e :: rest => appends e p && allAppend rest (pageStep e p)
  end.

End Diagram.

(** An opted-out session with nothing on screen to answer with: the input
    area is empty and the log is empty or ends with a message of the
    user. *)
Definition Settled (s : Session) : Prop :=
  userHasStopped s = true ->
  inputArea s = NoInput /\ (messages s = [] \/ lastSender (messages s) = Some user).

(** With the input area empty and a user message last in the log, nothing
    is on screen to answer with. *)
Definition Silenced (s : Session) : Prop :=
  inputArea s = NoInput /\ lastSender (messages s) = Some user.

(** [s'] continues the opted-out session [s]: still opted out, the log has
    grown, if at all, by user messages only, and an input area that was
    empty below a user message is still empty. *)
Definition MutedAt (s s' : Session) : Prop :=
  userHasStopped s' = true /\
  (exists added, messages s' = messages s ++ added /\ userOnly added) /\
  (Silenced s -> inputArea s' = NoInput).

(** An action that, run on an opted-out session, leaves it opted out and
    appends no bot message. *)
Definition Muted (a : Action) : Prop :=
  forall s, userHasStopped s = true -> MutedAt s (a s).

(** The action leaves the observation [f] of the session as it was. *)
Definition Preserves {A : Type} (f : Session -> A) (a : Action) : Prop :=
  forall s, f (a s) = f s.

(** Either the user has not opted out, or nothing is on screen to answer
    with. *)
Definition Calm (s : Session) : Prop :=
  userHasStopped s = false \/ Silenced s.

(** A host used to run the engine on concrete inputs: a key is configured,
    and dates are rendered by tagging the constructor string. *)
Definition demoHost : Host :=
  Build_Host (Some "sk-demo") "Tuesday, January 7, 2025 at 10:00 AM"
    (fun d => ("date(" ++ d ++ ")")%string)
    (fun d => ("time(" ++ d ++ ")")%string).

(** [r] is what is left of [s] after some prefix. *)
Definition Suffix (r s : string) : Prop := exists pre, s = (pre ++ r)%string.

(** Nothing but white space. *)
Fixpoint allWhiteSpace (s : string) : bool :=
  match s with
  | EmptyString => true
  | String c r => isWhiteSpace c && allWhiteSpace r
  end.

(** The action keeps the property [P] of the session. *)
Definition Keeps (P : Session -> Prop) (a : Action) : Prop :=
  forall s, P s -> P (a s).

(** The events that only assign the state, the flags and the pending
    list and append to the log: all but a text submission, a version
    selection and those that start the conversation over. *)
Definition plainEvent (e : Event) : bool :=
  match e with
  | SubmitText _ | SelectVersion _ => false
  | _ => true
  end.

(** The first entry of the log, when the bot wrote it, is the disclosure. *)
Definition disclosureFirst (l : list Message) : Prop :=
  match l with
  | m :: _ => sender m = bot -> m = mkMessage ADT_INTRO_MESSAGE bot None
  | [] => True
  end.

(** The input area agrees with the AI flag, and only an AI session is
    opted out. *)
Definition ModesAgree (s : Session) : Prop :=
  (inputArea s = TextInput -> aiEnabled s = true) /\
  (forall opts, inputArea s = OptionButtons opts -> aiEnabled s = false) /\
  (userHasStopped s = true -> aiEnabled s = true).

(** The stored time was accepted by the check of [handleDateTimeConfirm]. *)
Definition ScheduledChecked (s : Session) : Prop :=
  forall dt, scheduledDateTime s = Some dt ->
             exists d h m a, validateDateTime d h m a = Accepted dt.

(** One turn of the next-day follow-up in buttons mode: No is chosen, the
    24 hours pass, the follow-up is sent and its Yes/No prompt shown. *)
Definition followupRound : list Event :=
  [SelectOption 1; Fire 0 Threw; Fire 0 Threw; Fire 0 Threw].

(** The session waits, with nothing else pending, for the answer to the
    next-day follow-up. *)
Definition AtFollowup (s : Session) : Prop :=
  selectedWorkflow s <> "confirm visit" /\
  currentState s = followup_next_day /\
  isAfter24HourFollowup s = true /\
  userHasStopped s = false /\
  aiEnabled s = false /\
  inputArea s = OptionButtons ["Yes"; "No"] /\
  pending s = [].

(** The text of the next-day follow-up. *)
Definition followupMessage (workflow : string) : string :=
  if String.eqb workflow "product question"
  then "Hello, we called yesterday about your product question. Would you like to schedule a time for us to call you?"
  else "Hello, we called yesterday to reach out about our product! Would you like to schedule a time for us to call you?".

(** The keys pressed one after the other. *)
Fixpoint pressAll (keys : list string) (c : CallControls) : CallControls :=
  match keys with
  | [] => c
  | k :: rest => pressAll rest (handleKeypadKeyPress k c)
  end.

(* ------------------------------------------------------------------ *)
(** *** Concrete sessions

    Runs of the engine on [demoHost], each event in the order a browser
    would deliver it. *)

(** Page load, the start-up timer, the calling notification, AI switched on
    (which starts over), the notification again, the call declined and the
    follow-up question shown: the six-way question is on screen with the
    text box under it. *)
Definition declinedWithAI : list Event :=
  [ Fire 0 Threw; Fire 0 Threw; ToggleAI; Fire 0 Threw; CallDecline; Fire 0 Threw ].

Definition awaitingReply : Session := @run demoHost declinedWithAI initApp.

(** The user then types Stop. *)
Definition optedOut : Session := @run demoHost [SubmitText " Stop "] awaitingReply.

(** What may still happen afterwards: the call is ended, a time confirmed,
    the picker cancelled, timers run, the call declined again, and clicks
    and submissions attempted. *)
Definition afterOptOut : list Event :=
  [ EndCall; ConfirmDateTime "2025-01-06" "10" "30" "AM"; CancelDateTime; Fire 0 Threw;
    CallDecline; Fire 0 Threw; SubmitText "hello"; SelectOption 0; SelectVersion "A" ].

(** Confirm-visit workflow with AI on; the prompt is shown and the user has
    typed a sentence whose classification is still in flight. *)
Definition confirmVisitTyping : list Event :=
  [ Fire 0 Threw; Fire 0 Threw; ToggleAI; Fire 0 Threw; SelectWorkflow "confirm visit";
    Fire 0 Threw; SubmitText "can we do tomorrow instead?" ].

Definition awaitingClassifier : Session := @run demoHost confirmVisitTyping initApp.

(** Buttons mode: the call is declined and, before the follow-up question's
    half-second delay is over, the back button is pressed. *)
Definition declinedThenBack : list Event :=
  [ Fire 0 Threw; Fire 0 Threw; CallDecline ].

Definition justDeclined : Session := @run demoHost declinedThenBack initApp.

(** After the question a one-letter reply, the 24-hour pass and the
    follow-up with its Yes/No prompt; then the reply [call me tomorrow],
    for which the classifier request fails. *)
Definition followupThenReschedule : list Event :=
  declinedWithAI ++
  [ SubmitText "k"; Fire 0 Threw; Fire 0 Threw; Fire 0 Threw; Fire 0 Threw;
    SubmitText "call me tomorrow"; Fire 0 Threw ].

(** The start-up timer has run. *)
Definition started : Session := @run demoHost [Fire 0 Threw] initApp.

(** Buttons mode: the call was declined, another time asked for and
    picked. *)
Definition callScheduled : Session :=
  @run demoHost
    [Fire 0 Threw; Fire 0 Threw; CallDecline; Fire 0 Threw; SelectOption 1;
     ConfirmDateTime "2025-01-06" "2" "30" "PM"] initApp.

(** Buttons mode: the call was declined and No chosen twice; the prompt of
    the next-day follow-up is on screen. *)
Definition atFollowupPrompt : Session :=
  @run demoHost
    [Fire 0 Threw; Fire 0 Threw; CallDecline; Fire 0 Threw; SelectOption 2;
     Fire 0 Threw; SelectOption 1; Fire 0 Threw; Fire 0 Threw; Fire 0 Threw] initApp.

(** AI on: the six-way question is answered with [no], the classifier
    request fails, and the better-time question is on screen. *)
Definition betterTimeAsked : list Event :=
  declinedWithAI ++ [ SubmitText "no"; Fire 0 Threw; Fire 0 Threw ].

Definition askingBetterTime : Session := @run demoHost betterTimeAsked initApp.

(** The user then asks not to be contacted; the request fails again, and
    the two timers of the 24-hour pass run. *)
Definition doNotContactTyped : list Event :=
  [ SubmitText "do not contact me"; Fire 0 Threw; Fire 0 Threw; Fire 0 Threw ].

(** AI on and the user has typed Stop; then the node [better_time] of the
    diagram is clicked. *)
Definition stopThenClick : list PageEvent :=
  map Engine (declinedWithAI ++ [SubmitText " Stop "]) ++ [ClickNode "better_time"].

Definition clickedAfterOptOut : Page := @pageRun demoHost stopThenClick initPage.

(** Buttons mode: the six-way question is on screen when the follow-up
    node of the diagram is clicked. *)
Definition clickFollowupNode : list PageEvent :=
  map Engine [Fire 0 Threw; Fire 0 Threw; CallDecline; Fire 0 Threw]
  ++ [ClickNode "followup_next_day"].

(** The call is declined and, before the follow-up question's delay is
    over, the confirm-visit workflow is selected: the timer left over then
    puts the session in waiting_for_response. *)
Definition declinedThenConfirmVisit : list Event :=
  [ Fire 0 Threw; Fire 0 Threw; CallDecline; SelectWorkflow "confirm visit"; Fire 0 Threw ].

(* ================================================================== *)
(** * Properties *)

Arguments addMessage : simpl never.
Arguments renderMessages : simpl never.

(** ** Strings *)

Lemma startsWith_spec (t p : string) :
  startsWith t p = true <-> exists post, t = (p ++ post)%string.
Proof.
  revert t; induction p as [|a p IH]; intros t; simpl.
  - split; [intros _; now exists t | intros _; destruct t; reflexivity].
  - destruct t as [|b t].
    + split; [discriminate | intros [post H]; discriminate].
    + simpl. rewrite andb_true_iff, Ascii.eqb_eq, IH. split.
      * intros [-> [post ->]]. now exists post.
      * intros [post H]. injection H as -> ->. split; [reflexivity | now exists post].
Qed.

Lemma includes_spec (t p : string) : includes t p = true <-> Contains t p.
Proof.
  unfold Contains. split.
  - induction t as [|c t IH]; cbn [includes].
    + rewrite orb_false_r. intros H. apply startsWith_spec in H as [post H].
      exists EmptyString, post. exact H.
    + rewrite orb_true_iff. intros [H|H].
      * apply startsWith_spec in H as [post H]. exists EmptyString, post. exact H.
      * destruct (IH H) as (pre & post & ->). now exists (String c pre), post.
  - intros (pre & post & ->). induction pre as [|c pre IH].
    + assert (H : startsWith (p ++ post) p = true) by (apply startsWith_spec; now exists post).
      change ("" ++ p ++ post)%string with (p ++ post)%string.
      destruct (p ++ post)%string; cbn [includes]; rewrite H; reflexivity.
    + change (String c pre ++ p ++ post)%string with (String c (pre ++ p ++ post)).
      cbn [includes]. rewrite IH. apply orb_true_r.
Qed.

Lemma length_toLowerCase (s : string) : String.length (toLowerCase s) = String.length s.
Proof. induction s; simpl; congruence. Qed.

Lemma length_toUpperCase (s : string) : String.length (toUpperCase s) = String.length s.
Proof. induction s; simpl; congruence. Qed.

Lemma isWhiteSpace_lowerChar (c : ascii) : isWhiteSpace (lowerChar c) = isWhiteSpace c.
Proof.
  destruct c as [[] [] [] [] [] [] [] []]; reflexivity.
Qed.

Lemma trimStart_toLowerCase (s : string) :
  trimStart (toLowerCase s) = toLowerCase (trimStart s).
Proof.
  induction s as [|c s IH]; simpl; [reflexivity|].
  rewrite isWhiteSpace_lowerChar. destruct (isWhiteSpace c); [exact IH | reflexivity].
Qed.

Lemma trimEnd_toLowerCase (s : string) :
  trimEnd (toLowerCase s) = toLowerCase (trimEnd s).
Proof.
  induction s as [|c s IH]; simpl; [reflexivity|].
  rewrite IH, isWhiteSpace_lowerChar.
  destruct (trimEnd s); simpl; [destruct (isWhiteSpace c)|]; reflexivity.
Qed.

Lemma trim_toLowerCase (s : string) : trim (toLowerCase s) = toLowerCase (trim s).
Proof. unfold trim. now rewrite trimStart_toLowerCase, trimEnd_toLowerCase. Qed.

Lemma append_assoc (a b c : string) : ((a ++ b) ++ c)%string = (a ++ b ++ c)%string.
Proof. induction a; simpl; congruence. Qed.

Lemma length_append (a b : string) :
  String.length (a ++ b) = String.length a + String.length b.
Proof. induction a; simpl; congruence. Qed.

Lemma length_Contains (t p : string) : Contains t p -> String.length p <= String.length t.
Proof.
  intros (pre & post & ->). rewrite !length_append. lia.
Qed.

(** Trimming cannot cut into an occurrence that begins and ends with a
    character that is not white space. *)
Lemma trimStart_Contains (t p : string) :
  startsNonWhite p = true -> Contains t p -> Contains (trimStart t) p.
Proof.
  intros Hp. induction t as [|c t IH]; simpl; intros H; [exact H|].
  destruct (isWhiteSpace c) eqn:Hc; [|exact H].
  apply IH. destruct H as (pre & post & H). destruct pre as [|c' pre]; simpl in H.
  - destruct p as [|a p]; [discriminate|]. simpl in H, Hp. injection H as <- _.
    rewrite Hc in Hp. discriminate.
  - injection H as _ ->. now exists pre, post.
Qed.

Lemma trimEnd_app_nonWhite (p post : string) :
  endsNonWhite p = true -> trimEnd (p ++ post) = (p ++ trimEnd post)%string.
Proof.
  induction p as [|a p IH]; [discriminate|]. intros Hp.
  destruct p as [|b p].
  - simpl in *. destruct (trimEnd post); [|reflexivity].
    apply negb_true_iff in Hp. now rewrite Hp.
  - change (endsNonWhite (String b p) = true) in Hp. specialize (IH Hp).
    change (String a (String b p) ++ post)%string with (String a (String b p ++ post)).
    cbn [trimEnd]. rewrite IH. reflexivity.
Qed.

Lemma trimEnd_Contains (t p : string) :
  endsNonWhite p = true -> Contains t p -> Contains (trimEnd t) p.
Proof.
  intros Hp. induction t as [|c t IH]; intros H; [exact H|].
  destruct H as (pre & post & H). destruct pre as [|c' pre].
  - simpl in H. rewrite H, trimEnd_app_nonWhite by exact Hp.
    now exists EmptyString, (trimEnd post).
  - simpl in H. injection H as <- ->.
    assert (HC : Contains (trimEnd (pre ++ p ++ post)) p) by (apply IH; now exists pre, post).
    destruct HC as (pre' & post' & HC). cbn [trimEnd]. rewrite HC.
    destruct (pre' ++ p ++ post')%string eqn:E.
    + destruct pre'; [|discriminate]. destruct p; discriminate.
    + exists (String c pre'), post'. simpl. now rewrite E.
Qed.

Lemma trim_Contains (t p : string) :
  startsNonWhite p = true -> endsNonWhite p = true ->
  Contains t p -> Contains (trim t) p.
Proof.
  intros H1 H2 H. unfold trim. now apply trimEnd_Contains, trimStart_Contains.
Qed.

Lemma existsb_includes (text : string) (l : list string) :
  existsb (includes text) l = true <-> exists p, In p l /\ Contains text p.
Proof.
  rewrite existsb_exists. split; intros (p & Hin & H); exists p; split; auto;
    now apply includes_spec.
Qed.

Lemma dncPatterns_solid (p : string) :
  In p dncPatterns -> startsNonWhite p = true /\ endsNonWhite p = true.
Proof.
  assert (H : forallb (fun p => startsNonWhite p && endsNonWhite p) dncPatterns = true)
    by reflexivity.
  rewrite forallb_forall in H. intros Hin. apply andb_true_iff. now apply H.
Qed.

Lemma test_spec (re : Matcher) (t : string) :
  test re t = true <-> exists pre rest, t = (pre ++ rest)%string /\ re rest <> [].
Proof.
  split.
  - induction t as [|c t IH]; cbn [test]; rewrite orb_true_iff; intros [H|H].
    + exists EmptyString, EmptyString. split; [reflexivity|]. now destruct (re EmptyString).
    + discriminate.
    + exists EmptyString, (String c t). split; [reflexivity|]. now destruct (re (String c t)).
    + destruct (IH H) as (pre & rest & -> & Hr). now exists (String c pre), rest.
  - intros (pre & rest & -> & Hr). induction pre as [|c pre IH].
    + change ("" ++ rest)%string with rest.
      destruct rest; cbn [test]; (destruct (re _); [contradiction | reflexivity]).
    + change (String c pre ++ rest)%string with (String c (pre ++ rest)).
      cbn [test]. rewrite IH. apply orb_true_r.
Qed.

Lemma matchesPattern_spec (t : string) (pat : Pattern) :
  matchesPattern t pat = true <-> Matches t pat.
Proof. destruct pat; simpl; [apply includes_spec | apply test_spec]. Qed.

Lemma existsb_matches (t : string) (l : list Pattern) :
  existsb (matchesPattern t) l = true <-> exists pat, In pat l /\ Matches t pat.
Proof.
  rewrite existsb_exists. split; intros (p & Hin & H); exists p; split; auto;
    now apply matchesPattern_spec.
Qed.

(** Evaluates [re_clock] on a string whose leading characters have been
    classified. *)
Ltac re_eval :=
  unfold re_clock, mdigits_1_2, mseq, malt, mchar;
  repeat (progress (cbn [flat_map app];
                    change (isDigit ":"%char) with false;
                    change (Ascii.eqb ":"%char ":"%char) with true;
                    repeat match goal with
                      | E : _ = true |- _ => rewrite E
                      | E : _ = false |- _ => rewrite E
                      end));
  repeat match goal with
    | |- context [if ?c then _ else _] => destruct c; cbn [flat_map app]
    end;
  first [reflexivity | discriminate].

(** X4. [/\d{1,2}:\d{2}/] matches exactly the texts with a digit, a colon and
    two digits in a row: the optional leading digit never decides. *)
Lemma re_clock_spec (t : string) :
  test re_clock t = true <->
  exists pre d m1 m2 post,
    isDigit d = true /\ isDigit m1 = true /\ isDigit m2 = true /\
    t = (pre ++ String d (String ":" (String m1 (String m2 post))))%string.
Proof.
  rewrite test_spec. split.
  - intros (pre & rest & -> & H).
    destruct rest as [|c1 [|c2 [|c3 [|c4 rest]]]]; try solve [exfalso; apply H; re_eval].
    destruct (isDigit c1) eqn:D1; [|exfalso; apply H; re_eval].
    destruct (Ascii.eqb ":" c2) eqn:C2.
    + apply Ascii.eqb_eq in C2. subst c2.
      destruct (isDigit c3) eqn:D3; [|exfalso; apply H; re_eval].
      destruct (isDigit c4) eqn:D4; [|exfalso; apply H; re_eval].
      exists pre, c1, c3, c4, rest. repeat split; assumption.
    + destruct (isDigit c2) eqn:D2; [|exfalso; apply H; re_eval].
      destruct (Ascii.eqb ":" c3) eqn:C3; [|exfalso; apply H; re_eval].
      apply Ascii.eqb_eq in C3. subst c3.
      destruct (isDigit c4) eqn:D4; [|exfalso; apply H; re_eval].
      destruct rest as [|c5 rest]; [exfalso; apply H; re_eval|].
      destruct (isDigit c5) eqn:D5; [|exfalso; apply H; re_eval].
      exists (pre ++ String c1 EmptyString)%string, c2, c4, c5, rest.
      repeat split; try assumption. rewrite append_assoc. reflexivity.
  - intros (pre & d & m1 & m2 & post & Hd & H1 & H2 & ->).
    exists pre, (String d (String ":" (String m1 (String m2 post)))).
    split; [reflexivity|].
    unfold re_clock, mdigits_1_2, mseq, malt, mchar. cbn [flat_map app]. rewrite Hd.
    cbn [flat_map app]. rewrite !flat_map_app. cbn [flat_map app Ascii.eqb Bool.eqb].
    rewrite H1. cbn [flat_map app]. rewrite H2. cbn [flat_map app].
    intros E. apply app_eq_nil in E as [_ E]. discriminate.
Qed.

Example re_clock_examples :
  test re_clock "12:5" = false /\ test re_clock "at 1:05" = true /\
  test re_clock "10:300" = true /\ test re_clock "1 : 30" = false.
Proof. repeat split; reflexivity. Qed.

Example re_hour_ampm_examples :
  test re_hour_ampm "3   PM" = true /\ test re_hour_ampm "at 11am" = true /\
  test re_hour_ampm "p3m" = false /\ test re_hour_ampm "3 o'clock" = false.
Proof. repeat split; reflexivity. Qed.

(* ================================================================== *)
(** ** Rule-based categorizer *)

(** The cascade of the categorizer, group by group. *)
Lemma pattern_matching_cascade (userText : string) :
  let text := trim (toLowerCase userText) in
  let r := categorizeUserResponsePatternMatching userText in
  let dnc := exists p, In p dncPatterns /\ Contains text p in
  let time := exists pat, In pat timePatterns /\ Matches text pat in
  let yes := exists p, In p yesPatterns /\ Contains text p in
  let no := exists p, In p noPatterns /\ Contains text p in
  (dnc -> r = DoNotContact) /\
  (~ dnc -> time -> r = CallAtDifferentTime) /\
  (~ dnc -> ~ time -> yes -> r = Yes) /\
  (~ dnc -> ~ time -> ~ yes -> no -> r = No) /\
  (~ dnc -> ~ time -> ~ yes -> ~ no -> r = UnknownMessage).
Proof.
  intros text r dnc time yes no.
  assert (Hd : existsb (includes text) dncPatterns = true <-> dnc) by apply existsb_includes.
  assert (Ht : existsb (matchesPattern text) timePatterns = true <-> time) by apply existsb_matches.
  assert (Hy : existsb (includes text) yesPatterns = true <-> yes) by apply existsb_includes.
  assert (Hn : existsb (includes text) noPatterns = true <-> no) by apply existsb_includes.
  assert (Hr : r = if existsb (includes text) dncPatterns then DoNotContact
                   else if existsb (matchesPattern text) timePatterns then CallAtDifferentTime
                   else if existsb (includes text) yesPatterns then Yes
                   else if existsb (includes text) noPatterns then No
                   else UnknownMessage) by reflexivity.
  clearbody r dnc time yes no.
  destruct (existsb (includes text) dncPatterns);
    destruct (existsb (matchesPattern text) timePatterns);
    destruct (existsb (includes text) yesPatterns);
    destruct (existsb (includes text) noPatterns);
    subst r;
    repeat split; try reflexivity; intros;
    exfalso;
    repeat match goal with
    | H : ~ ?P, E : true = true <-> ?P |- _ => apply H, E; reflexivity
    | H : ?P, E : false = true <-> ?P |- _ => apply E in H; discriminate
    end.
Qed.

(** C7. The rule-based categorizer tries its groups in the order
    DoNotContact, CallAtDifferentTime, Yes, No and answers with the first
    group one of whose patterns occurs in the lower-cased, trimmed text,
    UnknownMessage when none does; it never answers NoResponse24h, and a
    text in which a DoNotContact pattern occurs, in whatever letter case,
    is classified DoNotContact. *)
Theorem pattern_matching_priority (userText : string) :
  let text := trim (toLowerCase userText) in
  let r := categorizeUserResponsePatternMatching userText in
  let dnc := exists p, In p dncPatterns /\ Contains text p in
  let time := exists pat, In pat timePatterns /\ Matches text pat in
  let yes := exists p, In p yesPatterns /\ Contains text p in
  let no := exists p, In p noPatterns /\ Contains text p in
  (dnc -> r = DoNotContact) /\
  (~ dnc -> time -> r = CallAtDifferentTime) /\
  (~ dnc -> ~ time -> yes -> r = Yes) /\
  (~ dnc -> ~ time -> ~ yes -> no -> r = No) /\
  (~ dnc -> ~ time -> ~ yes -> ~ no -> r = UnknownMessage) /\
  r <> NoResponse24h /\
  (forall p, In p dncPatterns -> Contains (toLowerCase userText) p -> r = DoNotContact).
Proof.
  intros text r dnc time yes no.
  destruct (pattern_matching_cascade userText) as (H1 & H2 & H3 & H4 & H5).
  fold text r dnc time yes no in H1, H2, H3, H4, H5.
  repeat (split; [assumption|]). split.
  - unfold r, categorizeUserResponsePatternMatching.
    repeat match goal with |- context [if ?c then _ else _] => destruct c end; discriminate.
  - intros p Hin Hc. apply H1. exists p. split; [exact Hin|].
    destruct (dncPatterns_solid p Hin). now apply trim_Contains.
Qed.

Example categorizer_examples :
  categorizeUserResponsePatternMatching "  Please STOP CALLING me tomorrow " = DoNotContact /\
  categorizeUserResponsePatternMatching "call me at 3:30" = CallAtDifferentTime /\
  categorizeUserResponsePatternMatching "Sure, call me" = Yes /\
  categorizeUserResponsePatternMatching "nope" = No /\
  categorizeUserResponsePatternMatching "huh?" = UnknownMessage /\
  categorizeUserResponsePatternMatching "" = UnknownMessage.
Proof. repeat split; reflexivity. Qed.

Lemma no_dnc_pattern (text : string) :
  existsb (includes text) dncPatterns = false ->
  forall p, In p dncPatterns -> ~ Contains text p.
Proof.
  intros H p Hin Hc.
  assert (X : existsb (includes text) dncPatterns = true)
    by (apply existsb_includes; now exists p).
  congruence.
Qed.

(** C10. A text whose lower-cased, trimmed form contains the two letters
    [am] or [pm] anywhere, and no DoNotContact pattern, is classified
    CallAtDifferentTime, whatever it is about. *)
Theorem bare_am_pm_is_call_at_different_time (userText : string) :
  let text := trim (toLowerCase userText) in
  Contains text "am" \/ Contains text "pm" ->
  (forall p, In p dncPatterns -> ~ Contains text p) ->
  categorizeUserResponsePatternMatching userText = CallAtDifferentTime.
Proof.
  intros text Hampm Hnodnc.
  destruct (pattern_matching_cascade userText) as (_ & Htime & _).
  apply Htime.
  - intros (p & Hin & Hc). exact (Hnodnc p Hin Hc).
  - destruct Hampm as [H|H]; [exists (Sub "am") | exists (Sub "pm")];
      (split; [simpl; tauto | exact H]).
Qed.

Lemma bare_am_pm_witness :
  (Contains (trim (toLowerCase "What is your name?")) "am"
   \/ Contains (trim (toLowerCase "What is your name?")) "pm") /\
  (forall p, In p dncPatterns -> ~ Contains (trim (toLowerCase "What is your name?")) p) /\
  categorizeUserResponsePatternMatching "What is your name?" = CallAtDifferentTime.
Proof.
  assert (H1 : Contains (trim (toLowerCase "What is your name?")) "am")
    by (apply includes_spec; reflexivity).
  assert (H2 : forall p, In p dncPatterns -> ~ Contains (trim (toLowerCase "What is your name?")) p)
    by (apply no_dnc_pattern; reflexivity).
  split; [left; exact H1 | split; [exact H2 |]].
  apply (bare_am_pm_is_call_at_different_time "What is your name?"); [left; exact H1 | exact H2].
Defined.

(* ================================================================== *)
(** ** Categorizer adapter *)


(** C8. A text whose lower-cased and then trimmed form has fewer than two
    code units is classified NoResponse24h at once: whatever [aiEnabled]
    is, and however the host lower-cases, the adapter returns without
    issuing the classifier request. *)
Theorem short_text_is_no_response {host : Host} (toLowerCase : Utf16.str -> Utf16.str)
    (aiEnabled : bool) (userText : Utf16.str) :
  length (Utf16.trim (toLowerCase userText)) < 2 ->
  Utf16.categorizeUserResponse toLowerCase aiEnabled userText = Utf16.Done NoResponse24h.
Proof.
  intros H. unfold Utf16.categorizeUserResponse.
  apply Nat.ltb_lt in H. now rewrite H.
Qed.

Lemma short_text_witness :
  length (Utf16.trim (Utf16.lowerBasicLatin (Utf16.lit "  K "))) < 2 /\
  @Utf16.categorizeUserResponse demoHost Utf16.lowerBasicLatin true (Utf16.lit "  K ")
    = Utf16.Done NoResponse24h.
Proof.
  split; [vm_compute; lia|].
  apply (@short_text_is_no_response demoHost Utf16.lowerBasicLatin true (Utf16.lit "  K ")).
  vm_compute; lia.
Defined.

(** The capital I with a dot above (U+0130) is one code unit, and two
    once lower-cased: it is not taken for a missing reply but goes on to
    the rules, or to the classifier. *)
Lemma dotted_capital_i_goes_on {host : Host} (toLowerCase : Utf16.str -> Utf16.str) :
  toLowerCase [0x130%N] = [0x69%N; 0x307%N] ->
  length (Utf16.trim [0x130%N]) = 1 /\
  Utf16.categorizeUserResponse toLowerCase false [0x130%N] = Utf16.Done UnknownMessage /\
  (usableKey VITE_OPENAI_API_KEY = true ->
   exists k, Utf16.categorizeUserResponse toLowerCase true [0x130%N] = Utf16.AwaitFetch k).
Proof.
  intros H. split; [reflexivity|].
  unfold Utf16.categorizeUserResponse, Utf16.categorizeUserResponsePatternMatching.
  rewrite H. split; [vm_compute; reflexivity|].
  intros Hk. rewrite Hk.
  change (length (Utf16.trim [0x69%N; 0x307%N]) <? 2)%nat with false.
  cbn [negb]. eexists. reflexivity.
Qed.

(** C8, as stated, fails: the text made of the one character U+0130 has
    trimmed length 1, yet with AI off it is classified by the rules, as
    UnknownMessage. *)
Lemma dotted_capital_i_is_classified :
  ~ (forall (aiEnabled : bool) (userText : Utf16.str),
        length (Utf16.trim userText) < 2 ->
        @Utf16.categorizeUserResponse demoHost Utf16.lowerBasicLatin aiEnabled userText
          = Utf16.Done NoResponse24h).
Proof.
  intros H. specialize (H false [0x130%N]).
  destruct (@dotted_capital_i_goes_on demoHost Utf16.lowerBasicLatin eq_refl) as (Hl & E & _).
  rewrite E in H. rewrite Hl in H. assert (X : 1 < 2) by lia. specialize (H X). discriminate H.
Qed.

(* ================================================================== *)
(** ** Scheduling check *)

(** What the check accepts, hour by hour: with every field filled in and an
    hour that parses, exactly the 24-hour values 9 to 16. *)
Lemma validateDateTime_accepts_iff (d h m a : string) (hours24 : Z) :
  d <> "" -> h <> "" -> m <> "" -> a <> "" ->
  to24 (parseInt h) a = Some hours24 ->
  (exists dt, validateDateTime d h m a = Accepted dt) <-> (9 <= hours24 < 17)%Z.
Proof.
  intros Hd Hh Hm Ha H24. unfold validateDateTime.
  apply String.eqb_neq in Hd, Hh, Hm, Ha. rewrite Hd, Hh, Hm, Ha, H24. simpl.
  destruct (hours24 <? 9)%Z eqn:E1; destruct (17 <=? hours24)%Z eqn:E2; simpl;
    try (split; [intros [dt H]; discriminate | lia]).
  assert (E3 : (hours24 =? 17)%Z = false) by lia. rewrite E3. simpl.
  split; [lia | intros _; eexists; reflexivity].
Qed.

Section SchedulingFacts.
Context {host : Host}.

(** C1. On any chosen date the check accepts 9:00 AM and rejects 5:05 PM
    and 8:55 AM; 5:00 PM, which the claim (and the comment in the handler)
    calls the last valid instant, is rejected as well, and the session is
    left as it was. *)
Theorem business_hours_check_rejects_five_pm (datePicker : string) (s : Session) :
  datePicker <> "" ->
  validateDateTime datePicker "9" "00" "AM" = Accepted (datePicker ++ "T09:00")%string /\
  validateDateTime datePicker "5" "05" "PM" = Rejected "Please select a time between 9:00 AM and 5:00 PM" /\
  validateDateTime datePicker "8" "55" "AM" = Rejected "Please select a time between 9:00 AM and 5:00 PM" /\
  validateDateTime datePicker "5" "00" "PM" = Rejected "Please select a time between 9:00 AM and 5:00 PM" /\
  handleDateTimeConfirm datePicker "5" "00" "PM" s = s.
Proof.
  intros Hd. apply String.eqb_neq in Hd.
  unfold handleDateTimeConfirm, validateDateTime. rewrite Hd. simpl.
  repeat split; reflexivity.
Qed.

End SchedulingFacts.

Lemma business_hours_check_witness :
  "2025-01-06" <> "" /\
  validateDateTime "2025-01-06" "5" "00" "PM"
    = Rejected "Please select a time between 9:00 AM and 5:00 PM".
Proof.
  split; [discriminate|].
  apply (@business_hours_check_rejects_five_pm demoHost "2025-01-06" (@initApp)). discriminate.
Defined.

(* ================================================================== *)
(** ** Session fields *)

(** *** Reading a field after a setter *)

Create Rewrite HintDb fields.

Lemma currentState_set_currentState v s : currentState (set_currentState v s) = v.
Proof. reflexivity. Qed.

Lemma scheduledDateTime_set_currentState v s : scheduledDateTime (set_currentState v s) = scheduledDateTime s.
Proof. reflexivity. Qed.

Lemma messages_set_currentState v s : messages (set_currentState v s) = messages s.
Proof. reflexivity. Qed.

Lemma isAfter24HourFollowup_set_currentState v s : isAfter24HourFollowup (set_currentState v s) = isAfter24HourFollowup s.
Proof. reflexivity. Qed.

Lemma userHasStopped_set_currentState v s : userHasStopped (set_currentState v s) = userHasStopped s.
Proof. reflexivity. Qed.

Lemma selectedWorkflow_set_currentState v s : selectedWorkflow (set_currentState v s) = selectedWorkflow s.
Proof. reflexivity. Qed.

Lemma selectedVersion_set_currentState v s : selectedVersion (set_currentState v s) = selectedVersion s.
Proof. reflexivity. Qed.

Lemma aiEnabled_set_currentState v s : aiEnabled (set_currentState v s) = aiEnabled s.
Proof. reflexivity. Qed.

Lemma inputArea_set_currentState v s : inputArea (set_currentState v s) = inputArea s.
Proof. reflexivity. Qed.

Lemma pending_set_currentState v s : pending (set_currentState v s) = pending s.
Proof. reflexivity. Qed.

#[local] Hint Rewrite currentState_set_currentState scheduledDateTime_set_currentState messages_set_currentState isAfter24HourFollowup_set_currentState userHasStopped_set_currentState
  selectedWorkflow_set_currentState selectedVersion_set_currentState aiEnabled_set_currentState inputArea_set_currentState pending_set_currentState : fields.

Lemma currentState_set_scheduledDateTime v s : currentState (set_scheduledDateTime v s) = currentState s.
Proof. reflexivity. Qed.

Lemma scheduledDateTime_set_scheduledDateTime v s : scheduledDateTime (set_scheduledDateTime v s) = v.
Proof. reflexivity. Qed.

Lemma messages_set_scheduledDateTime v s : messages (set_scheduledDateTime v s) = messages s.
Proof. reflexivity. Qed.

Lemma isAfter24HourFollowup_set_scheduledDateTime v s : isAfter24HourFollowup (set_scheduledDateTime v s) = isAfter24HourFollowup s.
Proof. reflexivity. Qed.

Lemma userHasStopped_set_scheduledDateTime v s : userHasStopped (set_scheduledDateTime v s) = userHasStopped s.
Proof. reflexivity. Qed.

Lemma selectedWorkflow_set_scheduledDateTime v s : selectedWorkflow (set_scheduledDateTime v s) = selectedWorkflow s.
Proof. reflexivity. Qed.

Lemma selectedVersion_set_scheduledDateTime v s : selectedVersion (set_scheduledDateTime v s) = selectedVersion s.
Proof. reflexivity. Qed.

Lemma aiEnabled_set_scheduledDateTime v s : aiEnabled (set_scheduledDateTime v s) = aiEnabled s.
Proof. reflexivity. Qed.

Lemma inputArea_set_scheduledDateTime v s : inputArea (set_scheduledDateTime v s) = inputArea s.
Proof. reflexivity. Qed.

Lemma pending_set_scheduledDateTime v s : pending (set_scheduledDateTime v s) = pending s.
Proof. reflexivity. Qed.

#[local] Hint Rewrite currentState_set_scheduledDateTime scheduledDateTime_set_scheduledDateTime messages_set_scheduledDateTime isAfter24HourFollowup_set_scheduledDateTime userHasStopped_set_scheduledDateTime
  selectedWorkflow_set_scheduledDateTime selectedVersion_set_scheduledDateTime aiEnabled_set_scheduledDateTime inputArea_set_scheduledDateTime pending_set_scheduledDateTime : fields.

Lemma currentState_set_messages v s : currentState (set_messages v s) = currentState s.
Proof. reflexivity. Qed.

Lemma scheduledDateTime_set_messages v s : scheduledDateTime (set_messages v s) = scheduledDateTime s.
Proof. reflexivity. Qed.

Lemma messages_set_messages v s : messages (set_messages v s) = v.
Proof. reflexivity. Qed.

Lemma isAfter24HourFollowup_set_messages v s : isAfter24HourFollowup (set_messages v s) = isAfter24HourFollowup s.
Proof. reflexivity. Qed.

Lemma userHasStopped_set_messages v s : userHasStopped (set_messages v s) = userHasStopped s.
Proof. reflexivity. Qed.

Lemma selectedWorkflow_set_messages v s : selectedWorkflow (set_messages v s) = selectedWorkflow s.
Proof. reflexivity. Qed.

Lemma selectedVersion_set_messages v s : selectedVersion (set_messages v s) = selectedVersion s.
Proof. reflexivity. Qed.

Lemma aiEnabled_set_messages v s : aiEnabled (set_messages v s) = aiEnabled s.
Proof. reflexivity. Qed.

Lemma inputArea_set_messages v s : inputArea (set_messages v s) = inputArea s.
Proof. reflexivity. Qed.

Lemma pending_set_messages v s : pending (set_messages v s) = pending s.
Proof. reflexivity. Qed.

#[local] Hint Rewrite currentState_set_messages scheduledDateTime_set_messages messages_set_messages isAfter24HourFollowup_set_messages userHasStopped_set_messages
  selectedWorkflow_set_messages selectedVersion_set_messages aiEnabled_set_messages inputArea_set_messages pending_set_messages : fields.

Lemma currentState_set_isAfter24HourFollowup v s : currentState (set_isAfter24HourFollowup v s) = currentState s.
Proof. reflexivity. Qed.

Lemma scheduledDateTime_set_isAfter24HourFollowup v s : scheduledDateTime (set_isAfter24HourFollowup v s) = scheduledDateTime s.
Proof. reflexivity. Qed.

Lemma messages_set_isAfter24HourFollowup v s : messages (set_isAfter24HourFollowup v s) = messages s.
Proof. reflexivity. Qed.

Lemma isAfter24HourFollowup_set_isAfter24HourFollowup v s : isAfter24HourFollowup (set_isAfter24HourFollowup v s) = v.
Proof. reflexivity. Qed.

Lemma userHasStopped_set_isAfter24HourFollowup v s : userHasStopped (set_isAfter24HourFollowup v s) = userHasStopped s.
Proof. reflexivity. Qed.

Lemma selectedWorkflow_set_isAfter24HourFollowup v s : selectedWorkflow (set_isAfter24HourFollowup v s) = selectedWorkflow s.
Proof. reflexivity. Qed.

Lemma selectedVersion_set_isAfter24HourFollowup v s : selectedVersion (set_isAfter24HourFollowup v s) = selectedVersion s.
Proof. reflexivity. Qed.

Lemma aiEnabled_set_isAfter24HourFollowup v s : aiEnabled (set_isAfter24HourFollowup v s) = aiEnabled s.
Proof. reflexivity. Qed.

Lemma inputArea_set_isAfter24HourFollowup v s : inputArea (set_isAfter24HourFollowup v s) = inputArea s.
Proof. reflexivity. Qed.

Lemma pending_set_isAfter24HourFollowup v s : pending (set_isAfter24HourFollowup v s) = pending s.
Proof. reflexivity. Qed.

#[local] Hint Rewrite currentState_set_isAfter24HourFollowup scheduledDateTime_set_isAfter24HourFollowup messages_set_isAfter24HourFollowup isAfter24HourFollowup_set_isAfter24HourFollowup userHasStopped_set_isAfter24HourFollowup
  selectedWorkflow_set_isAfter24HourFollowup selectedVersion_set_isAfter24HourFollowup aiEnabled_set_isAfter24HourFollowup inputArea_set_isAfter24HourFollowup pending_set_isAfter24HourFollowup : fields.

Lemma currentState_set_userHasStopped v s : currentState (set_userHasStopped v s) = currentState s.
Proof. reflexivity. Qed.

Lemma scheduledDateTime_set_userHasStopped v s : scheduledDateTime (set_userHasStopped v s) = scheduledDateTime s.
Proof. reflexivity. Qed.

Lemma messages_set_userHasStopped v s : messages (set_userHasStopped v s) = messages s.
Proof. reflexivity. Qed.

Lemma isAfter24HourFollowup_set_userHasStopped v s : isAfter24HourFollowup (set_userHasStopped v s) = isAfter24HourFollowup s.
Proof. reflexivity. Qed.

Lemma userHasStopped_set_userHasStopped v s : userHasStopped (set_userHasStopped v s) = v.
Proof. reflexivity. Qed.

Lemma selectedWorkflow_set_userHasStopped v s : selectedWorkflow (set_userHasStopped v s) = selectedWorkflow s.
Proof. reflexivity. Qed.

Lemma selectedVersion_set_userHasStopped v s : selectedVersion (set_userHasStopped v s) = selectedVersion s.
Proof. reflexivity. Qed.

Lemma aiEnabled_set_userHasStopped v s : aiEnabled (set_userHasStopped v s) = aiEnabled s.
Proof. reflexivity. Qed.

Lemma inputArea_set_userHasStopped v s : inputArea (set_userHasStopped v s) = inputArea s.
Proof. reflexivity. Qed.

Lemma pending_set_userHasStopped v s : pending (set_userHasStopped v s) = pending s.
Proof. reflexivity. Qed.

#[local] Hint Rewrite currentState_set_userHasStopped scheduledDateTime_set_userHasStopped messages_set_userHasStopped isAfter24HourFollowup_set_userHasStopped userHasStopped_set_userHasStopped
  selectedWorkflow_set_userHasStopped selectedVersion_set_userHasStopped aiEnabled_set_userHasStopped inputArea_set_userHasStopped pending_set_userHasStopped : fields.

Lemma currentState_set_selectedWorkflow v s : currentState (set_selectedWorkflow v s) = currentState s.
Proof. reflexivity. Qed.

Lemma scheduledDateTime_set_selectedWorkflow v s : scheduledDateTime (set_selectedWorkflow v s) = scheduledDateTime s.
Proof. reflexivity. Qed.

Lemma messages_set_selectedWorkflow v s : messages (set_selectedWorkflow v s) = messages s.
Proof. reflexivity. Qed.

Lemma isAfter24HourFollowup_set_selectedWorkflow v s : isAfter24HourFollowup (set_selectedWorkflow v s) = isAfter24HourFollowup s.
Proof. reflexivity. Qed.

Lemma userHasStopped_set_selectedWorkflow v s : userHasStopped (set_selectedWorkflow v s) = userHasStopped s.
Proof. reflexivity. Qed.

Lemma selectedWorkflow_set_selectedWorkflow v s : selectedWorkflow (set_selectedWorkflow v s) = v.
Proof. reflexivity. Qed.

Lemma selectedVersion_set_selectedWorkflow v s : selectedVersion (set_selectedWorkflow v s) = selectedVersion s.
Proof. reflexivity. Qed.

Lemma aiEnabled_set_selectedWorkflow v s : aiEnabled (set_selectedWorkflow v s) = aiEnabled s.
Proof. reflexivity. Qed.

Lemma inputArea_set_selectedWorkflow v s : inputArea (set_selectedWorkflow v s) = inputArea s.
Proof. reflexivity. Qed.

Lemma pending_set_selectedWorkflow v s : pending (set_selectedWorkflow v s) = pending s.
Proof. reflexivity. Qed.

#[local] Hint Rewrite currentState_set_selectedWorkflow scheduledDateTime_set_selectedWorkflow messages_set_selectedWorkflow isAfter24HourFollowup_set_selectedWorkflow userHasStopped_set_selectedWorkflow
  selectedWorkflow_set_selectedWorkflow selectedVersion_set_selectedWorkflow aiEnabled_set_selectedWorkflow inputArea_set_selectedWorkflow pending_set_selectedWorkflow : fields.

Lemma currentState_set_selectedVersion v s : currentState (set_selectedVersion v s) = currentState s.
Proof. reflexivity. Qed.

Lemma scheduledDateTime_set_selectedVersion v s : scheduledDateTime (set_selectedVersion v s) = scheduledDateTime s.
Proof. reflexivity. Qed.

Lemma messages_set_selectedVersion v s : messages (set_selectedVersion v s) = messages s.
Proof. reflexivity. Qed.

Lemma isAfter24HourFollowup_set_selectedVersion v s : isAfter24HourFollowup (set_selectedVersion v s) = isAfter24HourFollowup s.
Proof. reflexivity. Qed.

Lemma userHasStopped_set_selectedVersion v s : userHasStopped (set_selectedVersion v s) = userHasStopped s.
Proof. reflexivity. Qed.

Lemma selectedWorkflow_set_selectedVersion v s : selectedWorkflow (set_selectedVersion v s) = selectedWorkflow s.
Proof. reflexivity. Qed.

Lemma selectedVersion_set_selectedVersion v s : selectedVersion (set_selectedVersion v s) = v.
Proof. reflexivity. Qed.

Lemma aiEnabled_set_selectedVersion v s : aiEnabled (set_selectedVersion v s) = aiEnabled s.
Proof. reflexivity. Qed.

Lemma inputArea_set_selectedVersion v s : inputArea (set_selectedVersion v s) = inputArea s.
Proof. reflexivity. Qed.

Lemma pending_set_selectedVersion v s : pending (set_selectedVersion v s) = pending s.
Proof. reflexivity. Qed.

#[local] Hint Rewrite currentState_set_selectedVersion scheduledDateTime_set_selectedVersion messages_set_selectedVersion isAfter24HourFollowup_set_selectedVersion userHasStopped_set_selectedVersion
  selectedWorkflow_set_selectedVersion selectedVersion_set_selectedVersion aiEnabled_set_selectedVersion inputArea_set_selectedVersion pending_set_selectedVersion : fields.

Lemma currentState_set_aiEnabled v s : currentState (set_aiEnabled v s) = currentState s.
Proof. reflexivity. Qed.

Lemma scheduledDateTime_set_aiEnabled v s : scheduledDateTime (set_aiEnabled v s) = scheduledDateTime s.
Proof. reflexivity. Qed.

Lemma messages_set_aiEnabled v s : messages (set_aiEnabled v s) = messages s.
Proof. reflexivity. Qed.

Lemma isAfter24HourFollowup_set_aiEnabled v s : isAfter24HourFollowup (set_aiEnabled v s) = isAfter24HourFollowup s.
Proof. reflexivity. Qed.

Lemma userHasStopped_set_aiEnabled v s : userHasStopped (set_aiEnabled v s) = userHasStopped s.
Proof. reflexivity. Qed.

Lemma selectedWorkflow_set_aiEnabled v s : selectedWorkflow (set_aiEnabled v s) = selectedWorkflow s.
Proof. reflexivity. Qed.

Lemma selectedVersion_set_aiEnabled v s : selectedVersion (set_aiEnabled v s) = selectedVersion s.
Proof. reflexivity. Qed.

Lemma aiEnabled_set_aiEnabled v s : aiEnabled (set_aiEnabled v s) = v.
Proof. reflexivity. Qed.

Lemma inputArea_set_aiEnabled v s : inputArea (set_aiEnabled v s) = inputArea s.
Proof. reflexivity. Qed.

Lemma pending_set_aiEnabled v s : pending (set_aiEnabled v s) = pending s.
Proof. reflexivity. Qed.

#[local] Hint Rewrite currentState_set_aiEnabled scheduledDateTime_set_aiEnabled messages_set_aiEnabled isAfter24HourFollowup_set_aiEnabled userHasStopped_set_aiEnabled
  selectedWorkflow_set_aiEnabled selectedVersion_set_aiEnabled aiEnabled_set_aiEnabled inputArea_set_aiEnabled pending_set_aiEnabled : fields.

Lemma currentState_set_inputArea v s : currentState (set_inputArea v s) = currentState s.
Proof. reflexivity. Qed.

Lemma scheduledDateTime_set_inputArea v s : scheduledDateTime (set_inputArea v s) = scheduledDateTime s.
Proof. reflexivity. Qed.

Lemma messages_set_inputArea v s : messages (set_inputArea v s) = messages s.
Proof. reflexivity. Qed.

Lemma isAfter24HourFollowup_set_inputArea v s : isAfter24HourFollowup (set_inputArea v s) = isAfter24HourFollowup s.
Proof. reflexivity. Qed.

Lemma userHasStopped_set_inputArea v s : userHasStopped (set_inputArea v s) = userHasStopped s.
Proof. reflexivity. Qed.

Lemma selectedWorkflow_set_inputArea v s : selectedWorkflow (set_inputArea v s) = selectedWorkflow s.
Proof. reflexivity. Qed.

Lemma selectedVersion_set_inputArea v s : selectedVersion (set_inputArea v s) = selectedVersion s.
Proof. reflexivity. Qed.

Lemma aiEnabled_set_inputArea v s : aiEnabled (set_inputArea v s) = aiEnabled s.
Proof. reflexivity. Qed.

Lemma inputArea_set_inputArea v s : inputArea (set_inputArea v s) = v.
Proof. reflexivity. Qed.

Lemma pending_set_inputArea v s : pending (set_inputArea v s) = pending s.
Proof. reflexivity. Qed.

#[local] Hint Rewrite currentState_set_inputArea scheduledDateTime_set_inputArea messages_set_inputArea isAfter24HourFollowup_set_inputArea userHasStopped_set_inputArea
  selectedWorkflow_set_inputArea selectedVersion_set_inputArea aiEnabled_set_inputArea inputArea_set_inputArea pending_set_inputArea : fields.

Lemma currentState_set_pending v s : currentState (set_pending v s) = currentState s.
Proof. reflexivity. Qed.

Lemma scheduledDateTime_set_pending v s : scheduledDateTime (set_pending v s) = scheduledDateTime s.
Proof. reflexivity. Qed.

Lemma messages_set_pending v s : messages (set_pending v s) = messages s.
Proof. reflexivity. Qed.

Lemma isAfter24HourFollowup_set_pending v s : isAfter24HourFollowup (set_pending v s) = isAfter24HourFollowup s.
Proof. reflexivity. Qed.

Lemma userHasStopped_set_pending v s : userHasStopped (set_pending v s) = userHasStopped s.
Proof. reflexivity. Qed.

Lemma selectedWorkflow_set_pending v s : selectedWorkflow (set_pending v s) = selectedWorkflow s.
Proof. reflexivity. Qed.

Lemma selectedVersion_set_pending v s : selectedVersion (set_pending v s) = selectedVersion s.
Proof. reflexivity. Qed.

Lemma aiEnabled_set_pending v s : aiEnabled (set_pending v s) = aiEnabled s.
Proof. reflexivity. Qed.

Lemma inputArea_set_pending v s : inputArea (set_pending v s) = inputArea s.
Proof. reflexivity. Qed.

Lemma pending_set_pending v s : pending (set_pending v s) = v.
Proof. reflexivity. Qed.

#[local] Hint Rewrite currentState_set_pending scheduledDateTime_set_pending messages_set_pending isAfter24HourFollowup_set_pending userHasStopped_set_pending
  selectedWorkflow_set_pending selectedVersion_set_pending aiEnabled_set_pending inputArea_set_pending pending_set_pending : fields.

(* ================================================================== *)
(** ** The message log *)

Lemma renderMessages_shape (s : Session) : exists ia, renderMessages s = set_inputArea ia s.
Proof.
  unfold renderMessages, renderOptions, clearInputArea.
  destruct (last (map Some (messages s)) None) as [[t [] [o|]]|];
    try destruct (aiEnabled s); eexists; reflexivity.
Qed.

Lemma last_map_Some_snoc (l : list Message) (m : Message) :
  last (map Some (l ++ [m])) None = Some m.
Proof. rewrite map_app. simpl. apply last_last. Qed.

Lemma addMessage_muted (t : string) (o : option (list string)) (s : Session) :
  userHasStopped s = true -> addMessage bot t o s = s.
Proof. intros H. unfold addMessage. simpl. now rewrite H. Qed.

Lemma addMessage_user (t : string) (o : option (list string)) (s : Session) :
  addMessage user t o s =
  set_inputArea NoInput (set_messages (messages s ++ [mkMessage t user o]) s).
Proof.
  unfold addMessage, renderMessages. cbn [isBot andb].
  cbn [messages set_messages]. rewrite last_map_Some_snoc. reflexivity.
Qed.

Lemma addMessage_bot (t : string) (o : option (list string)) (s : Session) :
  userHasStopped s = false ->
  addMessage bot t o s =
  set_inputArea
    (match o with
     | Some opts => if aiEnabled s then TextInput else OptionButtons opts
     | None => NoInput
     end)
    (set_messages
       (messages s
        ++ (if (length (messages s) =? 0)%nat then [mkMessage ADT_INTRO_MESSAGE bot None] else [])
        ++ [mkMessage t bot o]) s).
Proof.
  intros H. unfold addMessage, renderMessages. cbn [isBot andb]. rewrite H.
  destruct (length (messages s) =? 0)%nat; cbn [messages set_messages];
    rewrite ?app_assoc, last_map_Some_snoc; unfold renderOptions, clearInputArea;
    destruct o; cbn; try destruct (aiEnabled s); rewrite <- ?app_assoc; reflexivity.
Qed.

Lemma addMessage_shape who t o (s : Session) :
  exists ia ms, addMessage who t o s = set_inputArea ia (set_messages ms s).
Proof.
  destruct who.
  - destruct (userHasStopped s) eqn:E.
    + rewrite addMessage_muted by exact E. exists (inputArea s), (messages s). now destruct s.
    + rewrite addMessage_bot by exact E. eexists; eexists; reflexivity.
  - rewrite addMessage_user. eexists; eexists; reflexivity.
Qed.

Lemma Preserves_addMessage {A} (f : Session -> A) who t o :
  (forall ia ms s, f (set_inputArea ia (set_messages ms s)) = f s) ->
  Preserves f (addMessage who t o).
Proof.
  intros H s. destruct (addMessage_shape who t o s) as (ia & ms & ->). apply H.
Qed.

Lemma currentState_addMessage who t o s :
  currentState (addMessage who t o s) = currentState s.
Proof. now apply Preserves_addMessage. Qed.

Lemma scheduledDateTime_addMessage who t o s :
  scheduledDateTime (addMessage who t o s) = scheduledDateTime s.
Proof. now apply Preserves_addMessage. Qed.

Lemma isAfter24HourFollowup_addMessage who t o s :
  isAfter24HourFollowup (addMessage who t o s) = isAfter24HourFollowup s.
Proof. now apply Preserves_addMessage. Qed.

Lemma userHasStopped_addMessage who t o s :
  userHasStopped (addMessage who t o s) = userHasStopped s.
Proof. now apply Preserves_addMessage. Qed.

Lemma selectedWorkflow_addMessage who t o s :
  selectedWorkflow (addMessage who t o s) = selectedWorkflow s.
Proof. now apply Preserves_addMessage. Qed.

Lemma selectedVersion_addMessage who t o s :
  selectedVersion (addMessage who t o s) = selectedVersion s.
Proof. now apply Preserves_addMessage. Qed.

Lemma aiEnabled_addMessage who t o s :
  aiEnabled (addMessage who t o s) = aiEnabled s.
Proof. now apply Preserves_addMessage. Qed.

Lemma pending_addMessage who t o s :
  pending (addMessage who t o s) = pending s.
Proof. now apply Preserves_addMessage. Qed.

#[local] Hint Rewrite currentState_addMessage scheduledDateTime_addMessage
  isAfter24HourFollowup_addMessage userHasStopped_addMessage selectedWorkflow_addMessage
  selectedVersion_addMessage aiEnabled_addMessage pending_addMessage : fields.

Lemma upper_lowerChar (c : ascii) : upperChar (lowerChar c) = upperChar c.
Proof. destruct c as [[] [] [] [] [] [] [] []]; reflexivity. Qed.

Lemma toUpperCase_toLowerCase (s : string) : toUpperCase (toLowerCase s) = toUpperCase s.
Proof. induction s; simpl; [reflexivity | now rewrite upper_lowerChar, IHs]. Qed.

Lemma equalsIgnoreCase_STOP (u : string) :
  equalsIgnoreCase u "STOP" -> toUpperCase u = "STOP" /\ u <> "".
Proof.
  unfold equalsIgnoreCase. intros H. split.
  - rewrite <- toUpperCase_toLowerCase, H. reflexivity.
  - intros ->. discriminate.
Qed.

(* ================================================================== *)
(** ** Opting out *)

Section StopFacts.
Context {host : Host}.

(** C6. A submitted text that, trimmed, equals STOP up to letter case is
    appended as a user message and sets the opt-out flag; nothing else
    happens: no classification is started (the pending list is unchanged),
    no bot message is added and the conversation state stays as it is. *)
Theorem stop_opts_out_without_classifying (s : Session) (value : string) :
  inputArea s = TextInput ->
  equalsIgnoreCase (trim value) "STOP" ->
  handleTextInput value s =
    set_inputArea NoInput
      (set_messages (messages s ++ [mkMessage (trim value) user None])
         (set_userHasStopped true s)).
Proof.
  intros Hin Hstop. apply equalsIgnoreCase_STOP in Hstop as [Hup Hne].
  unfold handleTextInput. rewrite Hin, Hup.
  apply String.eqb_neq in Hne. rewrite Hne. cbn [String.eqb Ascii.eqb Bool.eqb andb].
  unfold andThen. rewrite addMessage_user. reflexivity.
Qed.

End StopFacts.

Lemma lastSender_snoc (l : list Message) (m : Message) :
  lastSender (l ++ [m]) = Some (sender m).
Proof. unfold lastSender. now rewrite last_map_Some_snoc. Qed.

Lemma lastSender_app_userOnly (l added : list Message) :
  userOnly added -> lastSender l = Some user -> lastSender (l ++ added) = Some user.
Proof.
  intros Hu Hl. destruct added as [|m added] using rev_ind; [now rewrite app_nil_r|].
  rewrite app_assoc, lastSender_snoc. apply Forall_app in Hu as [_ Hm].
  inversion Hm; subst. congruence.
Qed.

Lemma MutedAt_Silenced (s s' : Session) : MutedAt s s' -> Silenced s -> Silenced s'.
Proof.
  intros (_ & (added & E & U) & Hi) Hs. split; [now apply Hi|].
  rewrite E. apply lastSender_app_userOnly; [exact U | apply Hs].
Qed.

Lemma MutedAt_refl (s : Session) : userHasStopped s = true -> MutedAt s s.
Proof.
  intros H. split; [exact H|]. split; [|now intros [? _]].
  exists []. split; [now rewrite app_nil_r | constructor].
Qed.

Lemma MutedAt_trans (s1 s2 s3 : Session) : MutedAt s1 s2 -> MutedAt s2 s3 -> MutedAt s1 s3.
Proof.
  intros H12 H23. pose proof (MutedAt_Silenced _ _ H12) as HS.
  destruct H12 as (_ & (a1 & E1 & U1) & I1), H23 as (H & (a2 & E2 & U2) & I2).
  split; [exact H|]. split; [|now auto].
  exists (a1 ++ a2). split; [now rewrite E2, E1, app_assoc | now apply Forall_app].
Qed.

Lemma Muted_skip : Muted skip.
Proof. intros s H. now apply MutedAt_refl. Qed.

Lemma Muted_seq (a b : Action) : Muted a -> Muted b -> Muted (a ;; b).
Proof.
  intros Ha Hb s H. unfold andThen.
  pose proof (Ha s H) as X. eapply MutedAt_trans; [exact X | apply Hb, X].
Qed.

Lemma Muted_same_log (a : Action) :
  (forall s, userHasStopped (a s) = userHasStopped s) ->
  (forall s, messages (a s) = messages s) ->
  (forall s, inputArea (a s) = inputArea s) ->
  Muted a.
Proof.
  intros H1 H2 H3 s H. split; [now rewrite H1|]. split; [|rewrite H3; now intros [? _]].
  exists []. split; [now rewrite H2, app_nil_r | constructor].
Qed.

Lemma Muted_set_currentState v : Muted (set_currentState v).
Proof. now apply Muted_same_log. Qed.

Lemma Muted_set_scheduledDateTime v : Muted (set_scheduledDateTime v).
Proof. now apply Muted_same_log. Qed.

Lemma Muted_set_isAfter24HourFollowup v : Muted (set_isAfter24HourFollowup v).
Proof. now apply Muted_same_log. Qed.

Lemma Muted_set_selectedWorkflow v : Muted (set_selectedWorkflow v).
Proof. now apply Muted_same_log. Qed.

Lemma Muted_set_selectedVersion v : Muted (set_selectedVersion v).
Proof. now apply Muted_same_log. Qed.

Lemma Muted_set_pending v : Muted (set_pending v).
Proof. now apply Muted_same_log. Qed.

Lemma Muted_set_userHasStopped_true : Muted (set_userHasStopped true).
Proof.
  intros s _. split; [reflexivity|]. split; [|now intros [? _]].
  exists []. split; [now rewrite app_nil_r | constructor].
Qed.

Lemma Muted_setTimeout cb : Muted (setTimeout cb).
Proof. now apply Muted_same_log. Qed.

Lemma Muted_addMessage who t o : Muted (addMessage who t o).
Proof.
  intros s H. destruct who.
  - rewrite addMessage_muted by exact H. now apply MutedAt_refl.
  - rewrite addMessage_user. split; [exact H|]. split; [|reflexivity].
    exists [mkMessage t user o]. split; [reflexivity | now repeat constructor].
Qed.

Create HintDb muted.
#[local] Hint Resolve Muted_skip Muted_seq Muted_set_currentState Muted_set_scheduledDateTime
  Muted_set_isAfter24HourFollowup Muted_set_selectedWorkflow Muted_set_selectedVersion
  Muted_set_pending Muted_set_userHasStopped_true Muted_setTimeout Muted_addMessage : muted.

(** Case analysis on every test a handler makes on its argument or on the
    session, then the composition lemmas on each straight-line branch. *)
Ltac split_tests :=
  repeat match goal with
    | |- context [if ?c then _ else _] => destruct c eqn:?
    | |- context [match currentState ?s with _ => _ end] => destruct (currentState s) eqn:?
    end.

(** Projections of a session built by the setters. *)
Ltac session_cbn :=
  cbn [currentState scheduledDateTime messages isAfter24HourFollowup userHasStopped
       selectedWorkflow selectedVersion aiEnabled inputArea pending
       set_currentState set_scheduledDateTime set_messages set_isAfter24HourFollowup
       set_userHasStopped set_selectedWorkflow set_selectedVersion set_aiEnabled
       set_inputArea set_pending].

Tactic Notation "session_cbn" "in" hyp(H) :=
  cbn [currentState scheduledDateTime messages isAfter24HourFollowup userHasStopped
       selectedWorkflow selectedVersion aiEnabled inputArea pending
       set_currentState set_scheduledDateTime set_messages set_isAfter24HourFollowup
       set_userHasStopped set_selectedWorkflow set_selectedVersion set_aiEnabled
       set_inputArea set_pending] in H.

Ltac muted_branch :=
  match goal with
  | H : userHasStopped ?s = true |- MutedAt ?s ?s => exact (MutedAt_refl s H)
  | H : userHasStopped ?s = true |- MutedAt ?s (?f ?s) =>
      revert H; generalize s; change (Muted f); auto 20 with muted
  end.

Ltac muted_handler :=
  let s := fresh "s" in
  let Hs := fresh "Hs" in
  intros s Hs; split_tests; muted_branch.

Lemma Muted_handleResponseToCallQuestion opt : Muted (handleResponseToCallQuestion opt).
Proof.
  unfold handleResponseToCallQuestion, showTimePassingAnimation, showDateTimePicker.
  muted_handler.
Qed.

Lemma Muted_handleConfirmVisitResponse opt : Muted (handleConfirmVisitResponse opt).
Proof. unfold handleConfirmVisitResponse. muted_handler. Qed.

Lemma Muted_handleBetterTimeResponse opt : Muted (handleBetterTimeResponse opt).
Proof.
  unfold handleBetterTimeResponse, showTimePassingAnimation, showDateTimePicker.
  destruct (String.eqb opt "Yes"); auto with muted.
Qed.

Lemma Muted_handleAfterCancelResponse opt : Muted (handleAfterCancelResponse opt).
Proof.
  unfold handleAfterCancelResponse, showTimePassingAnimation.
  destruct (String.eqb opt "Yes"); auto with muted.
Qed.

#[local] Hint Resolve Muted_handleResponseToCallQuestion Muted_handleConfirmVisitResponse
  Muted_handleBetterTimeResponse Muted_handleAfterCancelResponse : muted.

Lemma Muted_handleOptionSelect opt : Muted (handleOptionSelect opt).
Proof.
  unfold handleOptionSelect. apply Muted_seq; [auto with muted|].
  muted_handler.
Qed.

#[local] Hint Resolve Muted_handleOptionSelect : muted.

Lemma Muted_clickOption i : Muted (clickOption i).
Proof.
  unfold clickOption. intros s Hs.
  destruct (inputArea s); try (now apply MutedAt_refl).
  destruct (nth_error opts i); [now apply Muted_handleOptionSelect | now apply MutedAt_refl].
Qed.

Lemma Muted_handleDateTimeCancel : Muted handleDateTimeCancel.
Proof. unfold handleDateTimeCancel. muted_handler. Qed.

Lemma Muted_callDeclinedFollowup : Muted callDeclinedFollowup.
Proof. unfold callDeclinedFollowup. muted_handler. Qed.

Lemma Muted_followupNextDay : Muted followupNextDay.
Proof. unfold followupNextDay. muted_handler. Qed.

Lemma Muted_rescheduleQuestion : Muted rescheduleQuestion.
Proof. unfold rescheduleQuestion. auto with muted. Qed.

Lemma Muted_handleEndCall : Muted handleEndCall.
Proof. unfold handleEndCall. auto with muted. Qed.

Lemma Muted_handleCallDecline : Muted handleCallDecline.
Proof. unfold handleCallDecline. auto with muted. Qed.

Section MutedEngine.
Context {host : Host}.

Lemma Muted_handleDateTimeConfirm d h m a : Muted (handleDateTimeConfirm d h m a).
Proof.
  unfold handleDateTimeConfirm. intros s Hs.
  destruct (validateDateTime d h m a) as [|date]; [now apply MutedAt_refl|].
  cbv beta iota zeta.
  eapply MutedAt_trans with (s2 := set_scheduledDateTime (Some date) s).
  - now apply Muted_set_scheduledDateTime.
  - assert (Hs' : userHasStopped (set_scheduledDateTime (Some date) s) = true) by exact Hs.
    revert Hs'. generalize (set_scheduledDateTime (Some date) s).
    muted_handler.
Qed.

Lemma Muted_confirmVisitPrompt msg : Muted (confirmVisitPrompt msg).
Proof. unfold confirmVisitPrompt. auto with muted. Qed.

Lemma Muted_switchToConfirmVisitWorkflow : Muted switchToConfirmVisitWorkflow.
Proof. unfold switchToConfirmVisitWorkflow. auto 20 with muted. Qed.

Lemma Muted_handleTextInput value : Muted (handleTextInput value).
Proof.
  unfold handleTextInput. intros s Hs.
  destruct (inputArea s); try (now apply MutedAt_refl).
  destruct (String.eqb (trim value) ""); [now apply MutedAt_refl|].
  destruct (String.eqb (toUpperCase (trim value)) "STOP").
  { revert Hs. generalize s. apply Muted_seq; auto with muted. }
  destruct (String.eqb (selectedWorkflow s) "webform" && isConfirmVisitIntent (trim value)).
  { revert Hs. generalize s. apply Muted_seq;
      [auto with muted | apply Muted_switchToConfirmVisitWorkflow]. }
  cbv zeta.
  apply MutedAt_trans with (s2 := addMessage user (trim value) None s);
    [now apply Muted_addMessage|].
  assert (Hs' : userHasStopped (addMessage user (trim value) None s) = true)
    by (rewrite addMessage_user; exact Hs).
  revert Hs'. generalize (addMessage user (trim value) None s). intros s' Hs'.
  destruct (categorizeUserResponse (aiEnabled s') (trim value)); now apply Muted_setTimeout.
Qed.

Lemma Muted_runCallback cb reply :
  cb <> CbStartConversation -> Muted (runCallback cb reply).
Proof.
  intros Hcb. destruct cb; simpl; try contradiction;
    unfold showCallingNotification, showDateTimePicker,
      showConfirmVisitRescheduleDateTimePicker, timePassed;
    auto using Muted_callDeclinedFollowup, Muted_rescheduleQuestion, Muted_followupNextDay,
      Muted_confirmVisitPrompt with muted.
Qed.

Lemma Muted_step (e : Event) (s : Session) :
  userHasStopped s = true -> restarts e s = false -> MutedAt s (step e s).
Proof.
  intros Hs Hr. destruct e; cbn [step restarts] in *; try discriminate.
  - now apply Muted_clickOption.
  - now apply Muted_handleTextInput.
  - unfold handleVersionSelect. apply negb_false_iff in Hr. rewrite Hr. cbn [negb].
    eapply MutedAt_trans with (s2 := set_selectedVersion version s);
      [now apply Muted_set_selectedVersion|].
    change (messages (set_selectedVersion version s)) with (messages s).
    destruct (last (map Some (messages s)) None) as [[t [] [o|]]|] eqn:E;
      try (apply MutedAt_refl; exact Hs).
    split; [unfold renderOptions; now destruct (aiEnabled _)|].
    split; [exists []; split; [unfold renderOptions; destruct (aiEnabled _);
                               now rewrite app_nil_r | constructor]|].
    intros [_ Hl]. unfold lastSender in Hl. cbn [messages set_selectedVersion] in Hl.
    rewrite E in Hl. discriminate.
  - now apply Muted_set_currentState.
  - now apply Muted_handleCallDecline.
  - now apply Muted_handleEndCall.
  - now apply Muted_handleDateTimeConfirm.
  - now apply Muted_handleDateTimeCancel.
  - unfold fire. destruct (nth_error (pending s) i) as [cb|] eqn:E;
      [|now apply MutedAt_refl].
    eapply MutedAt_trans with (s2 := set_pending (removeNth i (pending s)) s).
    + now apply Muted_set_pending.
    + apply Muted_runCallback; [|exact Hs]. intros ->. discriminate.
Qed.

Lemma startConversation_flags (s : Session) :
  userHasStopped (startConversation s) = false
  /\ isAfter24HourFollowup (startConversation s) = false.
Proof.
  unfold startConversation, startProductQuestionConversation, startConfirmVisitConversation,
    andThen, skip, setTimeout. autorewrite with fields.
  repeat match goal with |- context [if ?c then _ else _] => destruct c end;
    autorewrite with fields; split; reflexivity.
Qed.

(** C3. From an opted-out session, whatever sequence of option
    selections, text submissions, call and picker actions and timer or
    classifier completions follows, as long as none of them starts the
    conversation over, the session stays opted out, the log grows by user
    messages only, and appending a bot message does nothing; starting the
    conversation over clears the flag. *)
Theorem opted_out_session_stays_silent (events : list Event) (s : Session) :
  userHasStopped s = true ->
  noRestart events s = true ->
  userHasStopped (run events s) = true /\
  (exists added, messages (run events s) = messages s ++ added /\ userOnly added) /\
  (forall t o, addMessage bot t o (run events s) = run events s) /\
  userHasStopped (resetConversation (run events s)) = false.
Proof.
  intros Hs Hq.
  assert (H : MutedAt s (run events s)).
  { revert s Hs Hq. induction events as [|e rest IH]; intros s Hs Hq; simpl.
    - now apply MutedAt_refl.
    - simpl in Hq. apply andb_true_iff in Hq as [Hr Hq]. apply negb_true_iff in Hr.
      pose proof (Muted_step e s Hs Hr) as Hstep.
      eapply MutedAt_trans; [exact Hstep|]. apply IH; [apply Hstep | exact Hq]. }
  destruct H as (H1 & H2 & _). split; [exact H1|]. split; [exact H2|]. split.
  - intros t o. now apply addMessage_muted.
  - unfold resetConversation, andThen. apply startConversation_flags.
Qed.

End MutedEngine.

(* ================================================================== *)
(** ** What each event can touch *)

Lemma Preserves_skip {A} (f : Session -> A) : Preserves f skip.
Proof. intros s. reflexivity. Qed.

Lemma Preserves_seq {A} (f : Session -> A) (a b : Action) :
  Preserves f a -> Preserves f b -> Preserves f (a ;; b).
Proof. intros Ha Hb s. unfold andThen. now rewrite Hb, Ha. Qed.

Create HintDb preserve.
#[local] Hint Resolve Preserves_skip Preserves_seq : preserve.
#[local] Hint Extern 1 (Preserves _ (addMessage _ _ _)) =>
  (apply Preserves_addMessage; reflexivity) : preserve.
#[local] Hint Extern 2 (Preserves _ _) => (intros ?; reflexivity) : preserve.

Ltac preserves_branch :=
  match goal with
  | |- ?x = ?x => reflexivity
  | |- ?f (?a ?s) = ?f ?s => generalize s; change (Preserves f a); auto 20 with preserve
  end.

Ltac preserves_handler :=
  let s := fresh "s" in
  intros s; split_tests; preserves_branch.

Lemma Preserves_stopped_handleOptionSelect opt :
  Preserves userHasStopped (handleOptionSelect opt).
Proof.
  unfold handleOptionSelect. apply Preserves_seq; [auto with preserve|].
  unfold handleConfirmVisitResponse, handleResponseToCallQuestion, handleBetterTimeResponse,
    handleAfterCancelResponse, showTimePassingAnimation, showDateTimePicker.
  preserves_handler.
Qed.

Lemma Preserves_stopped_handleDateTimeCancel : Preserves userHasStopped handleDateTimeCancel.
Proof. unfold handleDateTimeCancel. preserves_handler. Qed.

Lemma Preserves_flag_handleDateTimeCancel :
  Preserves isAfter24HourFollowup handleDateTimeCancel.
Proof. unfold handleDateTimeCancel. preserves_handler. Qed.

Lemma Preserves_stopped_callDeclinedFollowup : Preserves userHasStopped callDeclinedFollowup.
Proof. unfold callDeclinedFollowup. preserves_handler. Qed.

Lemma Preserves_flag_callDeclinedFollowup :
  Preserves isAfter24HourFollowup callDeclinedFollowup.
Proof. unfold callDeclinedFollowup. preserves_handler. Qed.

Lemma Preserves_stopped_followupNextDay : Preserves userHasStopped followupNextDay.
Proof. unfold followupNextDay. preserves_handler. Qed.

Lemma set_pending_same (s : Session) : set_pending (pending s) s = s.
Proof. now destruct s. Qed.

Section EventFacts.
Context {host : Host}.

Lemma Preserves_stopped_handleDateTimeConfirm d h m a :
  Preserves userHasStopped (handleDateTimeConfirm d h m a).
Proof.
  unfold handleDateTimeConfirm. intros s.
  destruct (validateDateTime d h m a) as [|date]; [reflexivity|]. cbv beta iota zeta.
  change (userHasStopped s) with (userHasStopped (set_scheduledDateTime (Some date) s)).
  generalize (set_scheduledDateTime (Some date) s). preserves_handler.
Qed.

Lemma Preserves_flag_handleDateTimeConfirm d h m a :
  Preserves isAfter24HourFollowup (handleDateTimeConfirm d h m a).
Proof.
  unfold handleDateTimeConfirm. intros s.
  destruct (validateDateTime d h m a) as [|date]; [reflexivity|]. cbv beta iota zeta.
  change (isAfter24HourFollowup s)
    with (isAfter24HourFollowup (set_scheduledDateTime (Some date) s)).
  generalize (set_scheduledDateTime (Some date) s). preserves_handler.
Qed.

Lemma restart_unstops (e : Event) (s : Session) :
  restarts e s = true ->
  userHasStopped (step e s) = false /\ isAfter24HourFollowup (step e s) = false.
Proof.
  destruct e; cbn [step restarts]; try discriminate; intros H.
  - unfold handleWorkflowSelect, resetConversation, andThen. apply startConversation_flags.
  - unfold handleVersionSelect. rewrite H.
    unfold resetConversation, andThen. apply startConversation_flags.
  - unfold handleAIToggle, resetConversation, andThen. apply startConversation_flags.
  - unfold resetConversation, andThen. apply startConversation_flags.
  - unfold fire. destruct (nth_error (pending s) i) as [[]|]; try discriminate.
    cbn [runCallback]. apply startConversation_flags.
Qed.

(** Every event either starts the conversation over, hands an option label
    to the dispatcher, is the 24-hour follow-up, is a text submission, or
    leaves both the opt-out flag and the after-24-hour flag alone. *)
Lemma step_shape (e : Event) (s : Session) :
  restarts e s = true
  \/ (exists opt q, dispatched e s = Some opt
                    /\ step e s = handleOptionSelect opt (set_pending q s))
  \/ (exists q, step e s = followupNextDay (set_pending q s))
  \/ (exists value, e = SubmitText value)
  \/ (userHasStopped (step e s) = userHasStopped s
      /\ isAfter24HourFollowup (step e s) = isAfter24HourFollowup s).
Proof.
  destruct e; cbn [step restarts dispatched]; auto;
    try (do 4 right; split; reflexivity).
  - unfold clickOption. destruct (inputArea s); auto 6.
    destruct (nth_error opts i) as [opt|]; auto 6.
    right; left. exists opt, (pending s). rewrite set_pending_same. split; reflexivity.
  - right; right; right; left. now exists value.
  - unfold handleVersionSelect.
    destruct (String.eqb (selectedVersion s) version); cbn [negb]; auto.
    do 4 right. cbn [messages set_selectedVersion].
    destruct (last (map Some (messages s)) None) as [[t [] [o|]]|]; auto.
    unfold renderOptions. destruct (aiEnabled _); split; reflexivity.
  - do 4 right. unfold handleEndCall. autorewrite with fields. split; reflexivity.
  - do 4 right. split; [apply Preserves_stopped_handleDateTimeConfirm
                       | apply Preserves_flag_handleDateTimeConfirm].
  - do 4 right. split; [apply Preserves_stopped_handleDateTimeCancel
                       | apply Preserves_flag_handleDateTimeCancel].
  - unfold fire. destruct (nth_error (pending s) i) as [cb|]; auto 6.
    destruct cb; cbn [runCallback]; auto 6;
      try (do 4 right; split; reflexivity).
    + do 4 right. split;
        [rewrite Preserves_stopped_callDeclinedFollowup
        | rewrite Preserves_flag_callDeclinedFollowup]; reflexivity.
    + do 4 right. autorewrite with fields. split; reflexivity.
    + do 4 right. unfold confirmVisitPrompt, andThen. cbn.
      autorewrite with fields. split; reflexivity.
    + do 4 right. unfold rescheduleQuestion, andThen. cbn.
      autorewrite with fields. split; reflexivity.
    + right; right; left. eexists; reflexivity.
    + right; left. eexists; eexists; split; reflexivity.
    + right; left. eexists; eexists; split; reflexivity.
Qed.

End EventFacts.

(* ================================================================== *)
(** ** An opted-out session has nothing on screen to answer with *)

Section CalmFacts.
Context {host : Host}.

Lemma Calm_handleTextInput (value : string) (s : Session) :
  userHasStopped s = false -> Calm (handleTextInput value s).
Proof.
  intros Hs. unfold handleTextInput.
  destruct (inputArea s); try (now left).
  destruct (String.eqb (trim value) ""); [now left|].
  destruct (String.eqb (toUpperCase (trim value)) "STOP").
  { right. unfold andThen. rewrite addMessage_user. split; [reflexivity|].
    cbn [messages set_inputArea set_messages]. apply lastSender_snoc. }
  destruct (String.eqb (selectedWorkflow s) "webform" && isConfirmVisitIntent (trim value)).
  { left. unfold switchToConfirmVisitWorkflow, andThen, setTimeout. cbn.
    now autorewrite with fields. }
  left. cbv zeta.
  destruct (categorizeUserResponse _ _); unfold setTimeout; cbn; now autorewrite with fields.
Qed.

Lemma Calm_step (e : Event) (s : Session) : Calm s -> Calm (step e s).
Proof.
  intros HC. destruct (restarts e s) eqn:Hr.
  - left. now apply restart_unstops.
  - destruct (userHasStopped s) eqn:Hs.
    + right. destruct HC as [HC|HC]; [congruence|].
      eapply MutedAt_Silenced; [apply Muted_step; eassumption | exact HC].
    + destruct (step_shape e s) as [H|[(opt & q & _ & E)|[(q & E)|[(v & ->)|[E _]]]]].
      * congruence.
      * left. now rewrite E, Preserves_stopped_handleOptionSelect.
      * left. now rewrite E, Preserves_stopped_followupNextDay.
      * now apply Calm_handleTextInput.
      * left. congruence.
Qed.

Lemma Calm_run (events : list Event) (s : Session) : Calm s -> Calm (run events s).
Proof.
  revert s. induction events as [|e rest IH]; intros s H; simpl; [exact H|].
  now apply IH, Calm_step.
Qed.

Lemma Reachable_Calm (s : Session) : Reachable s -> Calm s.
Proof. intros [events ->]. apply Calm_run. now left. Qed.

(** While the text box is on screen the user has not opted out. *)
Lemma text_box_means_not_opted_out (s : Session) :
  Reachable s -> inputArea s = TextInput -> userHasStopped s = false.
Proof.
  intros Hr Hin. destruct (Reachable_Calm s Hr) as [H|[H _]]; [exact H | congruence].
Qed.

End CalmFacts.

(* ================================================================== *)
(** ** The switch to the confirm-visit workflow *)

Lemma length_trimStart_le (s : string) : String.length (trimStart s) <= String.length s.
Proof. induction s as [|c s IH]; simpl; [lia|]. destruct (isWhiteSpace c); simpl; lia. Qed.

Lemma length_trimEnd_le (s : string) : String.length (trimEnd s) <= String.length s.
Proof.
  induction s as [|c s IH]; simpl; [lia|].
  destruct (trimEnd s); [destruct (isWhiteSpace c)|]; simpl in *; lia.
Qed.

Lemma length_trim_le (s : string) : String.length (trim s) <= String.length s.
Proof.
  unfold trim. etransitivity; [apply length_trimEnd_le | apply length_trimStart_le].
Qed.

Lemma confirmVisitIntent_is_long (u : string) :
  isConfirmVisitIntent u = true -> 13 <= String.length u.
Proof.
  unfold isConfirmVisitIntent. intros H.
  apply existsb_includes in H as (p & Hin & Hc).
  assert (Hall : forallb (fun p => 13 <=? String.length p)%nat confirmVisitPatterns = true)
    by reflexivity.
  rewrite forallb_forall in Hall. specialize (Hall p Hin). apply Nat.leb_le in Hall.
  apply length_Contains in Hc. pose proof (length_trim_le (toLowerCase u)) as Ht.
  rewrite length_toLowerCase in Ht. lia.
Qed.

Lemma nth_error_snoc {A} (l : list A) (x : A) : nth_error (l ++ [x]) (length l) = Some x.
Proof. rewrite nth_error_app2 by lia. now rewrite Nat.sub_diag. Qed.

Lemma removeNth_snoc {A} (l : list A) (x : A) : removeNth (length l) (l ++ [x]) = l.
Proof. induction l as [|y l IH]; simpl; [reflexivity | now rewrite IH]. Qed.

Section SwitchFacts.
Context {host : Host}.

(** C4. A text submitted while the webform workflow is selected and
    matching a confirm-visit phrase is appended to the log as a user
    message, the workflow becomes confirm visit and the state
    confirm_visit_initial, with one more callback pending; when that
    callback runs the state is confirm_visit_waiting and the confirm-visit
    prompt with its five options follows the user's message. The messages
    already in the log stay in front, unchanged. *)
Theorem confirm_visit_intent_switches_workflow (s : Session) (value : string) :
  Reachable s ->
  inputArea s = TextInput ->
  selectedWorkflow s = "webform" ->
  isConfirmVisitIntent (trim value) = true ->
  let userMessage := mkMessage (trim value) user None in
  let prompt := mkMessage confirmVisitInitialMessage bot (Some confirmVisitOptions) in
  let s1 := handleTextInput value s in
  let s2 := fire (length (pending s)) Threw s1 in
  messages s1 = messages s ++ [userMessage] /\
  selectedWorkflow s1 = "confirm visit" /\
  currentState s1 = confirm_visit_initial /\
  pending s1 = pending s ++ [CbConfirmVisitPrompt confirmVisitInitialMessage] /\
  selectedWorkflow s2 = "confirm visit" /\
  currentState s2 = confirm_visit_waiting /\
  messages s2 = messages s ++ [userMessage; prompt] /\
  pending s2 = pending s.
Proof.
  intros Hr Hin Hwf Hintent userMessage prompt s1 s2.
  pose proof (text_box_means_not_opted_out s Hr Hin) as Hs.
  pose proof (confirmVisitIntent_is_long _ Hintent) as Hlen.
  assert (E1 : String.eqb (trim value) "" = false).
  { apply String.eqb_neq. intros E. rewrite E in Hlen. simpl in Hlen. lia. }
  assert (E2 : String.eqb (toUpperCase (trim value)) "STOP" = false).
  { apply String.eqb_neq. intros E. apply (f_equal String.length) in E.
    rewrite length_toUpperCase in E. simpl in E. lia. }
  assert (Hs1 : s1 = (addMessage user (trim value) None ;; switchToConfirmVisitWorkflow) s).
  { subst s1. unfold handleTextInput. rewrite Hin, E1, E2, Hwf, Hintent. reflexivity. }
  unfold switchToConfirmVisitWorkflow, andThen, setTimeout in Hs1.
  rewrite addMessage_user in Hs1. session_cbn in Hs1.
  assert (Hp : pending s1 = pending s ++ [CbConfirmVisitPrompt confirmVisitInitialMessage])
    by (rewrite Hs1; reflexivity).
  assert (Hs2 : s2 = confirmVisitPrompt confirmVisitInitialMessage
                       (set_pending (pending s) s1)).
  { subst s2. unfold fire. rewrite Hp, nth_error_snoc, removeNth_snoc. reflexivity. }
  unfold confirmVisitPrompt, andThen in Hs2.
  rewrite addMessage_bot in Hs2 by (rewrite Hs1; exact Hs).
  rewrite Hs2, Hs1. session_cbn.
  rewrite length_app, Nat.add_comm. cbn [length Nat.add Nat.eqb app]. rewrite <- app_assoc.
  repeat split; reflexivity.
Qed.

End SwitchFacts.

(* ================================================================== *)
(** ** Dispatching an option the tables have no entry for *)

(** Case analysis along the dispatcher: the workflow test, the state, then
    each label test in the order the handlers make them. *)
Ltac dispatch_cases s' :=
  unfold handleConfirmVisitResponse, handleResponseToCallQuestion,
    handleBetterTimeResponse, handleAfterCancelResponse;
  destruct (String.eqb (selectedWorkflow s') "confirm visit");
  destruct (currentState s') eqn:?;
  repeat match goal with
    | |- context [if String.eqb ?o ?l then _ else _] => destruct (String.eqb o l) eqn:?
    | |- context [if String.eqb ?o ?l || _ then _ else _] =>
        destruct (String.eqb o l) eqn:?; cbn [orb]
    | |- context [if isAfter24HourFollowup ?x then _ else _] =>
        destruct (isAfter24HourFollowup x) eqn:?
    end;
  unfold showDateTimePicker, showTimePassingAnimation, andThen, setTimeout;
  autorewrite with fields.

Ltac decide_labels E :=
  repeat match type of E with
    | context [String.eqb ?o ?l] => destruct (String.eqb o l) eqn:?; cbn [orb andb negb] in E
    end.

(** What the dispatcher does, once the choice is logged, with a label the
    tables have no row for. *)
Lemma dispatch_beyond_the_tables (s : Session) (opt : string) :
  specTableHasRow (selectedWorkflow s) (currentState s) opt = false ->
  (if String.eqb (selectedWorkflow s) "confirm visit" then handleConfirmVisitResponse opt s
   else
     match currentState s with
     | waiting_for_response | followup_next_day => handleResponseToCallQuestion opt s
     | asking_better_time => handleBetterTimeResponse opt s
     | asking_after_cancel => handleAfterCancelResponse opt s
     | _ => s
     end) =
  (if String.eqb (selectedWorkflow s) "confirm visit" then
     match currentState s with
     | confirm_visit_waiting =>
         if String.eqb opt "Do not contact"
         then (set_currentState confirm_visit_dnc ;;
               setTimeout (CbBotMessage
                 "Your appointment has been canceled and you will no longer receive notifications from this number."
                 None)) s
         else s
     | _ => s
     end
   else
     match currentState s with
     | asking_better_time | asking_after_cancel => showTimePassingAnimation s
     | waiting_for_response | followup_next_day =>
         if String.eqb opt "No response"
            || (String.eqb opt "No/No response" && isAfter24HourFollowup s)
         then showTimePassingAnimation s
         else s
     | _ => s
     end).
Proof.
  unfold specTableHasRow, specTableLabels, handleConfirmVisitResponse,
    handleResponseToCallQuestion, handleBetterTimeResponse, handleAfterCancelResponse.
  destruct (String.eqb (selectedWorkflow s) "confirm visit");
    destruct (currentState s); cbn [existsb]; intros E;
    try reflexivity;
    decide_labels E; try discriminate; cbn [orb andb]; try reflexivity.
  - now rewrite orb_false_r.
  - rewrite orb_false_r. destruct (String.eqb opt "No/No response") eqn:En.
    + apply String.eqb_eq in En. subst opt. cbn. now destruct (isAfter24HourFollowup s).
    + now rewrite andb_false_l, orb_false_r.
  - rewrite orb_false_r. destruct (String.eqb opt "No/No response") eqn:En.
    + apply String.eqb_eq in En. subst opt. cbn. now destruct (isAfter24HourFollowup s).
    + now rewrite andb_false_l, orb_false_r.
Qed.

(** The rows of the tables for labels that the prompt of the state does
    not offer: they can only arrive as the classification of a typed
    text, and are dispatched as their rows say. *)
Lemma dispatch_of_rows_not_offered :
  (forall s : Session,
      selectedWorkflow s <> "confirm visit" -> currentState s = followup_next_day ->
      handleOptionSelect "Call at a different time" s
        = showDateTimePicker (loggedChoice "Call at a different time" s) /\
      handleOptionSelect "24 hours later (No response)" s
        = showTimePassingAnimation (loggedChoice "24 hours later (No response)" s) /\
      handleOptionSelect "Do not contact" s
        = (addMessage bot "Have a nice day!" None ;; set_currentState ended)
            (loggedChoice "Do not contact" s) /\
      handleOptionSelect "Unknown message" s
        = (addMessage bot "Unknown message received, transferring to messaging agent." None ;;
           set_currentState unknown) (loggedChoice "Unknown message" s)) /\
  (forall s : Session,
      selectedWorkflow s = "confirm visit" ->
      currentState s = confirm_visit_reschedule_waiting ->
      handleOptionSelect "Unknown message" s
        = (set_currentState unknown ;;
           setTimeout (CbBotMessage "Unknown message received, transferring to messaging agent."
                         None)) (loggedChoice "Unknown message" s)).
Proof.
  split.
  - intros s Hw Hs. apply String.eqb_neq in Hw.
    unfold handleOptionSelect, andThen. rewrite !addMessage_user.
    fold (loggedChoice "Call at a different time" s)
         (loggedChoice "24 hours later (No response)" s)
         (loggedChoice "Do not contact" s) (loggedChoice "Unknown message" s).
    repeat split;
      match goal with
      | |- context [loggedChoice ?o s] =>
          change (selectedWorkflow (loggedChoice o s)) with (selectedWorkflow s);
          change (currentState (loggedChoice o s)) with (currentState s)
      end; rewrite Hw, Hs; reflexivity.
  - intros s Hw Hs.
    unfold handleOptionSelect, andThen. rewrite !addMessage_user.
    fold (loggedChoice "Unknown message" s).
    change (selectedWorkflow (loggedChoice "Unknown message" s)) with (selectedWorkflow s).
    rewrite Hw. cbn [String.eqb Ascii.eqb Bool.eqb andb].
    unfold handleConfirmVisitResponse.
    change (currentState (loggedChoice "Unknown message" s)) with (currentState s).
    rewrite Hs. reflexivity.
Qed.

(** C2. Dispatching a label that has no row for the session's state in the
    tables of the active workflow appends the label to the log as a user
    message, which empties the input area, and does nothing else: the
    state, the flags and the pending callbacks stay as they are and no bot
    message is added. The exceptions are the labels the handlers catch
    beyond the tables. Outside the confirm-visit workflow, in
    asking_better_time and asking_after_cancel every label other than Yes
    is taken as No and starts the 24-hour pass; in waiting_for_response
    and followup_next_day so does [No response], and [No/No response]
    while the after-24-hour flag is raised. In the confirm-visit workflow,
    in confirm_visit_waiting, [Do not contact] is handled as [DNC]: the
    state becomes confirm_visit_dnc and its message is scheduled.

    The tables have rows for labels that the prompt of a state does not
    offer, and these are dispatched as rows: in followup_next_day, whose
    prompt offers Yes and No, Call at a different time opens the picker,
    24 hours later (No response) starts the 24-hour pass, Do not contact
    ends the conversation and Unknown message hands it over; in
    confirm_visit_reschedule_waiting, whose prompt offers Yes and No,
    Unknown message hands it over. *)
Theorem dispatch_without_table_row :
  (forall (s : Session) (opt : string),
      specTableHasRow (selectedWorkflow s) (currentState s) opt = false ->
      handleOptionSelect opt s =
        if String.eqb (selectedWorkflow s) "confirm visit" then
          match currentState s with
          | confirm_visit_waiting =>
              if String.eqb opt "Do not contact"
              then (set_currentState confirm_visit_dnc ;;
                    setTimeout (CbBotMessage
                      "Your appointment has been canceled and you will no longer receive notifications from this number."
                      None)) (loggedChoice opt s)
              else loggedChoice opt s
          | _ => loggedChoice opt s
          end
        else
          match currentState s with
          | asking_better_time | asking_after_cancel =>
              showTimePassingAnimation (loggedChoice opt s)
          | waiting_for_response | followup_next_day =>
              if String.eqb opt "No response"
                 || (String.eqb opt "No/No response" && isAfter24HourFollowup s)
              then showTimePassingAnimation (loggedChoice opt s)
              else loggedChoice opt s
          | _ => loggedChoice opt s
          end) /\
  (forall s : Session,
      selectedWorkflow s <> "confirm visit" -> currentState s = followup_next_day ->
      handleOptionSelect "Call at a different time" s
        = showDateTimePicker (loggedChoice "Call at a different time" s) /\
      handleOptionSelect "24 hours later (No response)" s
        = showTimePassingAnimation (loggedChoice "24 hours later (No response)" s) /\
      handleOptionSelect "Do not contact" s
        = (addMessage bot "Have a nice day!" None ;; set_currentState ended)
            (loggedChoice "Do not contact" s) /\
      handleOptionSelect "Unknown message" s
        = (addMessage bot "Unknown message received, transferring to messaging agent." None ;;
           set_currentState unknown) (loggedChoice "Unknown message" s)) /\
  (forall s : Session,
      selectedWorkflow s = "confirm visit" ->
      currentState s = confirm_visit_reschedule_waiting ->
      handleOptionSelect "Unknown message" s
        = (set_currentState unknown ;;
           setTimeout (CbBotMessage "Unknown message received, transferring to messaging agent."
                         None)) (loggedChoice "Unknown message" s)).
Proof.
  split; [|exact dispatch_of_rows_not_offered].
  intros s opt H. unfold handleOptionSelect, andThen. rewrite addMessage_user.
  fold (loggedChoice opt s).
  exact (dispatch_beyond_the_tables (loggedChoice opt s) opt H).
Qed.

(** Conversely, a label with a row always moves the state or schedules a
    callback: every row of the tables is implemented. *)
Lemma table_row_has_an_effect (s : Session) (opt : string) :
  specTableHasRow (selectedWorkflow s) (currentState s) opt = true ->
  currentState (handleOptionSelect opt s) <> currentState s
  \/ length (pending (handleOptionSelect opt s)) = S (length (pending s)).
Proof.
  unfold handleOptionSelect, andThen. rewrite addMessage_user.
  set (s' := set_inputArea NoInput (set_messages (messages s ++ [mkMessage opt user None]) s)).
  change (currentState s) with (currentState s').
  change (pending s) with (pending s').
  change (selectedWorkflow s) with (selectedWorkflow s'). clearbody s'. clear s.
  unfold specTableHasRow, specTableLabels.
  dispatch_cases s'; cbn [existsb orb andb]; intros E; try discriminate;
    first [ left; congruence
          | right; rewrite length_app; cbn [length]; lia
          | match goal with
            | H : String.eqb opt _ = true |- _ => apply String.eqb_eq in H; subst opt
            end; vm_compute in E; discriminate
          | exfalso; revert E;
            repeat match goal with
              | H : String.eqb opt ?l = false |- _ => rewrite H; clear H
              end; cbn [orb]; discriminate ].
Qed.

(* ================================================================== *)
(** ** The after-24-hour flag *)

Lemma flag_handleOptionSelect_other (s : Session) (opt : string) :
  String.eqb opt "Yes" = false ->
  isAfter24HourFollowup (handleOptionSelect opt s) = isAfter24HourFollowup s.
Proof.
  intros H. unfold handleOptionSelect, andThen. rewrite addMessage_user.
  set (s' := set_inputArea NoInput (set_messages (messages s ++ [mkMessage opt user None]) s)).
  change (isAfter24HourFollowup s) with (isAfter24HourFollowup s'). clearbody s'. clear s.
  dispatch_cases s'; congruence.
Qed.

Lemma flag_handleOptionSelect_mono (s : Session) (opt : string) :
  isAfter24HourFollowup (handleOptionSelect opt s) = true ->
  isAfter24HourFollowup s = true.
Proof.
  unfold handleOptionSelect, andThen. rewrite addMessage_user.
  set (s' := set_inputArea NoInput (set_messages (messages s ++ [mkMessage opt user None]) s)).
  change (isAfter24HourFollowup s) with (isAfter24HourFollowup s'). clearbody s'. clear s.
  dispatch_cases s'; congruence.
Qed.

Lemma followupNextDay_enters (s : Session) :
  currentState (followupNextDay s) = followup_next_day
  /\ isAfter24HourFollowup (followupNextDay s) = true.
Proof.
  unfold followupNextDay, andThen, setTimeout. autorewrite with fields. split; reflexivity.
Qed.

Section FlagFacts.
Context {host : Host}.

Lemma Preserves_flag_handleTextInput value :
  Preserves isAfter24HourFollowup (handleTextInput value).
Proof.
  intros s. unfold handleTextInput, switchToConfirmVisitWorkflow, andThen, setTimeout.
  destruct (inputArea s); try reflexivity.
  destruct (String.eqb (trim value) ""); [reflexivity|].
  destruct (String.eqb (toUpperCase (trim value)) "STOP");
    [now autorewrite with fields|].
  destruct (String.eqb (selectedWorkflow s) "webform" && isConfirmVisitIntent (trim value));
    [session_cbn; now autorewrite with fields|].
  cbv zeta. destruct (categorizeUserResponse _ _); session_cbn; now autorewrite with fields.
Qed.

End FlagFacts.


(* ------------------------------------------------------------------ *)
(** *** The flag under the node clicks and the dialogue editor

    A property of the session that the assignments and the calls of
    [addMessage] made by the listeners of the diagram keep is kept by every
    click and by every timer of a replay. *)

Lemma session_onSession (a : Action) (p : Page) : session (onSession a p) = a (session p).
Proof. reflexivity. Qed.

Lemma session_replay (steps : list ReplayStep) (p : Page) : session (replay steps p) = session p.
Proof. reflexivity. Qed.

Section PageInvariant.
Context {host : Host}.
Variable P : Session -> Prop.

Hypothesis P_currentState : forall v, Keeps P (set_currentState v).
Hypothesis P_addMessage : forall who t o, Keeps P (addMessage who t o).

Lemma Keeps_runReplayStep (r : ReplayStep) : Keeps P (runReplayStep r).
Proof.
  destruct r; cbn [runReplayStep]; try (intros s H; exact H).
  - apply P_addMessage.
  - intros s H. destruct (scheduledDateTime s); [now apply P_addMessage|].
    now apply P_currentState.
Qed.

Lemma Keeps_fireReplay (i : nat) (p : Page) : P (session p) -> P (session (fireReplay i p)).
Proof.
  intros H. unfold fireReplay. destruct (nth_error (replays p) i) as [[|r rest]|];
    cbn [session]; try exact H.
  now apply Keeps_runReplayStep.
Qed.

Hypothesis P_clearLog : Keeps P (set_messages []).
Hypothesis P_clearInput : Keeps P clearInputArea.

Lemma Keeps_updatePhoneUIForConfirmVisit (state : ConversationState) (p : Page) :
  P (session p) -> P (session (updatePhoneUIForConfirmVisit state p)).
Proof.
  intros H. unfold updatePhoneUIForConfirmVisit.
  destruct state; cbv zeta; rewrite ?session_replay, session_onSession;
    unfold andThen; now apply P_clearInput, P_clearLog.
Qed.

Lemma Keeps_updatePhoneUIForProductQuestion (state : ConversationState) (p : Page) :
  P (session p) -> P (session (updatePhoneUIForProductQuestion state p)).
Proof.
  intros H. unfold updatePhoneUIForProductQuestion.
  destruct state; cbv zeta; rewrite ?session_replay, ?session_onSession;
    unfold andThen, showCallingNotification;
    repeat first [apply P_currentState | apply P_addMessage];
    now apply P_clearInput, P_clearLog.
Qed.

Lemma Keeps_updatePhoneUIForState (state : ConversationState) (p : Page) :
  P (session p) -> P (session (updatePhoneUIForState state p)).
Proof.
  intros H. unfold updatePhoneUIForState.
  destruct (String.eqb (selectedWorkflow (session p)) "confirm visit");
    [now apply Keeps_updatePhoneUIForConfirmVisit|].
  destruct (String.eqb (selectedWorkflow (session p)) "product question");
    [now apply Keeps_updatePhoneUIForProductQuestion|].
  destruct state; cbv zeta; rewrite ?session_replay, ?session_onSession;
    unfold andThen, showCallingNotification;
    repeat first [apply P_currentState | apply P_addMessage];
    try match goal with |- context [if ?c then _ else _] => destruct c end;
    repeat first [apply P_currentState | apply P_addMessage];
    now apply P_clearInput, P_clearLog.
Qed.

Hypothesis P_flag : forall v, Keeps P (set_isAfter24HourFollowup v).

Lemma Keeps_clickNode (stateId : string) (p : Page) :
  P (session p) -> P (session (clickNode stateId p)).
Proof.
  intros H. unfold clickNode, stateClick, confirmVisitStateClick, productQuestionStateClick.
  destruct (_ || _); [exact H|].
  destruct (String.eqb _ "confirm visit").
  { destruct (clickedState _ _); [|exact H].
    apply Keeps_updatePhoneUIForConfirmVisit. rewrite session_onSession.
    now apply P_currentState. }
  destruct (String.eqb _ "product question").
  { destruct (clickedState _ _); [|exact H].
    apply Keeps_updatePhoneUIForProductQuestion. rewrite session_onSession.
    unfold andThen. now apply P_flag, P_currentState. }
  destruct (clickedState _ _); [|exact H].
  apply Keeps_updatePhoneUIForState. rewrite session_onSession.
  unfold andThen. now apply P_flag, P_currentState.
Qed.

End PageInvariant.

Lemma renderMessages_fields (s : Session) :
  currentState (renderMessages s) = currentState s
  /\ isAfter24HourFollowup (renderMessages s) = isAfter24HourFollowup s
  /\ userHasStopped (renderMessages s) = userHasStopped s
  /\ messages (renderMessages s) = messages s.
Proof. destruct (renderMessages_shape s) as [ia ->]. repeat split. Qed.

Section FlagEvents.
Context {host : Host}.

(** Of the events of the engine, only the end of the 24-hour pass raises
    the flag. *)
Lemma flag_raised_by_followup (e : Event) (s : Session) :
  isAfter24HourFollowup s = false -> isAfter24HourFollowup (step e s) = true ->
  exists i reply, e = Fire i reply /\ nth_error (pending s) i = Some CbFollowupNextDay.
Proof.
  intros H0 H1.
  assert (Hrestart : restarts e s = true -> False).
  { intros Hr. apply restart_unstops in Hr as [_ Hr]. congruence. }
  destruct e; cbn [step restarts] in *; try (exfalso; now apply Hrestart).
  - exfalso. unfold clickOption in H1. destruct (inputArea s); try congruence.
    destruct (nth_error opts i); [|congruence].
    apply flag_handleOptionSelect_mono in H1. congruence.
  - exfalso. rewrite Preserves_flag_handleTextInput in H1. congruence.
  - exfalso. unfold handleVersionSelect in *.
    destruct (negb (String.eqb (selectedVersion s) version)); [now apply Hrestart|].
    cbn [messages set_selectedVersion] in H1.
    destruct (last (map Some (messages s)) None) as [[t [] [o|]]|];
      try (cbn in H1; congruence).
    unfold renderOptions in H1. destruct (aiEnabled _); cbn in H1; congruence.
  - exfalso. cbn in H1. congruence.
  - exfalso. unfold handleCallDecline, andThen, setTimeout in H1. cbn in H1. congruence.
  - exfalso. unfold handleEndCall in H1. rewrite isAfter24HourFollowup_addMessage in H1.
    congruence.
  - exfalso. rewrite Preserves_flag_handleDateTimeConfirm in H1. congruence.
  - exfalso. rewrite Preserves_flag_handleDateTimeCancel in H1. congruence.
  - unfold fire in *. destruct (nth_error (pending s) i) as [cb|] eqn:E; [|congruence].
    destruct cb; cbn [runCallback] in *;
      try (exfalso; now apply Hrestart);
      try (exfalso; cbn in H1; congruence).
    + exfalso. rewrite Preserves_flag_callDeclinedFollowup in H1. cbn in H1. congruence.
    + exfalso. rewrite isAfter24HourFollowup_addMessage in H1. cbn in H1. congruence.
    + exfalso. unfold confirmVisitPrompt, andThen in H1. cbn in H1.
      rewrite isAfter24HourFollowup_addMessage in H1. cbn in H1. congruence.
    + exfalso. unfold rescheduleQuestion, andThen in H1. cbn in H1.
      rewrite isAfter24HourFollowup_addMessage in H1. cbn in H1. congruence.
    + now exists i, reply.
    + exfalso. apply flag_handleOptionSelect_mono in H1. cbn in H1. congruence.
    + exfalso. apply flag_handleOptionSelect_mono in H1. cbn in H1. congruence.
Qed.

End FlagEvents.

Section ClickFacts.
Context {host : Host}.

Ltac phone_ui :=
  cbv zeta; rewrite ?session_replay, ?session_onSession;
  unfold andThen, showCallingNotification, clearInputArea;
  repeat match goal with |- context [if ?c then _ else _] => destruct c end;
  autorewrite with fields.

Lemma updatePhoneUIForConfirmVisit_state (state : ConversationState) (p : Page) :
  currentState (session (updatePhoneUIForConfirmVisit state p)) = currentState (session p).
Proof. unfold updatePhoneUIForConfirmVisit. destruct state; phone_ui; reflexivity. Qed.

Lemma updatePhoneUIForProductQuestion_state (state : ConversationState) (p : Page) :
  currentState (session p) = state ->
  currentState (session (updatePhoneUIForProductQuestion state p)) = state.
Proof.
  intros H. unfold updatePhoneUIForProductQuestion.
  destruct state; phone_ui; first [reflexivity | exact H].
Qed.

Lemma updatePhoneUIForState_state (state : ConversationState) (p : Page) :
  currentState (session p) = state ->
  currentState (session (updatePhoneUIForState state p)) = state.
Proof.
  intros H. unfold updatePhoneUIForState.
  destruct (String.eqb (selectedWorkflow (session p)) "confirm visit");
    [now rewrite updatePhoneUIForConfirmVisit_state|].
  destruct (String.eqb (selectedWorkflow (session p)) "product question");
    [now apply updatePhoneUIForProductQuestion_state|].
  destruct state; phone_ui; first [reflexivity | exact H].
Qed.

Lemma clickedState_followup_next_day (stateId : string) :
  clickedState webformDiagramToConversationState stateId = Some followup_next_day ->
  stateId = "followup_next_day".
Proof.
  unfold clickedState, webformDiagramToConversationState. cbn [find fst snd].
  repeat match goal with
    | |- context [String.eqb ?a stateId] =>
        destruct (String.eqb a stateId) eqn:?; cbn [option_map snd]; try discriminate
    end.
  intros _. symmetry. now apply String.eqb_eq.
Qed.

Lemma clickedState_followup_next_day_pq (stateId : string) :
  clickedState productQuestionDiagramToConversationState stateId = Some followup_next_day ->
  stateId = "followup_next_day_pq".
Proof.
  unfold clickedState, productQuestionDiagramToConversationState. cbn [find fst snd].
  repeat match goal with
    | |- context [String.eqb ?a stateId] =>
        destruct (String.eqb a stateId) eqn:?; cbn [option_map snd]; try discriminate
    end.
  intros _. symmetry. now apply String.eqb_eq.
Qed.

(** What a click on a node does to the state and the flag: nothing when the
    node is not in the table of the diagram on the page; the state of the
    node and, apart from the confirm-visit diagram, the flag raised on the
    follow-up node and lowered on every other. *)
Lemma clickNode_state_flag (stateId : string) (p : Page) :
  let s := session p in
  let s' := session (clickNode stateId p) in
  clickNode stateId p = p
  \/ (selectedWorkflow s = "confirm visit"
      /\ isAfter24HourFollowup s' = isAfter24HourFollowup s)
  \/ (selectedWorkflow s <> "confirm visit"
      /\ (isAfter24HourFollowup s' = true ->
          currentState s' = followup_next_day
          /\ (stateId = "followup_next_day" \/ stateId = "followup_next_day_pq"))
      /\ (isAfter24HourFollowup s' = false -> currentState s' <> followup_next_day)).
Proof.
  cbv zeta. unfold clickNode.
  destruct (_ || _); [now left|].
  destruct (String.eqb (selectedWorkflow (session p)) "confirm visit") eqn:Ecv.
  { apply String.eqb_eq in Ecv. unfold confirmVisitStateClick.
    destruct (clickedState _ _) as [newState|]; [|now left].
    right; left. split; [exact Ecv|].
    apply (Keeps_updatePhoneUIForConfirmVisit
             (fun x => isAfter24HourFollowup x = isAfter24HourFollowup (session p)));
      try (intros; intros x Hx; rewrite <- Hx; now autorewrite with fields).
    reflexivity. }
  apply String.eqb_neq in Ecv.
  destruct (String.eqb (selectedWorkflow (session p)) "product question").
  - unfold productQuestionStateClick.
    destruct (clickedState _ _) as [newState|] eqn:Ec; [|now left].
    right; right. split; [exact Ecv|].
    set (p1 := onSession _ p).
    assert (Hst : currentState (session (updatePhoneUIForProductQuestion newState p1)) = newState)
      by now apply updatePhoneUIForProductQuestion_state.
    assert (Hfl : isAfter24HourFollowup (session (updatePhoneUIForProductQuestion newState p1))
                  = String.eqb stateId "followup_next_day_pq").
    { apply (Keeps_updatePhoneUIForProductQuestion
               (fun x => isAfter24HourFollowup x = String.eqb stateId "followup_next_day_pq"));
        try (intros; intros x Hx; rewrite <- Hx; now autorewrite with fields).
      reflexivity. }
    rewrite Hst, Hfl. split.
    + intros E. apply String.eqb_eq in E. subst stateId.
      vm_compute in Ec. injection Ec as <-. auto.
    + intros E ->. apply clickedState_followup_next_day_pq in Ec. subst stateId.
      discriminate E.
  - unfold stateClick.
    destruct (clickedState _ _) as [newState|] eqn:Ec; [|now left].
    right; right. split; [exact Ecv|].
    set (p1 := onSession _ p).
    assert (Hst : currentState (session (updatePhoneUIForState newState p1)) = newState)
      by now apply updatePhoneUIForState_state.
    assert (Hfl : isAfter24HourFollowup (session (updatePhoneUIForState newState p1))
                  = String.eqb stateId "followup_next_day").
    { apply (Keeps_updatePhoneUIForState
               (fun x => isAfter24HourFollowup x = String.eqb stateId "followup_next_day"));
        try (intros; intros x Hx; rewrite <- Hx; now autorewrite with fields).
      reflexivity. }
    rewrite Hst, Hfl. split.
    + intros E. apply String.eqb_eq in E. subst stateId.
      vm_compute in Ec. injection Ec as <-. auto.
    + intros E ->. apply clickedState_followup_next_day in Ec. subst stateId.
      discriminate E.
Qed.

End ClickFacts.

Lemma saveDialogueMessage_fields i value optionInputs (s : Session) :
  currentState (saveDialogueMessage i value optionInputs s) = currentState s
  /\ isAfter24HourFollowup (saveDialogueMessage i value optionInputs s) = isAfter24HourFollowup s
  /\ userHasStopped (saveDialogueMessage i value optionInputs s) = userHasStopped s.
Proof.
  unfold saveDialogueMessage. destruct (nth_error (messages s) i); [|repeat split].
  cbv zeta.
  match goal with |- context [renderMessages ?x] =>
    destruct (renderMessages_fields x) as (-> & -> & -> & _) end.
  repeat split.
Qed.

Lemma removeDialogueOption_fields i k (s : Session) :
  currentState (removeDialogueOption i k s) = currentState s
  /\ isAfter24HourFollowup (removeDialogueOption i k s) = isAfter24HourFollowup s
  /\ userHasStopped (removeDialogueOption i k s) = userHasStopped s.
Proof.
  unfold removeDialogueOption.
  destruct (nth_error (messages s) i) as [[t [] [o|]]|]; try (repeat split; fail).
  cbv zeta.
  match goal with |- context [renderMessages ?x] =>
    destruct (renderMessages_fields x) as (-> & -> & -> & _) end.
  repeat split.
Qed.

Lemma flag_handleOptionSelect_confirmVisit (s : Session) (opt : string) :
  selectedWorkflow s = "confirm visit" ->
  isAfter24HourFollowup (handleOptionSelect opt s) = isAfter24HourFollowup s
  /\ (currentState s = waiting_for_response \/ currentState s = followup_next_day ->
      handleOptionSelect opt s = loggedChoice opt s).
Proof.
  intros Hw. unfold handleOptionSelect, andThen. rewrite addMessage_user.
  fold (loggedChoice opt s).
  assert (Hw' : selectedWorkflow (loggedChoice opt s) = "confirm visit") by exact Hw.
  change (isAfter24HourFollowup s) with (isAfter24HourFollowup (loggedChoice opt s)).
  change (currentState s) with (currentState (loggedChoice opt s)).
  generalize dependent (loggedChoice opt s). clear s Hw. intros s Hw.
  rewrite Hw. cbn [String.eqb Ascii.eqb Bool.eqb andb].
  unfold handleConfirmVisitResponse. split.
  - destruct (currentState s); try reflexivity;
      repeat match goal with
        | |- context [if ?c then _ else _] => destruct c
        end; unfold andThen, setTimeout; now autorewrite with fields.
  - intros [-> | ->]; reflexivity.
Qed.

Section FlagLifecycle.
Context {host : Host}.

(** C9. The flag is raised only by a step that enters followup_next_day:
    the end of the 24-hour pass, or a click on the follow-up node of the
    webform or product-question diagram. Once raised it is lowered only by
    dispatching Yes, by starting the conversation over, or by a click on
    another node of those two diagrams; every other answer leaves it as it
    is, also when the answer moves the session out of followup_next_day.
    Outside the confirm-visit workflow, in waiting_for_response and
    followup_next_day, Yes with the flag raised lowers it and moves to
    scheduling_time; Yes with the flag lowered schedules the calling
    notification, which sets the state to calling. In the confirm-visit
    workflow no answer touches the flag, and in these two states, which a
    timer left from before the switch can bring back, an answer is only
    logged. *)
Theorem after_24h_flag_lifecycle (e : PageEvent) (p : Page) (opt : string) :
  let s := session p in
  let s' := session (pageStep e p) in
  (isAfter24HourFollowup s = false -> isAfter24HourFollowup s' = true ->
   currentState s' = followup_next_day /\
   ((exists i reply, e = Engine (Fire i reply)
                     /\ nth_error (pending s) i = Some CbFollowupNextDay)
    \/ e = ClickNode "followup_next_day" \/ e = ClickNode "followup_next_day_pq")) /\
  (isAfter24HourFollowup s = true -> isAfter24HourFollowup s' = false ->
   (exists e0, e = Engine e0 /\ (restarts e0 s = true \/ dispatched e0 s = Some "Yes"))
   \/ (exists stateId, e = ClickNode stateId /\ selectedWorkflow s <> "confirm visit"
                       /\ currentState s' <> followup_next_day)) /\
  (opt <> "Yes" ->
   isAfter24HourFollowup (handleOptionSelect opt s) = isAfter24HourFollowup s) /\
  (selectedWorkflow s <> "confirm visit" ->
   currentState s = waiting_for_response \/ currentState s = followup_next_day ->
   if isAfter24HourFollowup s
   then isAfter24HourFollowup (handleOptionSelect "Yes" s) = false
        /\ currentState (handleOptionSelect "Yes" s) = scheduling_time
   else isAfter24HourFollowup (handleOptionSelect "Yes" s) = false
        /\ pending (handleOptionSelect "Yes" s) = pending s ++ [CbShowCallingNotification]
        /\ currentState (runCallback CbShowCallingNotification Threw
                           (handleOptionSelect "Yes" s)) = calling) /\
  (selectedWorkflow s = "confirm visit" ->
   isAfter24HourFollowup (handleOptionSelect opt s) = isAfter24HourFollowup s
   /\ (currentState s = waiting_for_response \/ currentState s = followup_next_day ->
       handleOptionSelect opt s = loggedChoice opt s)).
Proof.
  cbv zeta. set (s := session p).
  split; [|split; [|split; [|split]]].
  - intros H0 H1. destruct e as [e0|stateId|i|i v o|i k]; cbn [pageStep] in *.
    + rewrite session_onSession in *. fold s in H1 |- *.
      destruct (flag_raised_by_followup e0 s H0 H1) as (i & reply & -> & Hn).
      split; [|left; now exists i, reply].
      cbn [step]. unfold fire. rewrite Hn. cbn [runCallback]. apply followupNextDay_enters.
    + destruct (clickNode_state_flag stateId p) as [E|[[_ E]|(_ & E & _)]].
      * rewrite E in H1. fold s in H1. congruence.
      * fold s in E. congruence.
      * destruct (E H1) as [Hs [-> | ->]]; auto.
    + exfalso. revert H1.
      apply (Keeps_fireReplay (fun x => isAfter24HourFollowup x = true -> False));
        try (intros; intros x Hx; autorewrite with fields; exact Hx).
      fold s. congruence.
    + exfalso. rewrite session_onSession in H1. fold s in H1.
      destruct (saveDialogueMessage_fields i v o s) as (_ & E & _). congruence.
    + exfalso. rewrite session_onSession in H1. fold s in H1.
      destruct (removeDialogueOption_fields i k s) as (_ & E & _). congruence.
  - intros H1 H0. destruct e as [e0|stateId|i|i v o|i k]; cbn [pageStep] in *.
    + left. exists e0. split; [reflexivity|]. rewrite session_onSession in H0. fold s in H0.
      destruct (step_shape e0 s) as [H|[(o & q & D & E)|[(q & E)|[(v & ->)|[_ E]]]]].
      * now left.
      * right. destruct (String.eqb o "Yes") eqn:Ey.
        -- apply String.eqb_eq in Ey. now subst o.
        -- rewrite E, flag_handleOptionSelect_other in H0 by exact Ey.
           autorewrite with fields in H0. congruence.
      * rewrite E in H0. destruct (followupNextDay_enters (set_pending q s)). congruence.
      * cbn [step] in H0. rewrite Preserves_flag_handleTextInput in H0. congruence.
      * congruence.
    + right. exists stateId. split; [reflexivity|].
      destruct (clickNode_state_flag stateId p) as [E|[[_ E]|(Hw & _ & E)]].
      * rewrite E in H0. fold s in H0. congruence.
      * fold s in E. congruence.
      * split; [exact Hw | now apply E].
    + exfalso. revert H0.
      apply (Keeps_fireReplay (fun x => isAfter24HourFollowup x = false -> False));
        try (intros; intros x Hx; autorewrite with fields; exact Hx).
      fold s. congruence.
    + exfalso. rewrite session_onSession in H0. fold s in H0.
      destruct (saveDialogueMessage_fields i v o s) as (_ & E & _). congruence.
    + exfalso. rewrite session_onSession in H0. fold s in H0.
      destruct (removeDialogueOption_fields i k s) as (_ & E & _). congruence.
  - intros Hne. apply flag_handleOptionSelect_other. now apply String.eqb_neq.
  - intros Hwf Hst. apply String.eqb_neq in Hwf.
    unfold handleOptionSelect, andThen. rewrite addMessage_user.
    set (s1 := set_inputArea NoInput
                 (set_messages (messages s ++ [mkMessage "Yes" user None]) s)).
    change (isAfter24HourFollowup s) with (isAfter24HourFollowup s1).
    change (pending s) with (pending s1).
    change (String.eqb (selectedWorkflow s1) "confirm visit" = false) in Hwf.
    change (currentState s1 = waiting_for_response \/ currentState s1 = followup_next_day)
      in Hst.
    clearbody s1. rewrite Hwf. unfold handleResponseToCallQuestion.
    cbn [String.eqb Ascii.eqb Bool.eqb andb].
    destruct Hst as [-> | ->];
      destruct (isAfter24HourFollowup s1) eqn:Hf;
      unfold andThen, setTimeout, showDateTimePicker;
      cbn [runCallback]; unfold showCallingNotification;
      autorewrite with fields; rewrite ?Hf; repeat split; reflexivity.
  - apply flag_handleOptionSelect_confirmVisit.
Qed.

End FlagLifecycle.

(* ================================================================== *)
(** ** Reset and the callbacks still pending *)

Lemma removeNth_app {A} (i : nat) (l r : list A) :
  i < length l -> removeNth i (l ++ r) = removeNth i l ++ r.
Proof.
  revert i. induction l as [|x l IH]; intros i H; simpl in *; [lia|].
  destruct i; [reflexivity|]. simpl. rewrite IH by lia. reflexivity.
Qed.

Section ResetFacts.
Context {host : Host}.

Lemma startConversation_pending (s : Session) :
  exists started, pending (startConversation s) = pending s ++ [started].
Proof.
  unfold startConversation, startProductQuestionConversation, startConfirmVisitConversation,
    andThen, skip, setTimeout.
  repeat match goal with |- context [if ?c then _ else _] => destruct c end;
    autorewrite with fields; eexists; reflexivity.
Qed.

Lemma startConversation_scheduledDateTime (s : Session) :
  scheduledDateTime (startConversation s) = None.
Proof.
  unfold startConversation, startProductQuestionConversation, startConfirmVisitConversation,
    andThen, skip, setTimeout.
  repeat match goal with |- context [if ?c then _ else _] => destruct c end;
    autorewrite with fields; reflexivity.
Qed.

Lemma startConversation_messages (s : Session) :
  messages (startConversation s) = []
  \/ exists t, messages (startConversation s)
               = [mkMessage ADT_INTRO_MESSAGE bot None; mkMessage t bot None].
Proof.
  unfold startConversation, startProductQuestionConversation, startConfirmVisitConversation,
    andThen, skip, setTimeout.
  repeat match goal with |- context [if ?c then _ else _] => destruct c end;
    autorewrite with fields;
    try (now left);
    right; rewrite addMessage_bot by reflexivity; autorewrite with fields;
    eexists; reflexivity.
Qed.

(** C5. A reset clears the log, the opt-out flag, the scheduled time and
    the after-24-hour flag and starts the conversation again, but cancels
    nothing: every callback that was pending is still pending behind the
    reset, next to the one the new start schedules, and when it runs it
    acts on the new session. *)
Theorem reset_leaves_callbacks_pending (s : Session) :
  exists started,
    pending (resetConversation s) = pending s ++ [started] /\
    (forall i cb reply,
        nth_error (pending s) i = Some cb ->
        fire i reply (resetConversation s) =
        runCallback cb reply
          (set_pending (removeNth i (pending s) ++ [started]) (resetConversation s))) /\
    userHasStopped (resetConversation s) = false /\
    isAfter24HourFollowup (resetConversation s) = false /\
    scheduledDateTime (resetConversation s) = None /\
    (messages (resetConversation s) = []
     \/ exists t, messages (resetConversation s)
                  = [mkMessage ADT_INTRO_MESSAGE bot None; mkMessage t bot None]).
Proof.
  unfold resetConversation, andThen.
  set (s0 := clearInputArea
               (set_isAfter24HourFollowup false
                  (set_scheduledDateTime None
                     (set_userHasStopped false
                        (set_currentState initial (set_messages [] s)))))).
  change (pending s) with (pending s0). generalize s0. clear s s0. intros s.
  destruct (startConversation_pending s) as [started Hp].
  exists started. split; [exact Hp|]. split; [|split; [|split; [|split]]].
  - intros i cb reply Hnth. unfold fire. rewrite Hp.
    assert (Hi : i < length (pending s)) by (apply nth_error_Some; congruence).
    rewrite nth_error_app1, Hnth, removeNth_app by exact Hi. reflexivity.
  - apply startConversation_flags.
  - apply startConversation_flags.
  - apply startConversation_scheduledDateTime.
  - apply startConversation_messages.
Qed.

End ResetFacts.

(* ================================================================== *)
(** ** The statements on concrete sessions *)

Lemma Reachable_run (events : list Event) : @Reachable demoHost (@run demoHost events initApp).
Proof. now exists events. Qed.

(** Webform, version A, buttons: declining the call and choosing Do not
    contact ends the conversation. *)
Example decline_then_do_not_contact :
  currentState
    (@run demoHost [Fire 0 Threw; Fire 0 Threw; CallDecline; Fire 0 Threw; SelectOption 4]
       initApp) = ended.
Proof. vm_compute. reflexivity. Qed.

(** Declining, then No twice (with the delayed question and the 24-hour
    pass in between) ends in the next-day follow-up with the flag raised. *)
Example decline_then_no_twice :
  let s := @run demoHost
             [Fire 0 Threw; Fire 0 Threw; CallDecline; Fire 0 Threw; SelectOption 2;
              Fire 0 Threw; SelectOption 1; Fire 0 Threw; Fire 0 Threw] initApp in
  currentState s = followup_next_day /\ isAfter24HourFollowup s = true.
Proof. vm_compute. split; reflexivity. Qed.

(** Confirm visit: No, Yes, then a valid time confirms the visit and the
    last message carries the formatted date and time. *)
Example confirm_visit_round_trip :
  let s := @run demoHost
             [Fire 0 Threw; Fire 0 Threw; SelectWorkflow "confirm visit"; Fire 0 Threw;
              SelectOption 1; Fire 0 Threw; SelectOption 0; Fire 0 Threw;
              ConfirmDateTime "2025-01-06" "2" "30" "PM"] initApp in
  currentState s = confirm_visit_confirmed /\
  scheduledDateTime s = Some "2025-01-06T14:30" /\
  option_map text (last (map Some (messages s)) None)
    = Some "Your appointment has been rescheduled for date(2025-01-06T14:30) at time(2025-01-06T14:30). We'll see you then!".
Proof. vm_compute. repeat split; reflexivity. Qed.

Lemma stop_witness :
  inputArea awaitingReply = TextInput /\
  equalsIgnoreCase (trim " Stop ") "STOP" /\
  userHasStopped (@handleTextInput demoHost " Stop " awaitingReply) = true /\
  pending (@handleTextInput demoHost " Stop " awaitingReply) = pending awaitingReply.
Proof.
  assert (H1 : inputArea awaitingReply = TextInput) by (vm_compute; reflexivity).
  assert (H2 : equalsIgnoreCase (trim " Stop ") "STOP") by (vm_compute; reflexivity).
  split; [exact H1 | split; [exact H2 |]].
  rewrite (@stop_opts_out_without_classifying demoHost awaitingReply " Stop " H1 H2).
  autorewrite with fields. split; reflexivity.
Defined.

Lemma opted_out_witness :
  userHasStopped optedOut = true /\
  @noRestart demoHost afterOptOut optedOut = true /\
  userHasStopped (@run demoHost afterOptOut optedOut) = true.
Proof.
  assert (H1 : userHasStopped optedOut = true) by (vm_compute; reflexivity).
  assert (H2 : @noRestart demoHost afterOptOut optedOut = true) by (vm_compute; reflexivity).
  split; [exact H1 | split; [exact H2 |]].
  apply (@opted_out_session_stays_silent demoHost afterOptOut optedOut H1 H2).
Defined.

Lemma confirm_visit_switch_witness :
  @Reachable demoHost awaitingReply /\
  inputArea awaitingReply = TextInput /\
  selectedWorkflow awaitingReply = "webform" /\
  isConfirmVisitIntent (trim "I'd like to confirm my appointment") = true /\
  selectedWorkflow (@handleTextInput demoHost "I'd like to confirm my appointment" awaitingReply)
    = "confirm visit".
Proof.
  assert (H1 : @Reachable demoHost awaitingReply) by apply Reachable_run.
  assert (H2 : inputArea awaitingReply = TextInput) by (vm_compute; reflexivity).
  assert (H3 : selectedWorkflow awaitingReply = "webform") by (vm_compute; reflexivity).
  assert (H4 : isConfirmVisitIntent (trim "I'd like to confirm my appointment") = true)
    by (vm_compute; reflexivity).
  repeat (split; [assumption|]).
  apply (@confirm_visit_intent_switches_workflow demoHost awaitingReply
           "I'd like to confirm my appointment" H1 H2 H3 H4).
Defined.

Lemma dispatch_without_table_row_witness :
  specTableHasRow (selectedWorkflow awaitingClassifier) (currentState awaitingClassifier)
    "Call at a different time" = false /\
  handleOptionSelect "Call at a different time" awaitingClassifier
    = loggedChoice "Call at a different time" awaitingClassifier.
Proof.
  assert (H : specTableHasRow (selectedWorkflow awaitingClassifier)
                (currentState awaitingClassifier) "Call at a different time" = false)
    by (vm_compute; reflexivity).
  split; [exact H|].
  rewrite (proj1 dispatch_without_table_row awaitingClassifier _ H).
  reflexivity.
Defined.

(** C2, as stated, fails. In the confirm-visit workflow, waiting for the
    answer to the prompt, the label Call at a different time has no row,
    yet dispatching it adds a message to the log. And with AI on, in
    asking_better_time, the typed request not to be contacted is classified
    Do not contact, which has no row there, is taken as No and, after the
    24-hour pass, ends in the next-day follow-up. *)
Lemma unmatched_dispatch_appends_a_message :
  ~ (forall (s : Session) (opt : string),
        @Reachable demoHost s ->
        specTableHasRow (selectedWorkflow s) (currentState s) opt = false ->
        currentState (handleOptionSelect opt s) = currentState s /\
        messages (handleOptionSelect opt s) = messages s)
  /\ (currentState askingBetterTime = asking_better_time
      /\ specTableHasRow (selectedWorkflow askingBetterTime) asking_better_time
           (label DoNotContact) = false
      /\ dispatched (Fire 0 Threw)
           (@run demoHost [SubmitText "do not contact me"] askingBetterTime)
         = Some (label DoNotContact)
      /\ currentState (@run demoHost doNotContactTyped askingBetterTime) = followup_next_day
      /\ isAfter24HourFollowup (@run demoHost doNotContactTyped askingBetterTime) = true).
Proof.
  split.
  - intros H.
    destruct (H awaitingClassifier "Call at a different time" (Reachable_run _))
      as [_ E]; [vm_compute; reflexivity|].
    vm_compute in E. discriminate E.
  - vm_compute. repeat split; reflexivity.
Qed.

(** C5, as stated, fails: the follow-up of a declined call, still pending
    when the back button resets the conversation, runs afterwards and adds
    its question to the new log and moves the new session to
    waiting_for_response. *)
Lemma stale_callback_acts_after_reset :
  ~ (forall (s : Session) (i : nat) (reply : FetchOutcome),
        @Reachable demoHost s ->
        i < length (pending s) ->
        messages (@fire demoHost i reply (@resetConversation demoHost s))
          = messages (@resetConversation demoHost s) /\
        currentState (@fire demoHost i reply (@resetConversation demoHost s))
          = currentState (@resetConversation demoHost s)).
Proof.
  intros H.
  destruct (H justDeclined 0 Threw (Reachable_run _)) as [_ E]; [vm_compute; lia|].
  vm_compute in E. discriminate E.
Qed.

(** C9, as stated, fails: answering the follow-up with a request for
    another time opens the picker, so the session is in scheduling_time
    with the flag still raised. *)
Lemma flag_outlives_followup_state :
  ~ (forall s : Session,
        @Reachable demoHost s ->
        isAfter24HourFollowup s = true ->
        currentState s = followup_next_day).
Proof.
  intros H.
  specialize (H (@run demoHost followupThenReschedule initApp) (Reachable_run _)).
  assert (E : currentState (@run demoHost followupThenReschedule initApp) = followup_next_day)
    by (apply H; vm_compute; reflexivity).
  vm_compute in E. discriminate E.
Qed.

(* ================================================================== *)
(** * Further properties of the code *)

(** ** More on strings *)

Lemma existsb_eqb_In (x : string) (l : list string) :
  existsb (String.eqb x) l = true -> In x l.
Proof.
  intros H. apply existsb_exists in H as (y & Hin & E). apply String.eqb_eq in E. now subst.
Qed.

Lemma later_is_a_time_pattern : In (Sub "later") timePatterns.
Proof. do 5 right. left. reflexivity. Qed.

Lemma Contains_trans (t p q : string) : Contains t p -> Contains p q -> Contains t q.
Proof.
  intros (a & b & ->) (c & d & ->). exists (a ++ c)%string, (d ++ b)%string.
  now rewrite !append_assoc.
Qed.

Lemma trimStart_suffix (s : string) : exists ws, s = (ws ++ trimStart s)%string.
Proof.
  induction s as [|c s [ws IH]]; simpl; [now exists EmptyString|].
  destruct (isWhiteSpace c); [|now exists EmptyString].
  exists (String c ws). simpl. now rewrite <- IH.
Qed.

Lemma trimEnd_prefix (s : string) : exists ws, s = (trimEnd s ++ ws)%string.
Proof.
  induction s as [|c s [ws IH]]; simpl; [now exists EmptyString|].
  destruct (trimEnd s) eqn:E.
  - simpl in IH. subst ws.
    destruct (isWhiteSpace c); [now exists (String c s)|].
    exists s. reflexivity.
  - exists ws. simpl in *. congruence.
Qed.

Lemma Contains_trim (t : string) : Contains t (trim t).
Proof.
  unfold trim. destruct (trimStart_suffix t) as [a Ha].
  destruct (trimEnd_prefix (trimStart t)) as [b Hb].
  exists a, b. now rewrite <- Hb.
Qed.

Lemma toLowerCase_app (a b : string) :
  toLowerCase (a ++ b) = (toLowerCase a ++ toLowerCase b)%string.
Proof. induction a; simpl; congruence. Qed.

Lemma lowerChar_idem (c : ascii) : lowerChar (lowerChar c) = lowerChar c.
Proof. destruct c as [[] [] [] [] [] [] [] []]; reflexivity. Qed.

Lemma toLowerCase_idem (s : string) : toLowerCase (toLowerCase s) = toLowerCase s.
Proof. induction s; simpl; [reflexivity|]. now rewrite lowerChar_idem, IHs. Qed.

(** A pattern list all of whose entries begin and end with a character
    that is not white space. *)
Lemma patterns_solid (l : list string) (p : string) :
  forallb (fun p => startsNonWhite p && endsNonWhite p) l = true ->
  In p l -> startsNonWhite p = true /\ endsNonWhite p = true.
Proof.
  intros H Hin. rewrite forallb_forall in H. apply andb_true_iff. now apply H.
Qed.

(** X5. [isConfirmVisitIntent] looks for its phrases without regard to
    letter case or to white space around the text. *)
Theorem confirm_visit_intent_iff (userText : string) :
  isConfirmVisitIntent userText = true <->
  exists p, In p confirmVisitPatterns /\ Contains (toLowerCase userText) p.
Proof.
  unfold isConfirmVisitIntent. rewrite existsb_includes. split.
  - intros (p & Hin & Hc). exists p. split; [exact Hin|].
    eapply Contains_trans; [apply Contains_trim | exact Hc].
  - intros (p & Hin & Hc). exists p. split; [exact Hin|].
    destruct (patterns_solid confirmVisitPatterns p) as [H1 H2]; [reflexivity | exact Hin |].
    now apply trim_Contains.
Qed.

(** Every entry of the No group contains one of five of them, or the time
    pattern [later]. *)
Lemma noPatterns_covered (text : string) :
  (exists p, In p noPatterns /\ Contains text p) ->
  Contains text "later" \/
  (Contains text "no" \/ Contains text "can't" \/ Contains text "busy"
   \/ Contains text "decline" \/ Contains text "pass").
Proof.
  intros (p & Hin & Hc).
  assert (Hcov : forallb (fun p => includes p "later" || includes p "no" || includes p "can't"
                                   || includes p "busy" || includes p "decline"
                                   || includes p "pass")
                   noPatterns = true) by reflexivity.
  rewrite forallb_forall in Hcov. specialize (Hcov p Hin).
  repeat rewrite orb_true_iff in Hcov. rewrite !includes_spec in Hcov.
  destruct Hcov as [[[[[H|H]|H]|H]|H]|H]; eauto 7 using Contains_trans.
Qed.

Lemma noPatterns_five (text : string) :
  (Contains text "no" \/ Contains text "can't" \/ Contains text "busy"
   \/ Contains text "decline" \/ Contains text "pass") ->
  exists p, In p noPatterns /\ Contains text p.
Proof.
  intros H.
  destruct H as [H|[H|[H|[H|H]]]];
    [exists "no" | exists "can't" | exists "busy" | exists "decline" | exists "pass"];
    (split; [apply existsb_eqb_In; reflexivity | exact H]).
Qed.

(** X1. The rule-based categorizer answers No exactly when no pattern of
    the three groups before it occurs and the text contains one of [no],
    [can't], [busy], [decline], [pass]; the nine other entries of the No
    group never decide. *)
Theorem no_is_decided_by_five_patterns (userText : string) :
  let text := trim (toLowerCase userText) in
  categorizeUserResponsePatternMatching userText = No <->
  ~ (exists p, In p dncPatterns /\ Contains text p) /\
  ~ (exists pat, In pat timePatterns /\ Matches text pat) /\
  ~ (exists p, In p yesPatterns /\ Contains text p) /\
  (Contains text "no" \/ Contains text "can't" \/ Contains text "busy"
   \/ Contains text "decline" \/ Contains text "pass").
Proof.
  intros text.
  pose proof (noPatterns_covered text) as Hcov.
  pose proof (noPatterns_five text) as Hfive.
  assert (Hlater : Contains text "later" -> exists pat, In pat timePatterns /\ Matches text pat)
    by (intros H; exists (Sub "later"); split; [exact later_is_a_time_pattern | exact H]).
  revert Hcov Hfive Hlater.
  unfold categorizeUserResponsePatternMatching. fold text.
  rewrite <- (existsb_includes text dncPatterns), <- (existsb_matches text timePatterns),
    <- (existsb_includes text yesPatterns), <- (existsb_includes text noPatterns).
  intros Hcov Hfive Hlater.
  destruct (existsb (includes text) dncPatterns);
    destruct (existsb (matchesPattern text) timePatterns);
    destruct (existsb (includes text) yesPatterns);
    destruct (existsb (includes text) noPatterns);
    split; try discriminate;
    try (intros (A & B & C & D); first [congruence | apply Hfive in D; discriminate]).
  intros _. repeat split; try congruence.
  destruct Hcov as [H|H]; [reflexivity | apply Hlater in H; discriminate | exact H].
Qed.

(** X2. Two declining phrases the categorizer reads otherwise: with
    [not interested] in it a text is never No (the Yes pattern [interested]
    comes first), with [maybe later] in it a text is a request for another
    time unless a DoNotContact pattern occurs. *)
Theorem declining_phrases_read_otherwise (userText : string) :
  let text := trim (toLowerCase userText) in
  let r := categorizeUserResponsePatternMatching userText in
  (Contains text "not interested" ->
   r = DoNotContact \/ r = CallAtDifferentTime \/ r = Yes) /\
  (Contains text "maybe later" -> r = DoNotContact \/ r = CallAtDifferentTime).
Proof.
  intros text r.
  destruct (pattern_matching_cascade userText) as (H1 & H2 & H3 & _).
  fold text r in H1, H2, H3.
  assert (Hd : existsb (includes text) dncPatterns = true
               <-> exists p, In p dncPatterns /\ Contains text p) by apply existsb_includes.
  assert (Ht : existsb (matchesPattern text) timePatterns = true
               <-> exists pat, In pat timePatterns /\ Matches text pat) by apply existsb_matches.
  split; intros Hc.
  - destruct (existsb (includes text) dncPatterns) eqn:D;
      [left; apply H1, Hd; reflexivity|].
    destruct (existsb (matchesPattern text) timePatterns) eqn:T.
    + right; left. apply H2; [intros X; apply Hd in X; discriminate | apply Ht; reflexivity].
    + right; right. apply H3.
      * intros X; apply Hd in X; discriminate.
      * intros X; apply Ht in X; discriminate.
      * exists "interested". split; [apply existsb_eqb_In; reflexivity|].
        eapply Contains_trans; [exact Hc|]. apply includes_spec. reflexivity.
  - destruct (existsb (includes text) dncPatterns) eqn:D;
      [left; apply H1, Hd; reflexivity|].
    right. apply H2; [intros X; apply Hd in X; discriminate|].
    exists (Sub "later"). split; [exact later_is_a_time_pattern|].
    eapply Contains_trans; [exact Hc|]. apply includes_spec. reflexivity.
Qed.

(** ** The hour-with-am/pm expression *)

Lemma Suffix_refl (s : string) : Suffix s s.
Proof. now exists EmptyString. Qed.

Lemma Suffix_trans (a b c : string) : Suffix a b -> Suffix b c -> Suffix a c.
Proof. intros [p ->] [q ->]. exists (q ++ p)%string. now rewrite append_assoc. Qed.

Lemma Suffix_tail (c : ascii) (s : string) : Suffix s (String c s).
Proof. now exists (String c EmptyString). Qed.

Lemma mchar_suffix (p : ascii -> bool) (s r : string) : In r (mchar p s) -> Suffix r s.
Proof.
  destruct s as [|c s]; simpl; [tauto|]. destruct (p c); simpl; [|tauto].
  intros [<-|[]]. apply Suffix_tail.
Qed.

Lemma mdigits_1_2_suffix (s r : string) : In r (mdigits_1_2 s) -> Suffix r s.
Proof.
  unfold mdigits_1_2, malt, mseq. rewrite in_app_iff, in_flat_map.
  intros [(x & Hx & Hr)|Hr].
  - eapply Suffix_trans; eapply mchar_suffix; eassumption.
  - eapply mchar_suffix; eassumption.
Qed.

Lemma mspaces_suffix (s r : string) : In r (mspaces s) -> Suffix r s.
Proof.
  induction s as [|c s IH]; simpl.
  - intros [<-|[]]. apply Suffix_refl.
  - destruct (isWhiteSpace c).
    + rewrite in_app_iff. simpl. intros [H|[<-|[]]]; [|apply Suffix_refl].
      eapply Suffix_trans; [apply IH, H | apply Suffix_tail].
    + intros [<-|[]]. apply Suffix_refl.
Qed.

Lemma mliteral_i_Contains (lit s : string) :
  mliteral_i lit s <> [] -> Contains (toLowerCase s) (toLowerCase lit).
Proof.
  unfold mliteral_i. destruct (startsWith _ _) eqn:E; [|congruence]. intros _.
  apply startsWith_spec in E as [post E]. exists EmptyString, post. exact E.
Qed.

Lemma Suffix_Contains (r s p : string) :
  Suffix r s -> Contains (toLowerCase r) p -> Contains (toLowerCase s) p.
Proof.
  intros [pre ->] (a & b & E). rewrite toLowerCase_app, E.
  exists (toLowerCase pre ++ a)%string, b. now rewrite append_assoc.
Qed.

Lemma nonempty_In {A} (l : list A) : l <> [] -> exists x, In x l.
Proof. destruct l as [|x l]; [congruence|]. intros _. exists x. now left. Qed.

Lemma re_hour_ampm_Contains (s : string) :
  re_hour_ampm s <> [] ->
  Contains (toLowerCase s) "am" \/ Contains (toLowerCase s) "pm".
Proof.
  intros H. apply nonempty_In in H as [x Hx].
  unfold re_hour_ampm, mseq in Hx.
  apply in_flat_map in Hx as (r1 & H1 & Hx). apply in_flat_map in Hx as (r2 & H2 & Hx).
  apply mdigits_1_2_suffix in H1. apply mspaces_suffix in H2.
  pose proof (Suffix_trans _ _ _ H2 H1) as Hs.
  unfold malt in Hx. apply in_app_iff in Hx as [Hx|Hx].
  - left. apply (Suffix_Contains r2 s); [exact Hs|].
    apply (mliteral_i_Contains "am"). intros E. rewrite E in Hx. destruct Hx.
  - right. apply (Suffix_Contains r2 s); [exact Hs|].
    apply (mliteral_i_Contains "pm"). intros E. rewrite E in Hx. destruct Hx.
Qed.

(** X3. The entry [/\d{1,2}\s*(am|pm)/i] of the time patterns never
    decides: on the lower-cased text the categorizer works on, wherever it
    matches, the plain pattern [am] or [pm] before it in the list matches
    too. *)
Theorem hour_ampm_pattern_is_shadowed (userText : string) :
  let text := trim (toLowerCase userText) in
  matchesPattern text (Re re_hour_ampm) = true ->
  matchesPattern text (Sub "am") = true \/ matchesPattern text (Sub "pm") = true.
Proof.
  intros text H. apply matchesPattern_spec in H. destruct H as (pre & rest & E & H).
  rewrite !matchesPattern_spec. cbn [Matches].
  assert (Hl : toLowerCase text = text)
    by (unfold text; rewrite trim_toLowerCase; apply toLowerCase_idem).
  rewrite <- Hl.
  destruct (re_hour_ampm_Contains rest H) as [C|C]; [left | right];
    (apply (Suffix_Contains rest text); [now exists pre | exact C]).
Qed.

Lemma hour_ampm_pattern_witness :
  matchesPattern (trim (toLowerCase " Call me at 3 PM ")) (Re re_hour_ampm) = true /\
  (matchesPattern (trim (toLowerCase " Call me at 3 PM ")) (Sub "am") = true
   \/ matchesPattern (trim (toLowerCase " Call me at 3 PM ")) (Sub "pm") = true).
Proof.
  assert (H : matchesPattern (trim (toLowerCase " Call me at 3 PM ")) (Re re_hour_ampm) = true)
    by (vm_compute; reflexivity).
  split; [exact H | apply (hour_ampm_pattern_is_shadowed " Call me at 3 PM " H)].
Defined.

(** ** The classifier's answer *)

Lemma find_label_eq (n : string) (c : ResponseCategory) :
  find (fun c => String.eqb (label c) n) validCategories = Some c -> n = label c.
Proof.
  intros H. apply find_some in H as [_ H]. apply String.eqb_eq in H. now subst.
Qed.

(** X6. A label of the category union, in any letter case, with white
    space or one pair of quotes around it, is read back as its category. *)
Theorem parseCategory_reads_labels (content : string) (c : ResponseCategory) :
  equalsIgnoreCase (trim (stripQuotes (trim content))) (label c) ->
  parseCategory (Some content) = Some c.
Proof.
  unfold equalsIgnoreCase, parseCategory. intros H.
  destruct (find _ validCategories) as [c'|] eqn:E.
  - apply find_label_eq in E. rewrite E in H. f_equal.
    destruct c, c'; first [reflexivity | vm_compute in H; discriminate].
  - rewrite H. destruct c; reflexivity.
Qed.

Lemma parseCategory_reads_labels_witness :
  equalsIgnoreCase (trim (stripQuotes (trim " 'do not CONTACT'  "))) (label DoNotContact) /\
  parseCategory (Some " 'do not CONTACT'  ") = Some DoNotContact.
Proof.
  assert (H : equalsIgnoreCase (trim (stripQuotes (trim " 'do not CONTACT'  ")))
                (label DoNotContact)) by (vm_compute; reflexivity).
  split; [exact H | apply (parseCategory_reads_labels _ _ H)].
Defined.

Section AnswerFacts.
Context {host : Host}.

(** X7. An answer of the classifier that is empty, or nothing but white
    space and a quote, or absent, is taken as Yes, whatever the user
    wrote: the empty string is contained in the first key of the table. *)
Theorem blank_classifier_answer_is_yes
    (aiEnabled : bool) (userText : string) (k : FetchOutcome -> ResponseCategory)
    (content : option string) :
  categorizeUserResponse aiEnabled userText = AwaitFetch k ->
  trim (stripQuotes (match content with Some c => trim c | None => "" end)) = "" ->
  k (Content content) = Yes.
Proof.
  unfold categorizeUserResponse. intros Hk Hblank.
  destruct (String.length (trim (toLowerCase userText)) <? 2)%nat; [discriminate|].
  destruct (negb aiEnabled); [discriminate|].
  destruct (usableKey VITE_OPENAI_API_KEY); [|discriminate].
  injection Hk as <-. unfold parseCategory. rewrite Hblank. reflexivity.
Qed.

End AnswerFacts.

Lemma blank_classifier_answer_witness :
  trim (stripQuotes (trim " ' ")) = "" /\
  match @categorizeUserResponse demoHost true "not interested" with
  | AwaitFetch k => k (Content (Some " ' ")) = Yes
  | Done _ => False
  end.
Proof.
  assert (H : trim (stripQuotes (trim " ' ")) = "") by (vm_compute; reflexivity).
  split; [exact H|].
  destruct (@categorizeUserResponse demoHost true "not interested") as [c|k] eqn:E.
  - unfold categorizeUserResponse in E.
    change (String.length (trim (toLowerCase "not interested")) <? 2)%nat with false in E.
    change (usableKey VITE_OPENAI_API_KEY) with true in E.
    discriminate.
  - exact (@blank_classifier_answer_is_yes demoHost true "not interested" k (Some " ' ") E H).
Defined.

(** X8. An answer that is no key of the synonym table in lower case but
    has [no] in it is settled by one of the first three entries of the
    table: it is read as Yes, CallAtDifferentTime or No, never as
    DoNotContact, NoResponse24h or UnknownMessage. *)
Theorem answer_with_no_in_it (content : string) :
  let lowerCategory := toLowerCase (trim (stripQuotes (trim content))) in
  lookupCategory lowerCategory = None ->
  Contains lowerCategory "no" ->
  parseCategory (Some content) = Some Yes
  \/ parseCategory (Some content) = Some CallAtDifferentTime
  \/ parseCategory (Some content) = Some No.
Proof.
  intros lowerCategory Hkey Hno. unfold parseCategory.
  destruct (find _ validCategories) as [c|] eqn:E.
  - exfalso. apply find_label_eq in E. unfold lowerCategory in Hkey. rewrite E in Hkey.
    destruct c; vm_compute in Hkey; discriminate.
  - fold lowerCategory. rewrite Hkey. apply includes_spec in Hno.
    unfold categoryMap. cbn [find fst snd option_map].
    destruct (includes lowerCategory "yes" || includes "yes" lowerCategory);
      [left; reflexivity|].
    destruct (includes lowerCategory "call at a different time"
              || includes "call at a different time" lowerCategory);
      [right; left; reflexivity|].
    rewrite Hno. right; right. reflexivity.
Qed.

Lemma answer_with_no_in_it_witness :
  lookupCategory (toLowerCase (trim (stripQuotes (trim "Do not contact.")))) = None /\
  Contains (toLowerCase (trim (stripQuotes (trim "Do not contact.")))) "no" /\
  parseCategory (Some "Do not contact.") = Some No.
Proof.
  assert (H1 : lookupCategory (toLowerCase (trim (stripQuotes (trim "Do not contact."))))
               = None) by (vm_compute; reflexivity).
  assert (H2 : Contains (toLowerCase (trim (stripQuotes (trim "Do not contact.")))) "no")
    by (apply includes_spec; vm_compute; reflexivity).
  split; [exact H1 | split; [exact H2|]].
  destruct (answer_with_no_in_it "Do not contact." H1 H2) as [H|[H|H]];
    [vm_compute in H; discriminate | vm_compute in H; discriminate | exact H].
Defined.

(* ================================================================== *)
(** ** The picker *)

(** Quantification over a bounded range of integers, by enumeration. *)
Lemma forall_below (n : Z) (f : Z -> bool) :
  forallb f (map Z.of_nat (seq 0 (Z.to_nat n))) = true ->
  forall z, (0 <= z < n)%Z -> f z = true.
Proof.
  intros H z Hz. rewrite forallb_forall in H. apply H.
  apply in_map_iff. exists (Z.to_nat z). split; [lia|].
  apply in_seq. lia.
Qed.

Lemma In_nonempty (x : string) (l : list string) :
  forallb (fun y => negb (String.eqb y "")) l = true -> In x l -> x <> "".
Proof.
  intros H Hin. rewrite forallb_forall in H. specialize (H x Hin).
  apply negb_true_iff in H. now apply String.eqb_neq.
Qed.

Lemma handleHourChange_nonempty (h : string) : handleHourChange h <> "".
Proof.
  unfold handleHourChange.
  destruct (num_ge (parseInt h) 9 && num_le (parseInt h) 11); discriminate.
Qed.

(** X9. Whatever the picker can express: with a date chosen, an hour and a
    minute among the options and the AM/PM value that [handleHourChange]
    derives from the hour, the selection is accepted exactly when the hour
    is not 5. *)
Theorem picker_hour_five_never_confirms (d h m : string) :
  d <> "" -> In h hourOptions -> In m minuteOptions ->
  ((exists dt, validateDateTime d h m (handleHourChange h) = Accepted dt) <-> h <> "5").
Proof.
  intros Hd Hh Hm.
  assert (Hm' : m <> "") by (revert Hm; apply In_nonempty; reflexivity).
  assert (Hh' : h <> "") by (revert Hh; apply In_nonempty; reflexivity).
  pose proof (handleHourChange_nonempty h) as Ha.
  assert (Hcases : exists h24, to24 (parseInt h) (handleHourChange h) = Some h24
                               /\ ((9 <= h24 < 17)%Z <-> h <> "5")).
  { simpl in Hh.
    repeat (destruct Hh as [<- | Hh];
            [eexists; split; [vm_compute; reflexivity | split; [discriminate | lia]] |]);
      try contradiction.
    destruct Hh as [<- | []]. eexists. split; [vm_compute; reflexivity|].
    split; [lia | intros H; now elim H]. }
  destruct Hcases as (h24 & E & Hiff).
  rewrite (validateDateTime_accepts_iff d h m _ h24 Hd Hh' Hm' Ha E). exact Hiff.
Qed.

(** X10. Opening the picker at any time of day pre-selects values that are
    among the selects' options, with the AM/PM value its hour implies; the
    pre-selected time is accepted by the check unless the clock is between
    16:56 and 23:55, when the picker opens on 5:00 PM, which is rejected. *)
Theorem picker_defaults (d : string) (hours minutes : Z) :
  d <> "" -> (0 <= hours < 24)%Z -> (0 <= minutes < 60)%Z ->
  let '(hp, mp, ap) := openDateTimeModalAndSetup hours minutes in
  In hp hourOptions /\ In mp minuteOptions /\ ap = handleHourChange hp /\
  ((exists dt, validateDateTime d hp mp ap = Accepted dt)
   <-> ~ (16 * 60 + 56 <= 60 * hours + minutes <= 23 * 60 + 55)%Z).
Proof.
  intros Hd Hh Hm.
  pose (ok := fun hours minutes : Z =>
    let '(hp, mp, ap) := openDateTimeModalAndSetup hours minutes in
    existsb (String.eqb hp) hourOptions
    && existsb (String.eqb mp) minuteOptions
    && String.eqb ap (handleHourChange hp)
    && match to24 (parseInt hp) ap with
       | Some h24 =>
           Bool.eqb ((9 <=? h24)%Z && (h24 <? 17)%Z)
             (negb ((1016 <=? 60 * hours + minutes)%Z && (60 * hours + minutes <=? 1435)%Z))
       | None => false
       end).
  assert (H : ok hours minutes = true).
  { revert minutes Hm. apply (forall_below 60 (fun m => ok hours m)).
    revert hours Hh.
    apply (forall_below 24
             (fun h => forallb (fun m => ok h m) (map Z.of_nat (seq 0 (Z.to_nat 60))))).
    vm_compute. reflexivity. }
  unfold ok in H. clear ok.
  destruct (openDateTimeModalAndSetup hours minutes) as [[hp mp] ap].
  apply andb_true_iff in H as [H H4]. apply andb_true_iff in H as [H H3].
  apply andb_true_iff in H as [H1 H2].
  apply existsb_eqb_In in H1, H2. apply String.eqb_eq in H3.
  split; [exact H1 | split; [exact H2 | split; [exact H3 |]]].
  destruct (to24 (parseInt hp) ap) as [h24|] eqn:E; [|discriminate].
  assert (Hhp : hp <> "") by (revert H1; apply In_nonempty; reflexivity).
  assert (Hmp : mp <> "") by (revert H2; apply In_nonempty; reflexivity).
  assert (Hap : ap <> "") by (rewrite H3; apply handleHourChange_nonempty).
  rewrite (validateDateTime_accepts_iff d hp mp ap h24 Hd Hhp Hmp Hap E).
  apply Bool.eqb_prop in H4.
  destruct (9 <=? h24)%Z eqn:A; destruct (h24 <? 17)%Z eqn:B;
    destruct (1016 <=? 60 * hours + minutes)%Z eqn:C;
    destruct (60 * hours + minutes <=? 1435)%Z eqn:D; simpl in H4; try discriminate; lia.
Qed.

(** X11. The 12-hour value and AM/PM the picker is opened with convert
    back, in [handleDateTimeConfirm], to the 24-hour value they came
    from. *)
Theorem to24_displayHourAmPm (h : Z) :
  (0 <= h < 24)%Z ->
  to24 (parseInt (numberToString (Some (fst (displayHourAmPm h))))) (snd (displayHourAmPm h))
  = Some h.
Proof.
  intros Hh.
  pose (f := fun h => match to24 (parseInt (numberToString (Some (fst (displayHourAmPm h)))))
                              (snd (displayHourAmPm h)) with
                      | Some x => (x =? h)%Z
                      | None => false
                      end).
  assert (H : f h = true) by (apply (forall_below 24); [vm_compute; reflexivity | exact Hh]).
  unfold f in H. destruct (to24 _ _); [|discriminate]. apply Z.eqb_eq in H. now subst.
Qed.

Lemma picker_hour_five_witness :
  "2025-01-06" <> "" /\ In "4" hourOptions /\ In "55" minuteOptions /\
  ((exists dt, validateDateTime "2025-01-06" "4" "55" (handleHourChange "4") = Accepted dt)
   <-> "4" <> "5").
Proof.
  assert (H1 : "2025-01-06" <> "") by discriminate.
  assert (H2 : In "4" hourOptions) by (apply existsb_eqb_In; vm_compute; reflexivity).
  assert (H3 : In "55" minuteOptions) by (apply existsb_eqb_In; vm_compute; reflexivity).
  repeat (split; [assumption|]).
  apply (picker_hour_five_never_confirms "2025-01-06" "4" "55" H1 H2 H3).
Defined.

(** At half past five in the afternoon the picker opens on 5:00 PM, which
    the check rejects. *)
Lemma picker_defaults_witness :
  "2025-01-06" <> "" /\ (0 <= 17 < 24)%Z /\ (0 <= 30 < 60)%Z /\
  openDateTimeModalAndSetup 17 30 = ("5", "00", "PM") /\
  ~ (exists dt, validateDateTime "2025-01-06" "5" "00" "PM" = Accepted dt).
Proof.
  assert (H1 : "2025-01-06" <> "") by discriminate.
  assert (H2 : (0 <= 17 < 24)%Z) by lia.
  assert (H3 : (0 <= 30 < 60)%Z) by lia.
  repeat (split; [assumption|]). split; [vm_compute; reflexivity|].
  pose proof (picker_defaults "2025-01-06" 17 30 H1 H2 H3) as H.
  change (openDateTimeModalAndSetup 17 30) with ("5", "00", "PM") in H.
  destruct H as (_ & _ & _ & H). intros Hacc. apply H in Hacc. lia.
Defined.

Lemma to24_displayHourAmPm_witness :
  (0 <= 15 < 24)%Z /\
  to24 (parseInt (numberToString (Some (fst (displayHourAmPm 15))))) (snd (displayHourAmPm 15))
  = Some 15%Z.
Proof. split; [lia | apply (to24_displayHourAmPm 15); lia]. Defined.

(* ================================================================== *)
(** ** Invariants of the engine

    A property of the session that every assignment and every call of
    [addMessage] and [renderOptions] made by the handlers keeps is kept by
    every event. *)

Section StepInvariant.
Context {host : Host}.
Variable P : Session -> Prop.

Hypothesis P_currentState : forall v, Keeps P (set_currentState v).
Hypothesis P_flag : forall v, Keeps P (set_isAfter24HourFollowup v).
Hypothesis P_pending : forall v, Keeps P (set_pending v).
Hypothesis P_workflow : forall v, Keeps P (set_selectedWorkflow v).
Hypothesis P_version : forall v, Keeps P (set_selectedVersion v).
Hypothesis P_scheduled :
  forall d h m a date,
    validateDateTime d h m a = Accepted date -> Keeps P (set_scheduledDateTime (Some date)).
Hypothesis P_addMessage : forall who t o, Keeps P (addMessage who t o).
Hypothesis P_renderOptions : forall opts, Keeps P (renderOptions opts).
Hypothesis P_stop :
  forall s, inputArea s = TextInput -> P s -> P (set_userHasStopped true s).

Lemma Keeps_skip : Keeps P skip.
Proof. intros s H. exact H. Qed.

Lemma Keeps_seq (a b : Action) : Keeps P a -> Keeps P b -> Keeps P (a ;; b).
Proof. intros Ha Hb s H. unfold andThen. now apply Hb, Ha. Qed.

Lemma Keeps_setTimeout cb : Keeps P (setTimeout cb).
Proof. intros s H. unfold setTimeout. now apply P_pending. Qed.

Create HintDb keeps.
Local Hint Resolve Keeps_skip Keeps_seq Keeps_setTimeout P_currentState P_flag P_pending
  P_workflow P_version P_addMessage P_renderOptions : keeps.

Ltac keeps_branch :=
  match goal with
  | H : P ?s |- P ?s => exact H
  | H : P ?s |- P (?f ?s) => revert H; generalize s; change (Keeps P f); auto 20 with keeps
  end.

Ltac keeps_handler :=
  let s := fresh "s" in
  let Hs := fresh "Hs" in
  intros s Hs; split_tests; keeps_branch.

Lemma Keeps_handleOptionSelect opt : Keeps P (handleOptionSelect opt).
Proof.
  unfold handleOptionSelect. apply Keeps_seq; [auto with keeps|].
  unfold handleConfirmVisitResponse, handleResponseToCallQuestion, handleBetterTimeResponse,
    handleAfterCancelResponse, showTimePassingAnimation, showDateTimePicker.
  keeps_handler.
Qed.

Lemma Keeps_handleDateTimeConfirm d h m a : Keeps P (handleDateTimeConfirm d h m a).
Proof.
  unfold handleDateTimeConfirm. intros s Hs.
  destruct (validateDateTime d h m a) as [|date] eqn:E; [exact Hs|]. cbv beta iota zeta.
  apply (P_scheduled _ _ _ _ _ E) in Hs.
  revert Hs. generalize (set_scheduledDateTime (Some date) s). keeps_handler.
Qed.

Lemma Keeps_handleTextInput value : Keeps P (handleTextInput value).
Proof.
  unfold handleTextInput. intros s Hs.
  destruct (inputArea s) eqn:Hin; try exact Hs.
  destruct (String.eqb (trim value) ""); [exact Hs|].
  destruct (String.eqb (toUpperCase (trim value)) "STOP").
  { unfold andThen. apply P_addMessage, P_stop; assumption. }
  destruct (String.eqb (selectedWorkflow s) "webform" && isConfirmVisitIntent (trim value)).
  { unfold switchToConfirmVisitWorkflow. keeps_branch. }
  cbv zeta. apply (P_addMessage user (trim value) None) in Hs.
  revert Hs. generalize (addMessage user (trim value) None s). intros s' Hs'.
  destruct (categorizeUserResponse (aiEnabled s') (trim value)); now apply Keeps_setTimeout.
Qed.

Lemma Keeps_runCallback cb reply :
  cb <> CbStartConversation -> Keeps P (runCallback cb reply).
Proof.
  intros Hcb. destruct cb; cbn [runCallback]; try contradiction;
    unfold showCallingNotification, showDateTimePicker,
      showConfirmVisitRescheduleDateTimePicker, timePassed, confirmVisitPrompt,
      rescheduleQuestion;
    auto using Keeps_handleOptionSelect with keeps.
  - unfold callDeclinedFollowup. keeps_handler.
  - unfold followupNextDay. keeps_handler.
Qed.

Lemma Keeps_step_plain (e : Event) (s : Session) :
  restarts e s = false -> plainEvent e = true -> P s -> P (step e s).
Proof.
  intros Hr He Hs. destruct e; cbn [step restarts plainEvent] in *; try discriminate.
  - unfold clickOption. destruct (inputArea s); try exact Hs.
    destruct (nth_error opts i); [now apply Keeps_handleOptionSelect | exact Hs].
  - now apply P_currentState.
  - unfold handleCallDecline. keeps_branch.
  - unfold handleEndCall. now apply P_addMessage.
  - now apply Keeps_handleDateTimeConfirm.
  - revert Hs. generalize s. unfold handleDateTimeCancel. keeps_handler.
  - unfold fire. destruct (nth_error (pending s) i) as [cb|] eqn:E; [|exact Hs].
    apply Keeps_runCallback; [intros ->; discriminate | now apply P_pending].
Qed.

(** An event that does not start the conversation over keeps [P]. *)
Lemma Keeps_step_noRestart (e : Event) (s : Session) :
  restarts e s = false -> P s -> P (step e s).
Proof.
  intros Hr Hs. destruct (plainEvent e) eqn:He; [now apply Keeps_step_plain|].
  destruct e; try discriminate; cbn [step restarts] in *.
  - now apply Keeps_handleTextInput.
  - unfold handleVersionSelect. apply negb_false_iff in Hr. rewrite Hr. cbn [negb].
    apply (P_version version) in Hs. revert Hs.
    generalize (set_selectedVersion version s). intros s' Hs'.
    destruct (last (map Some (messages s')) None) as [[t [] [o|]]|]; try exact Hs'.
    now apply P_renderOptions.
Qed.

Lemma Keeps_run_noRestart (events : list Event) (s : Session) :
  noRestart events s = true -> P s -> P (run events s).
Proof.
  revert s. induction events as [|e rest IH]; intros s Hq Hs; [exact Hs|].
  cbn [noRestart run] in *. apply andb_true_iff in Hq as [Hr Hq].
  apply negb_true_iff in Hr. apply IH; [exact Hq | now apply Keeps_step_noRestart].
Qed.

(** Starting over: the log is emptied, the opt-out flag and the scheduled
    time are cleared; a reset also empties the input area, and the AI
    toggle flips the flag before it resets. *)
Hypothesis P_clearLog : Keeps P (set_messages []).
Hypothesis P_unstop : Keeps P (set_userHasStopped false).
Hypothesis P_unschedule : Keeps P (set_scheduledDateTime None).
Hypothesis P_clearInput : Keeps P clearInputArea.
Hypothesis P_toggle :
  forall s, P s ->
            P (clearInputArea (set_userHasStopped false (set_aiEnabled (negb (aiEnabled s)) s))).

Local Hint Resolve P_clearLog P_unstop P_unschedule P_clearInput : keeps.

Lemma Keeps_startConversation : Keeps P startConversation.
Proof.
  unfold startConversation, startProductQuestionConversation, startConfirmVisitConversation.
  do 5 (apply Keeps_seq; [auto with keeps|]).
  keeps_handler.
Qed.

Lemma Keeps_resetConversation : Keeps P resetConversation.
Proof.
  unfold resetConversation. auto 20 using Keeps_startConversation with keeps.
Qed.

Lemma Keeps_handleWorkflowSelect workflow : Keeps P (handleWorkflowSelect workflow).
Proof.
  intros s Hs. unfold handleWorkflowSelect, andThen.
  now apply Keeps_resetConversation, P_version, P_workflow.
Qed.

Lemma Keeps_handleAIToggle_with :
  (forall v, Keeps P (set_aiEnabled v)) -> Keeps P handleAIToggle.
Proof.
  intros H s Hs. unfold handleAIToggle, andThen. now apply Keeps_resetConversation, H.
Qed.

Lemma handleAIToggle_reorders (s : Session) :
  handleAIToggle s =
  resetConversation
    (clearInputArea (set_userHasStopped false (set_aiEnabled (negb (aiEnabled s)) s))).
Proof. destruct s. reflexivity. Qed.

Lemma Keeps_step (e : Event) : Keeps P (step e).
Proof.
  intros s Hs. destruct (restarts e s) eqn:Hr; [|now apply Keeps_step_noRestart].
  destruct e; cbn [step restarts] in *; try discriminate.
  - now apply Keeps_handleWorkflowSelect.
  - unfold handleVersionSelect. rewrite Hr.
    now apply Keeps_resetConversation, P_version.
  - rewrite handleAIToggle_reorders. now apply Keeps_resetConversation, P_toggle.
  - now apply Keeps_resetConversation.
  - unfold fire. destruct (nth_error (pending s) i) as [[]|]; try discriminate.
    cbn [runCallback]. now apply Keeps_startConversation, P_pending.
Qed.

Lemma Keeps_run (events : list Event) : Keeps P (run events).
Proof.
  induction events as [|e rest IH]; intros s Hs; [exact Hs|].
  cbn [run]. now apply IH, Keeps_step.
Qed.

Lemma Keeps_Reachable (s : Session) : P initApp -> Reachable s -> P s.
Proof. intros H0 [events ->]. now apply Keeps_run. Qed.

End StepInvariant.

(** What [addMessage] does to the log: it appends, and what it appends to
    an empty log begins with the disclosure unless the user wrote it. *)
Lemma addMessage_log who t o (s : Session) :
  exists added,
    messages (addMessage who t o s) = messages s ++ added
    /\ (messages s = [] -> disclosureFirst added).
Proof.
  destruct who.
  - destruct (userHasStopped s) eqn:E.
    + rewrite addMessage_muted by exact E. exists []. now rewrite app_nil_r.
    + rewrite addMessage_bot by exact E. cbn [messages set_inputArea set_messages].
      eexists. split; [reflexivity|]. intros ->. cbn. reflexivity.
  - rewrite addMessage_user. cbn [messages set_inputArea set_messages].
    eexists. split; [reflexivity|]. intros _. cbn. discriminate.
Qed.

(** What [addMessage] does to the input area. *)
Lemma addMessage_inputArea who t o (s : Session) :
  inputArea (addMessage who t o s) = inputArea s
  \/ inputArea (addMessage who t o s) = NoInput
  \/ (aiEnabled s = true /\ inputArea (addMessage who t o s) = TextInput)
  \/ (aiEnabled s = false /\ exists opts, inputArea (addMessage who t o s) = OptionButtons opts).
Proof.
  destruct who.
  - destruct (userHasStopped s) eqn:E.
    + left. now rewrite addMessage_muted.
    + rewrite addMessage_bot by exact E. cbn [inputArea set_inputArea].
      destruct o as [opts|]; [|now right; left].
      destruct (aiEnabled s); [now right; right; left | right; right; right].
      split; [reflexivity | now exists opts].
  - right; left. now rewrite addMessage_user.
Qed.

Lemma disclosureFirst_app (l added : list Message) :
  disclosureFirst l -> (l = [] -> disclosureFirst added) -> disclosureFirst (l ++ added).
Proof. destruct l as [|m l]; cbn; [intros _ H; now apply H | tauto]. Qed.

(** Discharges the side conditions of the invariant lemmas for an
    observation that the assignments in question leave alone. *)
Ltac kept_field lem :=
  first [ assumption | reflexivity
        | intros;
          let s := fresh "s" in let H := fresh "H" in
          intros s H; first [exact H | rewrite lem; exact H] ].

Ltac same_field := let s := fresh "s" in let H := fresh "H" in intros s H; exact H.

Section EngineInvariants.
Context {host : Host}.

Lemma Reachable_disclosureFirst (s : Session) :
  Reachable s -> disclosureFirst (messages s).
Proof.
  apply (Keeps_Reachable (fun s => disclosureFirst (messages s))).
  - intros v; same_field.
  - intros v; same_field.
  - intros v; same_field.
  - intros v; same_field.
  - intros v; same_field.
  - intros d h m a date _; same_field.
  - intros who t o s0 H. destruct (addMessage_log who t o s0) as (added & -> & Ha).
    now apply disclosureFirst_app.
  - intros opts s0 H. unfold renderOptions. destruct (aiEnabled s0); exact H.
  - intros s0 _ H. exact H.
  - intros s0 _. exact I.
  - same_field.
  - same_field.
  - same_field.
  - same_field.
  - exact I.
Qed.

Lemma Reachable_ModesAgree (s : Session) : Reachable s -> ModesAgree s.
Proof.
  apply (Keeps_Reachable ModesAgree).
  - intros v; same_field.
  - intros v; same_field.
  - intros v; same_field.
  - intros v; same_field.
  - intros v; same_field.
  - intros d h m a date _; same_field.
  - intros who t o s0 (H1 & H2 & H3). unfold ModesAgree.
    rewrite aiEnabled_addMessage, userHasStopped_addMessage.
    split; [|split; [|exact H3]].
    + destruct (addMessage_inputArea who t o s0) as [E|[E|[[A E]|[A [opts E]]]]];
        rewrite E; try discriminate; eauto.
    + intros opts.
      destruct (addMessage_inputArea who t o s0) as [E|[E|[[A E]|[A [opts' E]]]]];
        rewrite E; try discriminate; eauto.
  - intros opts s0 (H1 & H2 & H3). unfold renderOptions, ModesAgree.
    destruct (aiEnabled s0) eqn:A; cbn; rewrite A; repeat split; auto; discriminate.
  - intros s0 Hin (H1 & H2 & H3). repeat split; auto.
  - same_field.
  - intros s0 (H1 & H2 & H3). repeat split; auto; discriminate.
  - same_field.
  - intros s0 (H1 & H2 & H3). repeat split; auto; discriminate.
  - intros s0 _. repeat split; discriminate.
  - repeat split; discriminate.
Qed.

Lemma Reachable_ScheduledChecked (s : Session) : Reachable s -> ScheduledChecked s.
Proof.
  apply (Keeps_Reachable ScheduledChecked).
  - intros v; same_field.
  - intros v; same_field.
  - intros v; same_field.
  - intros v; same_field.
  - intros v; same_field.
  - intros d h m a date E s0 _ dt Hdt. cbn in Hdt. injection Hdt as <-. now exists d, h, m, a.
  - intros who t o s0 H dt. rewrite scheduledDateTime_addMessage. apply H.
  - intros opts s0 H. unfold renderOptions. destruct (aiEnabled s0); exact H.
  - intros s0 _ H. exact H.
  - same_field.
  - same_field.
  - intros s0 _ dt Hdt. discriminate.
  - same_field.
  - intros s0 H. exact H.
  - intros dt Hdt. discriminate.
Qed.

(** X12. Under the events of the engine, a log that begins with a bot
    message begins with the disclosure, which carries no options. *)
Theorem disclosure_heads_the_log (s : Session) (m : Message) (rest : list Message) :
  Reachable s -> messages s = m :: rest -> sender m = bot ->
  m = mkMessage ADT_INTRO_MESSAGE bot None.
Proof.
  intros Hr Hm Hb. apply Reachable_disclosureFirst in Hr. rewrite Hm in Hr. now apply Hr.
Qed.

(** X13. The input area follows the AI switch: the text box is on screen
    only with AI on, option buttons only with AI off. *)
Theorem input_mode_follows_ai (s : Session) :
  Reachable s ->
  (inputArea s = TextInput -> aiEnabled s = true) /\
  (forall opts, inputArea s = OptionButtons opts -> aiEnabled s = false).
Proof. intros Hr. destruct (Reachable_ModesAgree s Hr) as (H1 & H2 & _). now split. Qed.

(** X14. Only a session with AI on is ever opted out: with the option
    buttons there is no way to raise the opt-out flag. *)
Theorem opt_out_needs_ai (s : Session) :
  Reachable s -> userHasStopped s = true -> aiEnabled s = true.
Proof. intros Hr. now destruct (Reachable_ModesAgree s Hr) as (_ & _ & H). Qed.

(** X17. A stored date and time went through the check of
    [handleDateTimeConfirm]: it was built from picker values with every
    field filled in, and an hour that parses lies from 9 to 16. *)
Theorem stored_time_passed_the_check (s : Session) (dt : string) :
  Reachable s -> scheduledDateTime s = Some dt ->
  exists d h m a,
    validateDateTime d h m a = Accepted dt /\
    d <> "" /\ h <> "" /\ m <> "" /\ a <> "" /\
    (forall hours24, to24 (parseInt h) a = Some hours24 -> (9 <= hours24 < 17)%Z).
Proof.
  intros Hr Hdt. destruct (Reachable_ScheduledChecked s Hr dt Hdt) as (d & h & m & a & E).
  exists d, h, m, a. split; [exact E|].
  assert (Hne : d <> "" /\ h <> "" /\ m <> "" /\ a <> "").
  { unfold validateDateTime in E.
    destruct (String.eqb d "") eqn:E1; [discriminate|].
    destruct (String.eqb h "") eqn:E2; [discriminate|].
    destruct (String.eqb m "") eqn:E3; [discriminate|].
    destruct (String.eqb a "") eqn:E4; [discriminate|].
    now rewrite !String.eqb_neq in *. }
  destruct Hne as (Hd & Hh & Hm & Ha). repeat (split; [assumption|]).
  intros hours24 H24. apply (validateDateTime_accepts_iff d h m a hours24 Hd Hh Hm Ha H24).
  now exists dt.
Qed.

(** X15. Nothing but the word STOP, typed into the text box, raises the
    opt-out flag: no option label (Do not contact included), timer or
    classifier answer does. *)
Theorem only_stop_opts_out (e : Event) (s : Session) :
  userHasStopped s = false -> userHasStopped (step e s) = true ->
  exists value, e = SubmitText value /\ inputArea s = TextInput
                /\ toUpperCase (trim value) = "STOP".
Proof.
  intros H0 H1.
  destruct (step_shape e s) as [H|[(o & q & _ & E)|[(q & E)|[(v & ->)|[E _]]]]].
  - apply restart_unstops in H as [H _]. congruence.
  - rewrite E, Preserves_stopped_handleOptionSelect in H1. cbn in H1. congruence.
  - rewrite E, Preserves_stopped_followupNextDay in H1. cbn in H1. congruence.
  - exists v. split; [reflexivity|]. cbn [step] in H1. unfold handleTextInput in H1.
    destruct (inputArea s); try congruence. split; [reflexivity|].
    destruct (String.eqb (trim v) ""); [congruence|].
    destruct (String.eqb (toUpperCase (trim v)) "STOP") eqn:Es;
      [now apply String.eqb_eq in Es|].
    exfalso. revert H1.
    destruct (String.eqb (selectedWorkflow s) "webform" && isConfirmVisitIntent (trim v)).
    + unfold switchToConfirmVisitWorkflow, andThen, setTimeout. session_cbn.
      autorewrite with fields. congruence.
    + cbv zeta. destruct (categorizeUserResponse _ _); unfold setTimeout; session_cbn;
        autorewrite with fields; congruence.
  - congruence.
Qed.

Lemma Preserves_ai_handleTextInput value : Preserves aiEnabled (handleTextInput value).
Proof.
  intros s. unfold handleTextInput, switchToConfirmVisitWorkflow, andThen, setTimeout.
  destruct (inputArea s); try reflexivity.
  destruct (String.eqb (trim value) ""); [reflexivity|].
  destruct (String.eqb (toUpperCase (trim value)) "STOP");
    [now autorewrite with fields|].
  destruct (String.eqb (selectedWorkflow s) "webform" && isConfirmVisitIntent (trim value));
    [session_cbn; now autorewrite with fields|].
  cbv zeta. destruct (categorizeUserResponse _ _); session_cbn; now autorewrite with fields.
Qed.

Lemma Preserves_ai_handleVersionSelect version :
  Preserves aiEnabled (handleVersionSelect version).
Proof.
  intros s. unfold handleVersionSelect.
  destruct (negb (String.eqb (selectedVersion s) version)).
  - apply (Keeps_resetConversation (fun s' => aiEnabled s' = aiEnabled s));
      kept_field aiEnabled_addMessage.
  - cbn [messages set_selectedVersion].
    destruct (last (map Some (messages s)) None) as [[t [] [o|]]|]; try reflexivity.
    unfold renderOptions. destruct (aiEnabled (set_selectedVersion version s)); reflexivity.
Qed.

(** X19. The settings change only by their controls: the AI flag by the
    AI switch alone, and the workflow by the workflow selector or, from
    webform to confirm visit, by a typed confirm-visit request; no option,
    timer, classifier answer, call or picker action touches either. *)
Theorem settings_change_only_by_their_controls (e : Event) (s : Session) :
  (aiEnabled (step e s) = aiEnabled s \/ e = ToggleAI) /\
  (selectedWorkflow (step e s) = selectedWorkflow s
   \/ (exists w, e = SelectWorkflow w)
   \/ (exists value, e = SubmitText value /\ inputArea s = TextInput
                     /\ selectedWorkflow s = "webform"
                     /\ isConfirmVisitIntent (trim value) = true
                     /\ selectedWorkflow (step e s) = "confirm visit")).
Proof.
  split.
  - destruct (plainEvent e) eqn:He.
    + destruct (restarts e s) eqn:Hr.
      * destruct e; cbn [step restarts] in *; try discriminate; try (now right); left.
        -- apply (Keeps_handleWorkflowSelect (fun s' => aiEnabled s' = aiEnabled s));
             kept_field aiEnabled_addMessage.
        -- apply (Keeps_resetConversation (fun s' => aiEnabled s' = aiEnabled s));
             kept_field aiEnabled_addMessage.
        -- unfold fire. destruct (nth_error (pending s) i) as [[]|]; try discriminate.
           cbn [runCallback].
           apply (Keeps_startConversation (fun s' => aiEnabled s' = aiEnabled s));
             kept_field aiEnabled_addMessage.
      * left. apply (Keeps_step_plain (fun s' => aiEnabled s' = aiEnabled s));
          kept_field aiEnabled_addMessage.
    + left. destruct e; try discriminate; cbn [step].
      * apply Preserves_ai_handleTextInput.
      * apply Preserves_ai_handleVersionSelect.
  - destruct (plainEvent e) eqn:He.
    + destruct (restarts e s) eqn:Hr.
      * destruct e; cbn [step restarts] in *; try discriminate;
          try (right; left; eexists; reflexivity); left.
        -- apply (Keeps_handleAIToggle_with (fun s' => selectedWorkflow s' = selectedWorkflow s));
             kept_field selectedWorkflow_addMessage.
        -- apply (Keeps_resetConversation (fun s' => selectedWorkflow s' = selectedWorkflow s));
             kept_field selectedWorkflow_addMessage.
        -- unfold fire. destruct (nth_error (pending s) i) as [[]|]; try discriminate.
           cbn [runCallback].
           apply (Keeps_startConversation (fun s' => selectedWorkflow s' = selectedWorkflow s));
             kept_field selectedWorkflow_addMessage.
      * left. apply (Keeps_step_plain (fun s' => selectedWorkflow s' = selectedWorkflow s));
          kept_field selectedWorkflow_addMessage.
    + destruct e; try discriminate; cbn [step].
      * unfold handleTextInput.
        destruct (inputArea s) eqn:Hin; try (left; reflexivity).
        destruct (String.eqb (trim value) ""); [left; reflexivity|].
        destruct (String.eqb (toUpperCase (trim value)) "STOP").
        { unfold andThen. autorewrite with fields. left; reflexivity. }
        destruct (String.eqb (selectedWorkflow s) "webform" && isConfirmVisitIntent (trim value))
          eqn:Hsw.
        { apply andb_true_iff in Hsw as [Hw Hi]. apply String.eqb_eq in Hw.
          right; right. exists value. repeat (split; [first [reflexivity | assumption]|]).
          unfold switchToConfirmVisitWorkflow, andThen, setTimeout. session_cbn.
          now autorewrite with fields. }
        left. cbv zeta. destruct (categorizeUserResponse _ _); unfold setTimeout; session_cbn;
          now autorewrite with fields.
      * left. unfold handleVersionSelect.
        destruct (negb (String.eqb (selectedVersion s) version)).
        -- apply (Keeps_resetConversation (fun s' => selectedWorkflow s' = selectedWorkflow s));
             kept_field selectedWorkflow_addMessage.
        -- cbn [messages set_selectedVersion].
           destruct (last (map Some (messages s)) None) as [[t [] [o|]]|]; try reflexivity.
           unfold renderOptions. destruct (aiEnabled _); reflexivity.
Qed.

End EngineInvariants.

(* ================================================================== *)
(** ** An opted-out page *)

Lemma lastSender_nil_or_user (l : list Message) :
  (l = [] \/ lastSender l = Some user) <-> lastSender l <> Some bot.
Proof.
  destruct l as [|m l] using rev_ind.
  - split; [intros _; discriminate | now left].
  - rewrite lastSender_snoc. split.
    + intros [H|H]; [now destruct l | destruct (sender m); congruence].
    + intros H. right. destruct (sender m); congruence.
Qed.

Lemma Settled_addMessage who t o : Keeps Settled (addMessage who t o).
Proof.
  intros s H. destruct who.
  - destruct (userHasStopped s) eqn:E.
    + now rewrite addMessage_muted.
    + intros Hs. rewrite userHasStopped_addMessage in Hs. congruence.
  - intros _. rewrite addMessage_user. split; [reflexivity|]. right.
    cbn [messages set_inputArea set_messages]. apply lastSender_snoc.
Qed.

Lemma Settled_same (a : Action) :
  (forall s, userHasStopped (a s) = userHasStopped s) ->
  (forall s, messages (a s) = messages s) ->
  (forall s, inputArea (a s) = inputArea s) ->
  Keeps Settled a.
Proof. intros H1 H2 H3 s H. unfold Settled. rewrite H1, H2, H3. exact H. Qed.

Lemma Settled_renderMessages (s : Session) :
  (userHasStopped s = true -> messages s = [] \/ lastSender (messages s) = Some user) ->
  Settled (renderMessages s).
Proof.
  intros H Hs. destruct (renderMessages_fields s) as (_ & _ & E1 & E2).
  rewrite E1 in Hs. rewrite E2. split; [|now apply H].
  specialize (H Hs). unfold renderMessages, lastSender in *.
  destruct (last (map Some (messages s)) None) as [[t [] [o|]]|] eqn:E; try reflexivity.
  destruct H as [H|H]; [rewrite H in E; discriminate | discriminate].
Qed.

Lemma Calm_Settled (s : Session) : Calm s -> Settled s.
Proof. intros [H|[H1 H2]] Hs; [congruence | auto]. Qed.

Lemma replaceNth_senders (i : nat) (m m' : Message) (l : list Message) :
  nth_error l i = Some m -> sender m' = sender m ->
  map sender (replaceNth i m' l) = map sender l.
Proof.
  revert i. induction l as [|x l IH]; intros [|i] H E; cbn in *; try discriminate.
  - injection H as ->. now rewrite E.
  - now rewrite (IH i H E).
Qed.

Lemma lastSender_senders (l l' : list Message) :
  map sender l' = map sender l -> lastSender l' = lastSender l.
Proof.
  intros H. unfold lastSender.
  assert (E : forall k : list Message,
             option_map sender (last (map Some k) None) = last (map Some (map sender k)) None).
  { induction k as [|x [|y k] IH]; try reflexivity. exact IH. }
  now rewrite !E, H.
Qed.

Lemma senders_nil (l l' : list Message) : map sender l' = map sender l -> l = [] -> l' = [].
Proof. intros H ->. now destruct l'. Qed.

Lemma saveDialogueMessage_senders i value optionInputs (s : Session) :
  map sender (messages (saveDialogueMessage i value optionInputs s)) = map sender (messages s).
Proof.
  unfold saveDialogueMessage. destruct (nth_error (messages s) i) as [m|] eqn:E; [|reflexivity].
  cbv zeta.
  match goal with |- context [renderMessages ?x] =>
    destruct (renderMessages_fields x) as (_ & _ & _ & ->) end.
  cbn [messages set_messages]. now apply replaceNth_senders with (m := m).
Qed.

Lemma removeDialogueOption_senders i k (s : Session) :
  map sender (messages (removeDialogueOption i k s)) = map sender (messages s).
Proof.
  unfold removeDialogueOption.
  destruct (nth_error (messages s) i) as [[t [] [o|]]|] eqn:E; try reflexivity.
  cbv zeta.
  match goal with |- context [renderMessages ?x] =>
    destruct (renderMessages_fields x) as (_ & _ & _ & ->) end.
  cbn [messages set_messages]. now apply replaceNth_senders with (m := mkMessage t user (Some o)).
Qed.

Lemma Settled_edited (s s1 : Session) :
  userHasStopped s1 = userHasStopped s ->
  map sender (messages s1) = map sender (messages s) ->
  Settled s -> Settled (renderMessages s1).
Proof.
  intros E1 E2 H. apply Settled_renderMessages. intros Hs. rewrite E1 in Hs.
  destruct (H Hs) as [_ [Hl|Hl]].
  - left. now apply senders_nil with (l := messages s).
  - right. now rewrite (lastSender_senders _ _ E2).
Qed.

Lemma Settled_saveDialogueMessage i value optionInputs :
  Keeps Settled (saveDialogueMessage i value optionInputs).
Proof.
  intros s H. unfold saveDialogueMessage.
  destruct (nth_error (messages s) i) as [m|] eqn:E; [|exact H]. cbv zeta.
  apply Settled_edited with (s := s); [reflexivity | | exact H].
  cbn [messages set_messages]. now apply replaceNth_senders with (m := m).
Qed.

Lemma Settled_removeDialogueOption i k : Keeps Settled (removeDialogueOption i k).
Proof.
  intros s H. unfold removeDialogueOption.
  destruct (nth_error (messages s) i) as [[t [] [o|]]|] eqn:E; try exact H. cbv zeta.
  apply Settled_edited with (s := s); [reflexivity | | exact H].
  cbn [messages set_messages]. now apply replaceNth_senders with (m := mkMessage t user (Some o)).
Qed.

Section SettledFacts.
Context {host : Host}.

Lemma Settled_step (e : Event) : Keeps Settled (step e).
Proof.
  intros s H. destruct (restarts e s) eqn:Hr.
  { intros Hs. apply restart_unstops in Hr as [Hr _]. congruence. }
  destruct (userHasStopped s) eqn:Hs; [|apply Calm_Settled, Calm_step; now left].
  destruct (H Hs) as [Hin Hlog].
  destruct (plainEvent e) eqn:Hp.
  - assert (X : userHasStopped (step e s) = true /\ Settled (step e s)); [|apply X].
    apply (Keeps_step_plain (fun x => userHasStopped x = true /\ Settled x));
      try assumption; try (intros; intros x Hx; exact Hx); [|now split].
    intros who t o x [Hx1 Hx2]. split; [now rewrite userHasStopped_addMessage|].
    now apply Settled_addMessage.
  - destruct e; try discriminate; cbn [step restarts] in *.
    + unfold handleTextInput. now rewrite Hin.
    + unfold handleVersionSelect. rewrite Hr.
      cbn [messages set_selectedVersion].
      destruct (last (map Some (messages s)) None) as [[t [] [o|]]|] eqn:E; try exact H.
      exfalso. destruct Hlog as [Hl|Hl].
      * rewrite Hl in E. discriminate.
      * unfold lastSender in Hl. rewrite E in Hl. discriminate.
Qed.

Lemma Settled_pageStep (e : PageEvent) (p : Page) :
  Settled (session p) -> Settled (session (pageStep e p)).
Proof.
  intros H. destruct e; cbn [pageStep]; rewrite ?session_onSession.
  - now apply Settled_step.
  - apply (Keeps_clickNode Settled); try exact H.
    + intros v. now apply Settled_same.
    + apply Settled_addMessage.
    + intros s Hs Hst. split; [now apply Hs | now left].
    + intros s Hs Hst. split; [reflexivity | now apply Hs].
    + intros v. now apply Settled_same.
  - apply (Keeps_fireReplay Settled); try exact H.
    + intros v. now apply Settled_same.
    + apply Settled_addMessage.
  - now apply Settled_saveDialogueMessage.
  - now apply Settled_removeDialogueOption.
Qed.

Lemma PageReachable_Settled (p : Page) : PageReachable p -> Settled (session p).
Proof.
  intros [events ->].
  assert (H : forall p0, Settled (session p0) -> Settled (session (pageRun events p0))).
  { induction events as [|e rest IH]; intros p0 H0; [exact H0|].
    cbn [pageRun]. now apply IH, Settled_pageStep. }
  apply H. intros Hs. discriminate Hs.
Qed.

(** X16. On every page reachable by the events of the engine, the clicks
    on the diagram with their replays and the dialogue editor, an opted-out
    session offers nothing to answer with: the input area is empty, and
    the log is empty or its last entry is the user's. *)
Theorem opted_out_session_offers_no_input (p : Page) :
  PageReachable p -> userHasStopped (session p) = true ->
  inputArea (session p) = NoInput
  /\ (messages (session p) = [] \/ lastSender (messages (session p)) = Some user).
Proof. intros Hr Hs. now apply PageReachable_Settled. Qed.

End SettledFacts.

Section PageFacts.
Context {host : Host}.

(** The opt-out outlasts the clicks on the diagram and the dialogue
    editor as it outlasts the events of the engine: only starting the
    conversation over lowers the opt-out flag, so until then no bot message
    is added. *)
Lemma page_stays_opted_out (e : PageEvent) (p : Page) :
  userHasStopped (session p) = true ->
  (forall e0, e = Engine e0 -> restarts e0 (session p) = false) ->
  userHasStopped (session (pageStep e p)) = true
  /\ forall t o, addMessage bot t o (session (pageStep e p)) = session (pageStep e p).
Proof.
  intros Hs Hr.
  assert (H : userHasStopped (session (pageStep e p)) = true).
  { destruct e as [e0|stateId|i|i v o|i k]; cbn [pageStep]; rewrite ?session_onSession.
    - apply Muted_step; [exact Hs | now apply Hr].
    - apply (Keeps_clickNode (fun x => userHasStopped x = true)); try exact Hs;
        intros; intros x Hx; autorewrite with fields; exact Hx.
    - apply (Keeps_fireReplay (fun x => userHasStopped x = true)); try exact Hs;
        intros; intros x Hx; autorewrite with fields; exact Hx.
    - destruct (saveDialogueMessage_fields i v o (session p)) as (_ & _ & ->). exact Hs.
    - destruct (removeDialogueOption_fields i k (session p)) as (_ & _ & ->). exact Hs. }
  split; [exact H|]. intros t o. now apply addMessage_muted.
Qed.

(** On the page as in the engine, while the text box is on screen the
    user has not opted out. *)
Lemma page_text_box_means_not_opted_out (p : Page) :
  PageReachable p -> inputArea (session p) = TextInput -> userHasStopped (session p) = false.
Proof.
  intros Hr Hin. destruct (userHasStopped (session p)) eqn:Hs; [|reflexivity].
  destruct (PageReachable_Settled p Hr Hs) as [E _]. congruence.
Qed.

End PageFacts.

(* ================================================================== *)
(** ** The log under the events of the page *)

Lemma addMessage_bot_fresh (t : string) (s : Session) :
  messages s = [] ->
  messages (addMessage bot t None s) = []
  \/ messages (addMessage bot t None s)
     = [mkMessage ADT_INTRO_MESSAGE bot None; mkMessage t bot None].
Proof.
  intros H. destruct (userHasStopped s) eqn:E.
  - left. now rewrite addMessage_muted.
  - right. rewrite addMessage_bot by exact E. cbn [messages set_inputArea set_messages].
    now rewrite H.
Qed.

Section LogFacts.
Context {host : Host}.

Ltac fresh_log :=
  cbv zeta; rewrite ?session_replay, ?session_onSession;
  unfold andThen, showCallingNotification;
  repeat match goal with |- context [if ?c then _ else _] => destruct c end;
  rewrite ?messages_set_currentState;
  first [ now left
        | match goal with
          | |- context [addMessage bot ?t None ?x] =>
              destruct (addMessage_bot_fresh t x eq_refl) as [E|E]; rewrite E;
              [now left | right; now exists t]
          end ].

Lemma updatePhoneUIForConfirmVisit_log (state : ConversationState) (p : Page) :
  messages (session (updatePhoneUIForConfirmVisit state p)) = [].
Proof.
  unfold updatePhoneUIForConfirmVisit.
  destruct state; cbv zeta; rewrite ?session_replay, ?session_onSession; reflexivity.
Qed.

Lemma updatePhoneUIForProductQuestion_log (state : ConversationState) (p : Page) :
  let l := messages (session (updatePhoneUIForProductQuestion state p)) in
  l = [] \/ exists t, l = [mkMessage ADT_INTRO_MESSAGE bot None; mkMessage t bot None].
Proof. unfold updatePhoneUIForProductQuestion. destruct state; fresh_log. Qed.

Lemma updatePhoneUIForState_log (state : ConversationState) (p : Page) :
  let l := messages (session (updatePhoneUIForState state p)) in
  l = [] \/ exists t, l = [mkMessage ADT_INTRO_MESSAGE bot None; mkMessage t bot None].
Proof.
  cbv zeta. unfold updatePhoneUIForState.
  destruct (String.eqb (selectedWorkflow (session p)) "confirm visit");
    [left; apply updatePhoneUIForConfirmVisit_log|].
  destruct (String.eqb (selectedWorkflow (session p)) "product question");
    [apply updatePhoneUIForProductQuestion_log|].
  destruct state; fresh_log.
Qed.

Lemma clickNode_log (stateId : string) (p : Page) :
  let l := messages (session (clickNode stateId p)) in
  clickNode stateId p = p
  \/ l = [] \/ exists t, l = [mkMessage ADT_INTRO_MESSAGE bot None; mkMessage t bot None].
Proof.
  cbv zeta. unfold clickNode, stateClick, confirmVisitStateClick, productQuestionStateClick.
  destruct (_ || _); [now left|].
  destruct (String.eqb _ "confirm visit").
  { destruct (clickedState _ _); [|now left].
    right; left. apply updatePhoneUIForConfirmVisit_log. }
  destruct (String.eqb _ "product question").
  { destruct (clickedState _ _); [|now left].
    right. apply updatePhoneUIForProductQuestion_log. }
  destruct (clickedState _ _); [|now left].
  right. apply updatePhoneUIForState_log.
Qed.

Lemma appends_pageStep (s0 : Session) (e : PageEvent) (p : Page) :
  appends e p = true ->
  (exists added, messages (session p) = messages s0 ++ added) ->
  exists added, messages (session (pageStep e p)) = messages s0 ++ added.
Proof.
  intros Ha H.
  assert (Hadd : forall who t o,
             Keeps (fun x => exists added, messages x = messages s0 ++ added)
                   (addMessage who t o)).
  { intros who t o x [added Hx]. destruct (addMessage_log who t o x) as (more & -> & _).
    exists (added ++ more). now rewrite Hx, app_assoc. }
  destruct e; cbn [appends pageStep] in *; try discriminate; rewrite ?session_onSession.
  - apply negb_true_iff in Ha.
    apply (Keeps_step_noRestart (fun x => exists added, messages x = messages s0 ++ added));
      try assumption; try (intros; intros x Hx; exact Hx).
    + intros opts x Hx. unfold renderOptions. destruct (aiEnabled x); exact Hx.
    + intros x _ Hx. exact Hx.
  - apply (Keeps_fireReplay (fun x => exists added, messages x = messages s0 ++ added));
      try assumption; intros; intros x Hx; exact Hx.
Qed.

(** X18. The log only grows under the events of the engine that do not
    start the conversation over and under the timers of the replays: such
    a sequence leaves every entry in place and appends. The dialogue editor
    rewrites an entry where it is, keeping the number of entries and the
    sender of each. A click on a node of the diagram that is acted on
    starts the log afresh without starting the conversation over: what is
    left is empty, or the disclosure and one message of the bot. *)
Theorem log_grows_between_restarts :
  (forall (events : list PageEvent) (p : Page),
      allAppend events p = true ->
      exists added, messages (session (pageRun events p)) = messages (session p) ++ added) /\
  (forall (i : nat) (value : string) (optionInputs : list string) (optionIndex : nat) (p : Page),
      map sender (messages (session (pageStep (SaveDialogueMessage i value optionInputs) p)))
        = map sender (messages (session p)) /\
      map sender (messages (session (pageStep (RemoveDialogueOption i optionIndex) p)))
        = map sender (messages (session p))) /\
  (forall (stateId : string) (p : Page),
      let l := messages (session (pageStep (ClickNode stateId) p)) in
      pageStep (ClickNode stateId) p = p
      \/ l = [] \/ exists t, l = [mkMessage ADT_INTRO_MESSAGE bot None; mkMessage t bot None]).
Proof.
  split; [|split].
  - intros events p Hq.
    assert (H : forall evs p0,
               allAppend evs p0 = true ->
               (exists added, messages (session p0) = messages (session p) ++ added) ->
               exists added, messages (session (pageRun evs p0)) = messages (session p) ++ added).
    { induction evs as [|e rest IH]; intros p0 Ha H0; [exact H0|].
      cbn [allAppend pageRun] in *. apply andb_true_iff in Ha as [Ha1 Ha2].
      apply IH; [exact Ha2 | now apply appends_pageStep]. }
    apply H; [exact Hq|]. exists []. now rewrite app_nil_r.
  - intros i value optionInputs optionIndex p. cbn [pageStep]. rewrite !session_onSession.
    split; [apply saveDialogueMessage_senders | apply removeDialogueOption_senders].
  - intros stateId p. apply clickNode_log.
Qed.

End LogFacts.

(* ================================================================== *)
(** ** Text submissions and option choices *)

Lemma trimStart_blank (s : string) : allWhiteSpace s = true -> trimStart s = "".
Proof.
  induction s as [|c s IH]; simpl; [reflexivity|].
  intros H. apply andb_true_iff in H as [Hc Hs]. rewrite Hc. now apply IH.
Qed.

Lemma trimEnd_nonempty (s : string) : allWhiteSpace s = false -> trimEnd s <> "".
Proof.
  induction s as [|c s IH]; simpl; [discriminate|].
  intros H. destruct (trimEnd s) eqn:E; [|discriminate].
  destruct (isWhiteSpace c) eqn:Hc; [|discriminate].
  simpl in H. destruct (allWhiteSpace s); [discriminate|]. now apply IH.
Qed.

Lemma allWhiteSpace_trimStart (s : string) : allWhiteSpace (trimStart s) = allWhiteSpace s.
Proof.
  induction s as [|c s IH]; simpl; [reflexivity|].
  destruct (isWhiteSpace c) eqn:Hc; [exact IH|]. simpl. now rewrite Hc.
Qed.

Lemma trim_blank_iff (s : string) : trim s = "" <-> allWhiteSpace s = true.
Proof.
  unfold trim. split.
  - intros H. destruct (allWhiteSpace s) eqn:E; [reflexivity|].
    exfalso. apply (trimEnd_nonempty (trimStart s)); [|exact H].
    now rewrite allWhiteSpace_trimStart.
  - intros H. now rewrite trimStart_blank.
Qed.

Section TextFacts.
Context {host : Host}.

(** X20. A submission is ignored when the text box is not on screen or
    the box holds nothing but white space; every other submission is
    appended to the log, trimmed, as the user's message, before anything
    else happens. *)
Theorem text_submission_is_logged (value : string) (s : Session) :
  (inputArea s <> TextInput \/ allWhiteSpace value = true ->
   step (SubmitText value) s = s) /\
  (inputArea s = TextInput -> allWhiteSpace value = false ->
   messages (step (SubmitText value) s) = messages s ++ [mkMessage (trim value) user None]).
Proof.
  cbn [step]. unfold handleTextInput. split.
  - intros [H|H].
    + destruct (inputArea s); try reflexivity. now elim H.
    + apply trim_blank_iff in H. rewrite H. cbn. now destruct (inputArea s).
  - intros Hin Hb. rewrite Hin.
    assert (Hne : String.eqb (trim value) "" = false).
    { apply String.eqb_neq. intros E. apply trim_blank_iff in E. congruence. }
    rewrite Hne.
    destruct (String.eqb (toUpperCase (trim value)) "STOP").
    { unfold andThen. rewrite addMessage_user. reflexivity. }
    destruct (String.eqb (selectedWorkflow s) "webform" && isConfirmVisitIntent (trim value)).
    { unfold switchToConfirmVisitWorkflow, andThen, setTimeout. session_cbn.
      autorewrite with fields. rewrite addMessage_user. reflexivity. }
    cbv zeta. destruct (categorizeUserResponse _ _); unfold setTimeout; session_cbn;
      rewrite addMessage_user; reflexivity.
Qed.

End TextFacts.

(** What [addMessage] leaves in the input area when the message carries
    no options. *)
Lemma inputArea_addMessage_None who t (s : Session) :
  inputArea s = NoInput -> inputArea (addMessage who t None s) = NoInput.
Proof.
  intros H. destruct who.
  - destruct (userHasStopped s) eqn:E.
    + now rewrite addMessage_muted.
    + now rewrite addMessage_bot.
  - now rewrite addMessage_user.
Qed.

(** X21. Dispatching an option label empties the input area: whatever the
    label and the state, the buttons (or the text box) are gone until a
    later message brings options again. *)
Theorem choice_clears_the_input_area (opt : string) (s : Session) :
  inputArea (handleOptionSelect opt s) = NoInput.
Proof.
  unfold handleOptionSelect, andThen.
  assert (H : inputArea (addMessage user opt None s) = NoInput)
    by now rewrite addMessage_user.
  revert H. generalize (addMessage user opt None s). clear s. intros s H.
  unfold handleConfirmVisitResponse, handleResponseToCallQuestion, handleBetterTimeResponse,
    handleAfterCancelResponse, showTimePassingAnimation, showDateTimePicker, andThen, setTimeout.
  split_tests; session_cbn; try exact H; now apply inputArea_addMessage_None.
Qed.

(* ================================================================== *)
(** ** The loop of the next-day follow-up *)

(** The primitives on a session given field by field. *)
Lemma setTimeout_literal cb cs sd ms fl st wf ver ai ia p :
  setTimeout cb (mkSession cs sd ms fl st wf ver ai ia p)
  = mkSession cs sd ms fl st wf ver ai ia (p ++ [cb]).
Proof. reflexivity. Qed.

Lemma addMessage_user_literal t o cs sd ms fl st wf ver ai ia p :
  addMessage user t o (mkSession cs sd ms fl st wf ver ai ia p)
  = mkSession cs sd (ms ++ [mkMessage t user o]) fl st wf ver ai NoInput p.
Proof. now rewrite addMessage_user. Qed.

Lemma addMessage_bot_literal t o cs sd l m fl wf ver ai ia p :
  addMessage bot t o (mkSession cs sd (l ++ [m]) fl false wf ver ai ia p)
  = mkSession cs sd ((l ++ [m]) ++ [mkMessage t bot o]) fl false wf ver ai
      (match o with
       | Some opts => if ai then TextInput else OptionButtons opts
       | None => NoInput
       end) p.
Proof.
  rewrite addMessage_bot by reflexivity. cbn [messages aiEnabled].
  assert (H : (length (l ++ [m]) =? 0)%nat = false)
    by (rewrite length_app; cbn; apply Nat.eqb_neq; lia).
  rewrite H. reflexivity.
Qed.

Section FollowupLoop.
Context {host : Host}.

Lemma run_app (a b : list Event) (s : Session) : run (a ++ b) s = run b (run a s).
Proof. revert s. induction a as [|e a IH]; intros s; [reflexivity|]. cbn [app run]. apply IH. Qed.

Lemma followup_round (s : Session) :
  AtFollowup s ->
  AtFollowup (run followupRound s) /\
  selectedWorkflow (run followupRound s) = selectedWorkflow s /\
  messages (run followupRound s)
  = messages s ++ [ mkMessage "No" user None;
                    mkMessage ADT_INTRO_MESSAGE bot None;
                    mkMessage (followupMessage (selectedWorkflow s)) bot None;
                    mkMessage "" bot (Some ["Yes"; "No"]) ].
Proof.
  intros (Hwf & Hst & Hfl & Hstop & Hai & Hin & Hp).
  destruct s as [cs sd ms fl st wf ver ai ia pend]. cbn in Hwf, Hst, Hfl, Hstop, Hai, Hin, Hp.
  subst cs fl st ai ia pend.
  assert (Hwf' : String.eqb wf "confirm visit" = false) by now apply String.eqb_neq.
  assert (E : run followupRound (mkSession followup_next_day sd ms true false wf ver false
                                   (OptionButtons ["Yes"; "No"]) [])
              = mkSession followup_next_day sd
                  ((((ms ++ [mkMessage "No" user None])
                     ++ [mkMessage ADT_INTRO_MESSAGE bot None])
                    ++ [mkMessage (followupMessage wf) bot None])
                   ++ [mkMessage "" bot (Some ["Yes"; "No"])])
                  true false wf ver false (OptionButtons ["Yes"; "No"]) []).
  { unfold followupRound, run, step.
    (* the option is clicked *)
    unfold clickOption. cbn [inputArea nth_error].
    unfold handleOptionSelect, andThen. rewrite addMessage_user_literal.
    cbn [selectedWorkflow currentState]. rewrite Hwf'.
    unfold handleResponseToCallQuestion.
    cbn [String.eqb Ascii.eqb Bool.eqb isAfter24HourFollowup].
    unfold showTimePassingAnimation. rewrite setTimeout_literal. cbn [app].
    (* the progress bar fills *)
    unfold fire at 3. cbn [pending nth_error removeNth runCallback].
    unfold set_pending. session_cbn. unfold timePassed. rewrite setTimeout_literal. cbn [app].
    (* the day has passed *)
    unfold fire at 2. cbn [pending nth_error removeNth runCallback].
    unfold set_pending. session_cbn. unfold followupNextDay, andThen. cbn [selectedWorkflow].
    rewrite !addMessage_bot_literal. unfold set_currentState. session_cbn.
    unfold set_isAfter24HourFollowup. session_cbn. rewrite setTimeout_literal. cbn [app].
    (* the prompt is shown *)
    unfold fire. cbn [pending nth_error removeNth runCallback].
    unfold set_pending. session_cbn. rewrite addMessage_bot_literal. reflexivity. }
  rewrite E. unfold AtFollowup. session_cbn.
  repeat split; try assumption; try reflexivity.
  now rewrite <- !app_assoc.
Qed.

(** X22. The next-day follow-up has no end of its own: as long as the
    answer is No, each round (the answer, the 24 hours, the follow-up and
    its prompt) brings the session back to where it was, with the flag
    still raised and four more entries in the log. *)
Theorem followup_repeats_while_no (n : nat) (s : Session) :
  AtFollowup s ->
  AtFollowup (run (concat (repeat followupRound n)) s) /\
  length (messages (run (concat (repeat followupRound n)) s)) = length (messages s) + 4 * n.
Proof.
  revert s. induction n as [|n IH]; intros s H.
  - cbn. split; [exact H | lia].
  - destruct (followup_round s H) as (H1 & _ & H2).
    cbn [repeat concat]. rewrite run_app.
    destruct (IH _ H1) as (H3 & H4). split; [exact H3|].
    rewrite H4, H2, length_app. cbn [length]. lia.
Qed.

End FollowupLoop.

(* ================================================================== *)
(** ** The call screen and the diagrams *)

Lemma substring_all_app (a b : string) :
  String.substring 0 (String.length a) (a ++ b) = a.
Proof. induction a as [|c a IH]; simpl; [now destruct b | now rewrite IH]. Qed.

Lemma dropLast_snoc (s key : string) : String.length key = 1 -> dropLast (s ++ key) = s.
Proof.
  intros H. unfold dropLast. rewrite length_append, H.
  replace (String.length s + 1 - 1) with (String.length s) by lia.
  apply substring_all_app.
Qed.

Lemma handleKeypadDelete_press (key : string) (c : CallControls) :
  String.length key = 1 -> handleKeypadDelete (handleKeypadKeyPress key c) = c.
Proof.
  intros H. unfold handleKeypadDelete, handleKeypadKeyPress. cbn [keypadInput isMuted isSpeakerOn isKeypadVisible].
  rewrite length_append, H.
  replace (0 <? String.length (keypadInput c) + 1)%nat with true
    by (symmetry; apply Nat.ltb_lt; lia).
  rewrite dropLast_snoc by exact H. now destruct c.
Qed.

Lemma pressAll_snoc (keys : list string) (k : string) (c : CallControls) :
  pressAll (keys ++ [k]) c = handleKeypadKeyPress k (pressAll keys c).
Proof. revert c. induction keys as [|x keys IH]; intros c; [reflexivity|]. cbn. apply IH. Qed.

(** X23. On the keypad, deleting once per key pressed brings back what was
    typed before, whatever it was, and deleting on an empty display does
    nothing; hiding or showing the keypad keeps what was typed, and a new
    call screen starts with an empty display. *)
Theorem keypad_delete_undoes_presses (keys : list string) (c : CallControls) :
  Forall (fun k => String.length k = 1) keys ->
  Nat.iter (length keys) handleKeypadDelete (pressAll keys c) = c
  /\ (keypadInput c = "" -> handleKeypadDelete c = c)
  /\ keypadInput (handleKeypadToggle c) = keypadInput c
  /\ keypadInput (showCallScreen (pressAll keys c)) = "".
Proof.
  intros H. split; [|split; [|split]].
  - induction keys as [|k keys IH] using rev_ind; [reflexivity|].
    apply Forall_app in H as [H1 H2]. inversion H2 as [|? ? Hk _]; subst.
    rewrite length_app, Nat.add_comm. cbn [length plus]. rewrite Nat.iter_succ_r.
    rewrite pressAll_snoc, handleKeypadDelete_press by exact Hk. now apply IH.
  - intros E. unfold handleKeypadDelete. now rewrite E.
  - unfold handleKeypadToggle, hideKeypad. cbn [isKeypadVisible keypadInput].
    now destruct (negb (isKeypadVisible c)).
  - reflexivity.
Qed.

Lemma keypad_delete_witness :
  Forall (fun k => String.length k = 1) ["5"; "#"; "0"] /\
  Nat.iter 3 handleKeypadDelete (pressAll ["5"; "#"; "0"] (mkCallControls true false true "12"))
  = mkCallControls true false true "12".
Proof.
  assert (H : Forall (fun k => String.length k = 1) ["5"; "#"; "0"])
    by (repeat constructor).
  split; [exact H|].
  apply (keypad_delete_undoes_presses ["5"; "#"; "0"] (mkCallControls true false true "12") H).
Defined.



Ltac by_table H :=
  unfold clickedState in H; cbn [find fst snd] in H;
  repeat match type of H with
    | context [String.eqb ?k ?id] =>
        let E := fresh "E" in
        destruct (String.eqb k id) eqn:E;
        [apply String.eqb_eq in E; subst; injection H as <-; vm_compute; tauto|]
    end;
  discriminate H.

(** X25. A click on a node of a diagram assigns a state for which the
    diagram marks that very node, with five exceptions: the nodes for the
    first SMS and for the redial (in the webform and the product-question
    diagram) leave the outbound-call node marked, and Reschedule
    Appointment leaves the reschedule question marked. *)
Theorem diagram_click_marks_clicked_node (stateId : string) (c : ConversationState) :
  (clickedState webformDiagramToConversationState stateId = Some c ->
   activeStateId "webform" c = stateId
   \/ ((stateId = "sms_initial" \/ stateId = "redial_lead")
       /\ activeStateId "webform" c = "outbound_call")) /\
  (clickedState productQuestionDiagramToConversationState stateId = Some c ->
   activeStateId "product question" c = stateId
   \/ ((stateId = "sms_initial_pq" \/ stateId = "redial_lead_pq")
       /\ activeStateId "product question" c = "outbound_call_pq")) /\
  (clickedState confirmVisitDiagramToConversationState stateId = Some c ->
   activeStateId "confirm visit" c = stateId
   \/ (stateId = "cv_reschedule_appointment"
       /\ activeStateId "confirm visit" c = "cv_reschedule_question")).
Proof.
  split; [|split]; intros H.
  - unfold webformDiagramToConversationState in H. by_table H.
  - unfold productQuestionDiagramToConversationState in H. by_table H.
  - unfold confirmVisitDiagramToConversationState in H. by_table H.
Qed.

(* ================================================================== *)
(** ** The further statements on concrete sessions *)

Lemma disclosure_heads_the_log_witness :
  @Reachable demoHost started /\
  messages started
  = [mkMessage ADT_INTRO_MESSAGE bot None;
     mkMessage "We received your interest form! We are calling now." bot None] /\
  sender (mkMessage ADT_INTRO_MESSAGE bot None) = bot /\
  mkMessage ADT_INTRO_MESSAGE bot None = mkMessage ADT_INTRO_MESSAGE bot None.
Proof.
  assert (H1 : @Reachable demoHost started) by apply Reachable_run.
  assert (H2 : messages started
               = [mkMessage ADT_INTRO_MESSAGE bot None;
                  mkMessage "We received your interest form! We are calling now." bot None])
    by (vm_compute; reflexivity).
  split; [exact H1 | split; [exact H2 | split; [reflexivity|]]].
  apply (@disclosure_heads_the_log demoHost started _ _ H1 H2). reflexivity.
Defined.

Lemma input_mode_follows_ai_witness :
  @Reachable demoHost awaitingReply /\
  (inputArea awaitingReply = TextInput -> aiEnabled awaitingReply = true).
Proof.
  assert (H : @Reachable demoHost awaitingReply) by apply Reachable_run.
  split; [exact H|]. apply (@input_mode_follows_ai demoHost awaitingReply H).
Defined.

Lemma optedOut_Reachable : @Reachable demoHost optedOut.
Proof. exists (declinedWithAI ++ [SubmitText " Stop "]). vm_compute. reflexivity. Qed.

Lemma opt_out_needs_ai_witness :
  @Reachable demoHost optedOut /\ userHasStopped optedOut = true /\ aiEnabled optedOut = true.
Proof.
  assert (H2 : userHasStopped optedOut = true) by (vm_compute; reflexivity).
  split; [exact optedOut_Reachable | split; [exact H2|]].
  apply (@opt_out_needs_ai demoHost optedOut optedOut_Reachable H2).
Defined.

Lemma stored_time_witness :
  @Reachable demoHost callScheduled /\
  scheduledDateTime callScheduled = Some "2025-01-06T14:30" /\
  exists d h m a,
    validateDateTime d h m a = Accepted "2025-01-06T14:30" /\
    d <> "" /\ h <> "" /\ m <> "" /\ a <> "" /\
    (forall hours24, to24 (parseInt h) a = Some hours24 -> (9 <= hours24 < 17)%Z).
Proof.
  assert (H1 : @Reachable demoHost callScheduled) by apply Reachable_run.
  assert (H2 : scheduledDateTime callScheduled = Some "2025-01-06T14:30")
    by (vm_compute; reflexivity).
  split; [exact H1 | split; [exact H2|]].
  apply (@stored_time_passed_the_check demoHost callScheduled _ H1 H2).
Defined.

Lemma only_stop_witness :
  userHasStopped awaitingReply = false /\
  userHasStopped (@step demoHost (SubmitText " Stop ") awaitingReply) = true /\
  exists value, SubmitText " Stop " = SubmitText value /\ inputArea awaitingReply = TextInput
                /\ toUpperCase (trim value) = "STOP".
Proof.
  assert (H1 : userHasStopped awaitingReply = false) by (vm_compute; reflexivity).
  assert (H2 : userHasStopped (@step demoHost (SubmitText " Stop ") awaitingReply) = true)
    by (vm_compute; reflexivity).
  split; [exact H1 | split; [exact H2|]].
  apply (@only_stop_opts_out demoHost (SubmitText " Stop ") awaitingReply H1 H2).
Defined.

Lemma followup_repeats_witness :
  AtFollowup atFollowupPrompt /\
  length (messages (@run demoHost (concat (repeat followupRound 3)) atFollowupPrompt))
  = length (messages atFollowupPrompt) + 4 * 3.
Proof.
  assert (H : AtFollowup atFollowupPrompt).
  { unfold AtFollowup. repeat split; try (vm_compute; reflexivity). vm_compute. discriminate. }
  split; [exact H|].
  apply (@followup_repeats_while_no demoHost 3 atFollowupPrompt H).
Defined.

Lemma PageReachable_run (events : list PageEvent) :
  @PageReachable demoHost (@pageRun demoHost events initPage).
Proof. now exists events. Qed.

Lemma opted_out_no_input_witness :
  @PageReachable demoHost clickedAfterOptOut /\
  userHasStopped (session clickedAfterOptOut) = true /\
  inputArea (session clickedAfterOptOut) = NoInput /\
  (messages (session clickedAfterOptOut) = []
   \/ lastSender (messages (session clickedAfterOptOut)) = Some user).
Proof.
  assert (H1 : @PageReachable demoHost clickedAfterOptOut) by apply PageReachable_run.
  assert (H2 : userHasStopped (session clickedAfterOptOut) = true) by (vm_compute; reflexivity).
  split; [exact H1 | split; [exact H2|]].
  apply (@opted_out_session_offers_no_input demoHost clickedAfterOptOut H1 H2).
Defined.

(** After the click the opted-out session has an empty log; the replay
    then adds the user's part of the conversation it shows, and nothing of
    the bot's. *)
Example opted_out_click_and_replay :
  messages (session clickedAfterOptOut) = [] /\
  messages (session (@pageRun demoHost [FireReplay 0; FireReplay 0; FireReplay 0]
                       clickedAfterOptOut))
  = [mkMessage "No" user None].
Proof. vm_compute. split; reflexivity. Qed.

Lemma log_grows_witness :
  @allAppend demoHost [Engine (Fire 0 Threw); Engine (SelectOption 4)] (mkPage justDeclined [])
  = true /\
  exists added,
    messages (session (@pageRun demoHost [Engine (Fire 0 Threw); Engine (SelectOption 4)]
                         (mkPage justDeclined [])))
    = messages justDeclined ++ added.
Proof.
  assert (H : @allAppend demoHost [Engine (Fire 0 Threw); Engine (SelectOption 4)]
                (mkPage justDeclined []) = true) by (vm_compute; reflexivity).
  split; [exact H|].
  apply (proj1 (@log_grows_between_restarts demoHost)
           [Engine (Fire 0 Threw); Engine (SelectOption 4)] (mkPage justDeclined []) H).
Defined.

(** A click on a node is no restart, yet the log it leaves holds none of
    the three entries that were there. *)
Example node_click_empties_the_log :
  length (messages awaitingReply) = 3 /\
  messages (session (@pageStep demoHost (ClickNode "dnc") (mkPage awaitingReply [])))
  = [mkMessage ADT_INTRO_MESSAGE bot None;
     mkMessage "We received your interest form! We are calling now." bot None] /\
  userHasStopped (session (@pageStep demoHost (ClickNode "better_time") (mkPage optedOut [])))
  = true.
Proof. vm_compute. repeat split; reflexivity. Qed.

(** A click on the follow-up node raises the flag without any 24-hour
    pass, and a click on another node lowers it without any answer. *)
Example node_clicks_set_the_flag :
  let p := @pageRun demoHost clickFollowupNode initPage in
  let p' := @pageStep demoHost (ClickNode "sms_followup") p in
  isAfter24HourFollowup (session p) = true /\
  currentState (session p) = followup_next_day /\
  isAfter24HourFollowup (session p') = false /\
  currentState (session p') = waiting_for_response.
Proof. vm_compute. repeat split; reflexivity. Qed.

(** In the confirm-visit workflow a timer left over from the webform
    conversation brings back waiting_for_response, where the six options
    are shown and Yes is only logged. *)
Example stale_timer_in_confirm_visit :
  let s := @run demoHost declinedThenConfirmVisit initApp in
  selectedWorkflow s = "confirm visit" /\
  currentState s = waiting_for_response /\
  inputArea s = OptionButtons sixOptions /\
  @clickOption 0 s = loggedChoice "Yes" s.
Proof. vm_compute. repeat split; reflexivity. Qed.
